(** * ChessBlunders: engine-output parsing, score normalisation, move
      evaluation and the blunder walk

    A shallow embedding of the evaluation core of the repository:

    - [cloud-stockfish/lambda_handler.py]: [parse_stockfish_output] and the
      argument handling of [handler];
    - [cloud-stockfish/app.py]: [get_eval_cp] and [evaluate_move];
    - [local_python/stockfish_interface.py]: [LocalStockfish._get_eval] and
      [LocalStockfish.evaluate];
    - [local_python/tests/test_engines.py]: [get_eval_cp],
      [analyze_position] and [analyze_game].

    Python integers are unbounded and are modelled by [Z].  Python strings
    are modelled by [string], every character read as a code point below
    256.  Exceptions are modelled by the error monad [res]. *)

From Stdlib Require Import ZArith QArith Lia List Bool Ascii String.
From Stdlib Require Import Sorted Permutation SpecFloat.
From stdpp Require Import base option list strings gmap.

Import ListNotations.
Local Open Scope string_scope.
Local Open Scope list_scope.
Local Open Scope Z_scope.

(* ===================================================================== *)
(** * Exceptions *)
(* ===================================================================== *)

(** The Python exceptions that the embedded functions can raise, and the
    HTTP errors of the REST handler. *)
Inductive exn : Type :=
  | ValueError
  | IndexError
  | TypeError
  | AttributeError
  | OverflowError
  | TimeoutExpired
  | EngineError
  | HTTPException (status_code : Z).

(** Outcome of a computation that may raise. *)
Inductive res (A : Type) : Type :=
  | Ok (a : A)
  | Raise (e : exn).

Arguments Ok {A} a.
Arguments Raise {A} e.

Definition res_bind {A B : Type} (m : res A) (k : A -> res B) : res B :=
  match m with
  | Ok a => k a
  | Raise e => Raise e
  end.

Notation "'do' x <- m ; k" := (res_bind m (fun x => k))
  (at level 10, x name, m at level 100, k at level 200, only parsing).

(** [l[i]] on a Python list with a non-negative index. *)
Definition py_getitem {A : Type} (l : list A) (i : nat) : res A :=
  match nth_error l i with
  | Some a => Ok a
  | None => Raise IndexError
  end.

(* ===================================================================== *)
(** * The scores of the chess library *)
(* ===================================================================== *)

Module Chess.

(** [chess.WHITE] is [True], [chess.BLACK] is [False]. *)
Inductive Color : Type := WHITE | BLACK.

Definition Color_eqb (a b : Color) : bool :=
  match a, b with
  | WHITE, WHITE | BLACK, BLACK => true
  | _, _ => false
  end.

(** [chess.engine.Score]: [Cp], [Mate] and the singleton [MateGiven]. *)
Inductive Score : Type :=
  | Cp (cp : Z)
  | Mate (moves : Z)
  | MateGiven.

(** [Score.__neg__]. *)
Definition Score_neg (s : Score) : Score :=
  match s with
  | Cp cp => Cp (- cp)
  | Mate moves => if moves =? 0 then MateGiven else Mate (- moves)
  | MateGiven => Mate 0
  end.

(** [Score.mate()]. *)
Definition mate (s : Score) : option Z :=
  match s with
  | Cp _ => None
  | Mate moves => Some moves
  | MateGiven => Some 0
  end.

(** [Score.is_mate()]. *)
Definition is_mate (s : Score) : bool :=
  match mate s with
  | Some _ => true
  | None => false
  end.

(** [Score.score()] with no [mate_score]. *)
Definition score (s : Score) : option Z :=
  match s with
  | Cp cp => Some cp
  | Mate _ => None
  | MateGiven => None
  end.

(** [chess.engine.PovScore]: a score relative to the point of view
    [turn]. *)
Record PovScore : Type := mkPovScore {
  relative : Score;
  turn : Color
}.

(** [PovScore.pov(color)]. *)
Definition pov (ps : PovScore) (color : Color) : Score :=
  if Color_eqb (turn ps) color then relative ps else Score_neg (relative ps).

(** [PovScore.white()]. *)
Definition white (ps : PovScore) : Score := pov ps WHITE.

End Chess.

Import Chess.

(* ===================================================================== *)
(** * Python string primitives *)
(* ===================================================================== *)

Module PyStr.

(** [str.isspace] on one character: the whitespace that [str.strip()] and
    [str.split()] remove (code points 9-13, 28-32, 133 and 160). *)
Definition is_space (c : ascii) : bool :=
  let n := nat_of_ascii c in
  ((9 <=? n)%nat && (n <=? 13)%nat)
  || ((28 <=? n)%nat && (n <=? 32)%nat)
  || (n =? 133)%nat || (n =? 160)%nat.

Fixpoint lstrip (s : string) : string :=
  match s with
  | EmptyString => EmptyString
  | String c s' => if is_space c then lstrip s' else s
  end.

Fixpoint rstrip (s : string) : string :=
  match s with
  | EmptyString => EmptyString
  | String c s' =>
      match rstrip s' with
      | EmptyString => if is_space c then EmptyString else String c EmptyString
      | r => String c r
      end
  end.

(** [s.strip()]. *)
Definition strip (s : string) : string := rstrip (lstrip s).

(** [s.split(sep)] for a one-character separator: never the empty list. *)
Fixpoint split_on (sep : ascii) (s : string) : list string :=
  match s with
  | EmptyString => [EmptyString]
  | String c s' =>
      if Ascii.eqb c sep then EmptyString :: split_on sep s'
      else match split_on sep s' with
           | h :: t => String c h :: t
           | [] => [String c EmptyString]
           end
  end.

(** [s.split()]: the maximal runs of non-whitespace characters. *)
Fixpoint split (s : string) : list string :=
  match s with
  | EmptyString => []
  | String c s' =>
      if is_space c then split s'
      else match s' with
           | EmptyString => [String c EmptyString]
           | String c' _ =>
               if is_space c' then String c EmptyString :: split s'
               else match split s' with
                    | h :: t => String c h :: t
                    | [] => [String c EmptyString]
                    end
           end
  end.

(** [s.startswith(p)]. *)
Definition startswith (s p : string) : bool := String.prefix p s.

(** [sub in s] on strings. *)
Fixpoint contains (sub s : string) : bool :=
  String.prefix sub s
  || match s with
     | EmptyString => false
     | String _ s' => contains sub s'
     end.

(** [x in l] on a list of strings. *)
Definition mem (x : string) (l : list string) : bool :=
  existsb (String.eqb x) l.

(** [l.index(x)]: position of the first occurrence, [ValueError] if none. *)
Fixpoint index (x : string) (l : list string) : res nat :=
  match l with
  | [] => Raise ValueError
  | y :: l' => if String.eqb y x then Ok 0%nat
               else do i <- index x l'; Ok (S i)
  end.

Definition is_digit (c : ascii) : bool :=
  let n := nat_of_ascii c in (48 <=? n)%nat && (n <=? 57)%nat.

Definition digit_val (c : ascii) : Z := Z.of_nat (nat_of_ascii c) - 48.

(** The digits of an integer literal: decimal digits, with single
    underscores allowed between two digits. *)
Fixpoint int_digits (acc : Z) (prev_digit : bool) (s : string) : option Z :=
  match s with
  | EmptyString => if prev_digit then Some acc else None
  | String c s' =>
      if is_digit c then int_digits (10 * acc + digit_val c) true s'
      else if Ascii.eqb c "_"%char then
             if prev_digit then int_digits acc false s' else None
      else None
  end.

Fixpoint count_digits (s : string) : Z :=
  match s with
  | EmptyString => 0
  | String c s' =>
      if is_digit c then 1 + count_digits s' else count_digits s'
  end.

(** [sys.get_int_max_str_digits()], the default of CPython 3.11 and later. *)
Definition int_max_str_digits : Z := 4300.

(** The whitespace that [int] drops around a literal: code points 9-13,
    32, 133 and 160, but not the separators 28-31. *)
Definition is_int_space (c : ascii) : bool :=
  let n := nat_of_ascii c in
  ((9 <=? n)%nat && (n <=? 13)%nat)
  || (n =? 32)%nat || (n =? 133)%nat || (n =? 160)%nat.

Fixpoint int_lstrip (s : string) : string :=
  match s with
  | EmptyString => EmptyString
  | String c s' => if is_int_space c then int_lstrip s' else s
  end.

Fixpoint int_rstrip (s : string) : string :=
  match s with
  | EmptyString => EmptyString
  | String c s' =>
      match int_rstrip s' with
      | EmptyString =>
          if is_int_space c then EmptyString else String c EmptyString
      | r => String c r
      end
  end.

(** [int(s)] in base 10: surrounding whitespace is dropped, then an
    optional sign, then the digits; anything else is a [ValueError]. *)
Definition int (s : string) : res Z :=
  let s := int_rstrip (int_lstrip s) in
  let '(neg, body) :=
    match s with
    | EmptyString => (false, s)
    | String c r =>
        if Ascii.eqb c "+"%char then (false, r)
        else if Ascii.eqb c "-"%char then (true, r)
        else (false, s)
    end in
  if int_max_str_digits <? count_digits body then Raise ValueError
  else match int_digits 0 false body with
       | Some v => Ok (if neg then - v else v)
       | None => Raise ValueError
       end.

(** [c.lower()] on one character: A-Z, and the capital letters of code
    points 192-222 other than 215. *)
Definition lower_char (c : ascii) : ascii :=
  let n := nat_of_ascii c in
  if ((65 <=? n)%nat && (n <=? 90)%nat)
     || ((192 <=? n)%nat && (n <=? 222)%nat && negb (n =? 215)%nat)
  then ascii_of_nat (n + 32) else c.

(** [s.lower()]. *)
Fixpoint lower (s : string) : string :=
  match s with
  | EmptyString => EmptyString
  | String c s' => String (lower_char c) (lower s')
  end.

(** [str(n)] for a non-negative integer, as the f-strings print it. *)
Fixpoint str_of_nat_aux (fuel n : nat) (acc : string) : string :=
  match fuel with
  | O => acc
  | S fuel' =>
      let acc' := String (ascii_of_nat (48 + n mod 10)) acc in
      if (n <? 10)%nat then acc' else str_of_nat_aux fuel' (n / 10) acc'
  end.

Definition str_of_nat (n : nat) : string := str_of_nat_aux (S n) n EmptyString.

End PyStr.

(* ===================================================================== *)
(** * The serverless handler: [cloud-stockfish/lambda_handler.py] *)
(* ===================================================================== *)

Module Lambda.

(** The value of the ["score"] key: [{"mate": v}] or [{"cp": v}]. *)
Inductive score_dict : Type :=
  | ScoreMate (v : Z)
  | ScoreCp (v : Z).

#[global] Instance score_dict_eq_dec : EqDecision score_dict.
Proof. solve_decision. Defined.

(** The dict [line_data] built for one analysis line. *)
Record line_data : Type := mk_line_data {
  depth : Z;
  score : score_dict;
  pv : list string;
  multipv : Z
}.

#[global] Instance line_data_eq_dec : EqDecision line_data.
Proof. solve_decision. Defined.

(** [l.remove(x)]: drops the first element equal to [x], [ValueError] if
    there is none. *)
Fixpoint list_remove (x : line_data) (l : list line_data)
  : res (list line_data) :=
  match l with
  | [] => Raise ValueError
  | y :: l' =>
      if decide (y = x) then Ok l'
      else do r <- list_remove x l'; Ok (y :: r)
  end.

(** [next((item for item in lines if item["multipv"] == pv_num), None)]. *)
Definition existing_for (pv_num : Z) (lines : list line_data)
  : option line_data :=
  List.find (fun item => multipv item =? pv_num) lines.

(** The body of the [try] block, on the tokens [parts] of an info line;
    the result is the new value of [result["lines"]]. *)
Definition try_body (parts : list string) (lines : list line_data)
  : res (list line_data) :=
  if negb (PyStr.mem "depth" parts) || negb (PyStr.mem "score" parts)
     || negb (PyStr.mem "pv" parts)
  then Ok lines
  else
    do depth_i <- PyStr.index "depth" parts;
    let depth_idx := S depth_i in
    do score_i <- PyStr.index "score" parts;
    let score_idx := S score_i in
    do pv_i <- PyStr.index "pv" parts;
    let pv_idx := S pv_i in
    do depth_tok <- py_getitem parts depth_idx;
    do depth_val <- PyStr.int depth_tok;
    do score_type <- py_getitem parts score_idx;
    do score_tok <- py_getitem parts (S score_idx);
    do score_value <- PyStr.int score_tok;
    let pv := List.skipn pv_idx parts in
    do pv_num <-
      (if PyStr.mem "multipv" parts then
         do multipv_i <- PyStr.index "multipv" parts;
         do multipv_tok <- py_getitem parts (S multipv_i);
         PyStr.int multipv_tok
       else Ok 1);
    let score :=
      if String.eqb score_type "mate" then ScoreMate score_value
      else ScoreCp score_value in
    let line_data := mk_line_data depth_val score pv pv_num in
    match existing_for pv_num lines with
    | Some existing =>
        if depth_val >? depth existing then
          do removed <- list_remove existing lines;
          Ok (removed ++ [line_data])
        else Ok lines
    | None => Ok (lines ++ [line_data])
    end.

(** The loop state: [result["lines"]] and [bestmove]. *)
Definition parse_state : Type := (list line_data * option string)%type.

(** One iteration of [for line in lines_raw]. *)
Definition process_line (st : parse_state) (line : string) : res parse_state :=
  let '(lines, bestmove) := st in
  if PyStr.startswith line "bestmove" then
    let parts := PyStr.split line in
    match parts with
    | _ :: move :: _ => Ok (lines, Some move)
    | _ => Ok (lines, bestmove)
    end
  else if negb (PyStr.startswith line "info") then Ok st
  else if negb (PyStr.contains " pv " line) then Ok st
  else if PyStr.contains "upperbound" line || PyStr.contains "lowerbound" line
  then Ok st
  else
    let parts := PyStr.split line in
    match try_body parts lines with
    | Ok lines' => Ok (lines', bestmove)
    | Raise ValueError => Ok st
    | Raise IndexError => Ok st
    | Raise e => Raise e
    end.

(** The [for] loop over the raw lines. *)
Fixpoint process_lines (st : parse_state) (lines_raw : list string)
  : res parse_state :=
  match lines_raw with
  | [] => Ok st
  | line :: rest => do st' <- process_line st line; process_lines st' rest
  end.

(** [list.sort(key=lambda x: x["multipv"])]: a stable sort by rank. *)
Fixpoint insert_by_multipv (x : line_data) (l : list line_data)
  : list line_data :=
  match l with
  | [] => [x]
  | y :: l' =>
      if multipv x <=? multipv y then x :: l
      else y :: insert_by_multipv x l'
  end.

Fixpoint sort_by_multipv (l : list line_data) : list line_data :=
  match l with
  | [] => []
  | x :: l' => insert_by_multipv x (sort_by_multipv l')
  end.

(** The returned dict: [lines] always present, [bestmove] only when set. *)
Record result : Type := mk_result {
  lines : list line_data;
  bestmove : option string
}.

(** Truth value of the local [bestmove] ([None] or a string). *)
Definition bestmove_truthy (b : option string) : bool :=
  match b with
  | Some (String _ _) => true
  | _ => false
  end.

Definition newline : ascii := ascii_of_nat 10.

(** [parse_stockfish_output]. *)
Definition parse_stockfish_output (output : string) : res result :=
  let lines_raw := PyStr.split_on newline (PyStr.strip output) in
  do st <- process_lines ([], None) lines_raw;
  let '(kept, bestmove) := st in
  let sorted := sort_by_multipv kept in
  if bestmove_truthy bestmove then Ok (mk_result sorted bestmove)
  else match sorted with
       | first :: _ =>
           do move <- py_getitem (pv first) 0;
           Ok (mk_result sorted (Some move))
       | [] => Ok (mk_result sorted None)
       end.

(** ** The handler's request *)

(** The values a decoded JSON document holds.  A number with a fraction
    or an exponent, and the literals [NaN], [Infinity] and [-Infinity]
    that [json.loads] accepts, decode to a float: an IEEE 754 value, of
    which the binary64 ones occur. *)
#[warnings="-register-all"] Inductive json : Type :=
  | JNull
  | JBool (b : bool)
  | JInt (n : Z)
  | JFloat (f : spec_float)
  | JStr (s : string)
  | JArr (l : list json)
  | JObj (m : gmap string json).

(** Truth value of a Python object, as [not fen] tests it. *)
Definition truthy (v : json) : bool :=
  match v with
  | JNull => false
  | JBool b => b
  | JInt n => negb (n =? 0)
  | JFloat f => match f with S754_zero _ => false | _ => true end
  | JStr s => negb (String.eqb s EmptyString)
  | JArr l => match l with [] => false | _ => true end
  | JObj m => match map_to_list m with [] => false | _ => true end
  end.

(** The integer a value compares as: [bool] is a subclass of [int]. *)
Definition as_int (v : json) : option Z :=
  match v with
  | JInt n => Some n
  | JBool b => Some (if b then 1 else 0)
  | _ => None
  end.

(** [f > n] between a float and an integer, which Python decides on the
    exact values: never for a NaN, by the sign for an infinity. *)
Definition float_gt_int (f : spec_float) (n : Z) : bool :=
  match f with
  | S754_nan => false
  | S754_infinity s => negb s
  | S754_zero _ => n <? 0
  | S754_finite s m e =>
      let v := if s then Z.neg m else Z.pos m in
      if 0 <=? e then n <? v * 2 ^ e else n * 2 ^ (- e) <? v
  end.

(** [a < b] between an integer and an arbitrary value: the reflected
    [b > a] of the float when [b] is one, a [TypeError] when [b] is not a
    number. *)
Definition py_lt_int (a : Z) (b : json) : res bool :=
  match as_int b with
  | Some n => Ok (a <? n)
  | None =>
      match b with
      | JFloat f => Ok (float_gt_int f a)
      | _ => Raise TypeError
      end
  end.

(** [min(v, bound)] with an integer [bound]: the builtin keeps its first
    argument unless [bound < v]. *)
Definition py_min (v : json) (bound : Z) : res json :=
  do smaller <- py_lt_int bound v;
  Ok (if smaller then JInt bound else v).

(** [body.get(key, default)] on a dict. *)
Definition dict_get (body : gmap string json) (key : string) (dflt : json)
  : json :=
  match body !! key with
  | Some v => v
  | None => dflt
  end.

(** What [handler] does with an event, up to and including the call of
    [analyze_position]: it answers with an error status, or it calls
    [analyze_position(fen, depth, multipv, debug)]. *)
Inductive handler_step : Type :=
  | Respond (statusCode : Z)
  | Analyze (fen depth multipv debug : json).

Section Handler.

(** [json.loads], from the standard library. *)
Variable json_loads : string -> res json.

(** The value [body] of the handler: [event["body"]], decoded when it is
    a string, if ["body" in event], and [event] otherwise.  On a string
    or a list [in] is a substring or membership test and the subscript
    that follows is a [TypeError]; other values are not containers. *)
Definition request_body (event : json) : res json :=
  match event with
  | JObj ev =>
      match ev !! "body" with
      | Some (JStr s) => json_loads s
      | Some b => Ok b
      | None => Ok event
      end
  | JStr s => if PyStr.contains "body" s then Raise TypeError else Ok event
  | JArr l =>
      if existsb (fun v => match v with
                           | JStr s => String.eqb s "body"
                           | _ => false
                           end) l
      then Raise TypeError else Ok event
  | JNull | JBool _ | JInt _ | JFloat _ => Raise TypeError
  end.

(** The part of [handler] inside [try], up to the call of
    [analyze_position]. *)
Definition handler_try (event : json) : res handler_step :=
  do body <- request_body event;
  match body with
  | JObj body =>
      let fen := dict_get body "fen" JNull in
      if negb (truthy fen) then Ok (Respond 400)
      else
        let depth := dict_get body "depth" (JInt 20) in
        let multipv := dict_get body "multipv" (JInt 1) in
        let debug := dict_get body "debug" (JBool false) in
        do depth <- py_min depth 25;
        do multipv <- py_min multipv 5;
        Ok (Analyze fen depth multipv debug)
  | _ => Raise AttributeError
  end.

(** [handler] up to the call of [analyze_position]: an exception before
    the call is answered with status 500 ([except Exception]). *)
Definition handler_call (event : json) : handler_step :=
  match handler_try event with
  | Ok step => step
  | Raise TimeoutExpired => Respond 504
  | Raise _ => Respond 500
  end.

End Handler.

End Lambda.

(* ===================================================================== *)
(** * The chess library and the engine, as the code consumes them *)
(* ===================================================================== *)

(** The capabilities of the chess-rules library that the code calls. *)
Class ChessRules : Type := {
  Board : Type;
  Move : Type;
  (** [chess.Board(fen)], [ValueError] on a malformed position string *)
  Board_of_fen : string -> res Board;
  (** [chess.Move.from_uci(s)], [ValueError] on a malformed move string *)
  Move_from_uci : string -> res Move;
  (** [move.uci()] *)
  Move_uci : Move -> string;
  (** truth value of a move object (the null move is false) *)
  Move_bool : Move -> bool;
  (** [move in board.legal_moves] *)
  legal : Board -> Move -> bool;
  (** [board.san(move)] *)
  san : Board -> Move -> res string;
  (** [board.push(move)], as the new position *)
  push : Board -> Move -> Board;
  (** [board.turn] *)
  board_turn : Board -> Color;
  (** [board.fen()] *)
  board_fen : Board -> string;
  (** [board.fullmove_number] *)
  fullmove_number : Board -> Z
}.

(** [chess.engine.Limit]; seconds are modelled as rationals. *)
Record Limit : Type := mk_Limit {
  limit_time : option Q;
  limit_depth : option Z
}.

(** The keys of [chess.engine.InfoDict] that the code reads. *)
Record InfoDict `{ChessRules} : Type := mk_InfoDict {
  info_score : option PovScore;
  info_pv : option (list Move)
}.

(** The engine process: each analysis request is answered from the
    engine's state and changes it. *)
Class EngineModel `{ChessRules} : Type := {
  EngineState : Type;
  (** [engine.analyse(board, limit, multipv=n)]: one info per line *)
  analyse_multipv :
    EngineState -> Board -> Limit -> Z -> res (list InfoDict) * EngineState;
  (** [engine.analyse(board, limit)]: a single info *)
  analyse_single :
    EngineState -> Board -> Limit -> res InfoDict * EngineState
}.

Section EngineIO.

Context `{EngineModel}.

(** An analysis request, as issued to the engine. *)
Inductive request : Type :=
  | Request (board : Board) (limit : Limit) (multipv : option Z).

(** An engine handle: the engine's state, and the requests issued to it
    so far. *)
Record Engine : Type := mk_Engine {
  engine_state : EngineState;
  requests : list request
}.

(** Computations that talk to the engine and may raise. *)
Definition M (A : Type) : Type := Engine -> res A * Engine.

Definition ret {A : Type} (a : A) : M A := fun e => (Ok a, e).

Definition lift {A : Type} (r : res A) : M A := fun e => (r, e).

Definition bind {A B : Type} (m : M A) (k : A -> M B) : M B :=
  fun e =>
    match m e with
    | (Ok a, e') => k a e'
    | (Raise ex, e') => (Raise ex, e')
    end.

(** [try: m  except Exception: h]. *)
Definition try_except {A : Type} (m : M A) (h : M A) : M A :=
  fun e =>
    match m e with
    | (Ok a, e') => (Ok a, e')
    | (Raise _, e') => h e'
    end.

(** [engine.analyse(board, limit, multipv=n)]. *)
Definition analyse (board : Board) (limit : Limit) (n : Z)
  : M (list InfoDict) :=
  fun e =>
    let '(r, s) := analyse_multipv (engine_state e) board limit n in
    (r, mk_Engine s (requests e ++ [Request board limit (Some n)])).

(** [engine.analyse(board, limit)]. *)
Definition analyse1 (board : Board) (limit : Limit) : M InfoDict :=
  fun e =>
    let '(r, s) := analyse_single (engine_state e) board limit in
    (r, mk_Engine s (requests e ++ [Request board limit None])).

End EngineIO.

Notation "'let*' x ':=' m 'in' k" := (bind m (fun x => k))
  (at level 10, x name, m at level 100, k at level 200, only parsing).

(** [x if x else None] on an optional move. *)
Definition truthy_move `{ChessRules} (m : option Move) : option Move :=
  match m with
  | Some mv => if Move_bool mv then Some mv else None
  | None => None
  end.

(** [t or 0.3] on an optional float. *)
Definition time_or_default (t : option Q) : Q :=
  match t with
  | Some q => if Qeq_bool q 0 then Qmake 3 10 else q
  | None => Qmake 3 10
  end.

(* ===================================================================== *)
(** * The REST handler: [cloud-stockfish/app.py] *)
(* ===================================================================== *)

Module App.

(** [get_eval_cp]; the pair is [(eval_cp, mate_in)]. *)
Definition get_eval_cp (score : PovScore) (turn : Color)
  : option Z * option Z :=
  let pov_score := white score in
  if is_mate pov_score then
    let mate_in := mate pov_score in
    (None, mate_in)
  else
    let cp := Chess.score pov_score in
    let cp := match turn with
              | BLACK => option_map Z.opp cp
              | WHITE => cp
              end in
    (cp, None).

Record EvaluateRequest : Type := mk_EvaluateRequest {
  req_fen : string;
  req_move : string;
  req_time : option Q
}.

Record EvaluateResponse : Type := mk_EvaluateResponse {
  fen : string;
  move_uci : string;
  move_san : string;
  is_legal : bool;
  eval_before_cp : option Z;
  eval_after_cp : option Z;
  eval_drop_cp : option Z;
  best_move_uci : option string;
  best_move_san : option string
}.

(** [try: r  except ValueError: raise HTTPException(status_code=400)]. *)
Definition value_error_is_400 {A : Type} (r : res A) : res A :=
  match r with
  | Raise ValueError => Raise (HTTPException 400)
  | _ => r
  end.

Section EvaluateMove.

Context `{EngineModel}.

(** The first [try] block of [evaluate_move]: the analysis before the
    move, giving [(eval_before_cp, best_move_uci, best_move_san)]. *)
Definition analyse_before (board : Board) (limit : Limit)
  : M (option Z * option string * option string) :=
  try_except
    (let* before_analysis := analyse board limit 1 in
     let before_score :=
       match before_analysis with
       | info :: _ => info_score info
       | [] => None
       end in
     let* best_move := lift
       match before_analysis with
       | info :: _ =>
           match info_pv info with
           | Some pv => do m <- py_getitem pv 0; Ok (Some m)
           | None => Ok None
           end
       | [] => Ok None
       end in
     let eval_before_cp :=
       match before_score with
       | Some sc => fst (get_eval_cp sc (board_turn board))
       | None => None
       end in
     let best_move_uci := option_map Move_uci (truthy_move best_move) in
     let* best_move_san := lift
       match truthy_move best_move with
       | Some m => do s <- san board m; Ok (Some s)
       | None => Ok None
       end in
     ret (eval_before_cp, best_move_uci, best_move_san))
    (ret (None, None, None)).

(** The second [try] block: the analysis after the move, negated to the
    mover's point of view. *)
Definition analyse_after (board : Board) (limit : Limit) : M (option Z) :=
  try_except
    (let* after_analysis := analyse board limit 1 in
     let after_score :=
       match after_analysis with
       | info :: _ => info_score info
       | [] => None
       end in
     let eval_after_cp :=
       match after_score with
       | Some sc => fst (get_eval_cp sc (board_turn board))
       | None => None
       end in
     ret (option_map Z.opp eval_after_cp))
    (ret None).

(** [evaluate_move] once the engine is known to be initialised. *)
Definition evaluate_move_on (request : EvaluateRequest)
  : M EvaluateResponse :=
  let* board := lift (value_error_is_400 (Board_of_fen (req_fen request))) in
  let* move := lift (value_error_is_400 (Move_from_uci (req_move request))) in
  if negb (legal board move) then
    ret (mk_EvaluateResponse (req_fen request) (req_move request)
           (req_move request) false None None None None None)
  else
    let* move_san := lift (san board move) in
    let limit := mk_Limit (Some (time_or_default (req_time request))) None in
    let* before := analyse_before board limit in
    let '(eval_before_cp, best_move_uci, best_move_san) := before in
    let board := push board move in
    let* eval_after_cp := analyse_after board limit in
    let eval_drop_cp :=
      match eval_before_cp, eval_after_cp with
      | Some b, Some a => Some (b - a)
      | _, _ => None
      end in
    ret (mk_EvaluateResponse (req_fen request) (req_move request) move_san
           true eval_before_cp eval_after_cp eval_drop_cp
           best_move_uci best_move_san).

(** [evaluate_move]: [ENGINE] is the module's global engine, [None] until
    the application has started. *)
Definition evaluate_move (ENGINE : option Engine) (request : EvaluateRequest)
  : res EvaluateResponse * option Engine :=
  match ENGINE with
  | None => (Raise (HTTPException 503), None)
  | Some e =>
      let '(r, e') := evaluate_move_on request e in (r, Some e')
  end.

End EvaluateMove.

End App.

(* ===================================================================== *)
(** * The local backend: [local_python/stockfish_interface.py] *)
(* ===================================================================== *)

Module Local.

(** [LocalStockfish._get_eval]. *)
Definition _get_eval (score : PovScore) (turn : Color)
  : option Z * option Z :=
  let pov_score := white score in
  if is_mate pov_score then
    let mate_in := mate pov_score in
    (None, mate_in)
  else
    let cp := Chess.score pov_score in
    let cp := match turn with
              | BLACK => option_map Z.opp cp
              | WHITE => cp
              end in
    (cp, None).

Record MoveEvaluation : Type := mk_MoveEvaluation {
  fen : string;
  move_uci : string;
  move_san : string;
  is_legal : bool;
  eval_before_cp : option Z;
  eval_after_cp : option Z;
  eval_drop_cp : option Z;
  best_move_uci : option string;
  best_move_san : option string
}.

Section Evaluate.

Context `{EngineModel}.

(** The legal-move part of [LocalStockfish.evaluate]. *)
Definition evaluate_legal (fen move_uci : string) (time : Q)
  (board : Board) (move : Move) : M MoveEvaluation :=
  let* move_san := lift (san board move) in
  let limit := mk_Limit (Some time) None in
  let* before := analyse board limit 1 in
  let before_score :=
    match before with
    | info :: _ => info_score info
    | [] => None
    end in
  let* best_move := lift
    match before with
    | info :: _ =>
        match info_pv info with
        | Some pv => do m <- py_getitem pv 0; Ok (Some m)
        | None => Ok None
        end
    | [] => Ok None
    end in
  let eval_before_cp :=
    match before_score with
    | Some sc => fst (_get_eval sc (board_turn board))
    | None => None
    end in
  let best_move_uci := option_map Move_uci (truthy_move best_move) in
  let* best_move_san := lift
    match truthy_move best_move with
    | Some m => do s <- san board m; Ok (Some s)
    | None => Ok None
    end in
  let board := push board move in
  let* after := analyse board limit 1 in
  let after_score :=
    match after with
    | info :: _ => info_score info
    | [] => None
    end in
  let eval_after_cp :=
    match after_score with
    | Some sc => fst (_get_eval sc (board_turn board))
    | None => None
    end in
  let eval_after_cp := option_map Z.opp eval_after_cp in
  let eval_drop_cp :=
    match eval_before_cp, eval_after_cp with
    | Some b, Some a => Some (b - a)
    | _, _ => None
    end in
  ret (mk_MoveEvaluation fen move_uci move_san true eval_before_cp
         eval_after_cp eval_drop_cp best_move_uci best_move_san).

(** [LocalStockfish.evaluate]. *)
Definition evaluate (fen move_uci : string) (time : Q) : M MoveEvaluation :=
  let* board := lift (Board_of_fen fen) in
  match Move_from_uci move_uci with
  | Raise ValueError =>
      ret (mk_MoveEvaluation fen move_uci move_uci false
             None None None None None)
  | Raise e => lift (Raise e)
  | Ok move =>
      if negb (legal board move) then
        ret (mk_MoveEvaluation fen move_uci move_uci false
               None None None None None)
      else evaluate_legal fen move_uci time board move
  end.

End Evaluate.

End Local.

(* ===================================================================== *)
(** * The game-analysis tester: [local_python/tests/test_engines.py] *)
(* ===================================================================== *)

Module Tester.

Definition BLUNDER_THRESHOLD_CP : Z := 100.
Definition MULTIPV : Z := 3.
Definition ANALYSIS_TIME : Q := Qmake 3 10.

(** The dicts [{move_uci, move_san, eval_cp}] of [analyze_position]. *)
Record top_move : Type := mk_top_move {
  move_uci : string;
  move_san : string;
  eval_cp : Z
}.

Module MoveAnalysis.
Record t : Type := mk {
  ply : nat;
  move_number : Z;
  side : string;
  fen_before : string;
  played_move_uci : string;
  played_move_san : string;
  best_move_uci : string;
  best_move_san : string;
  eval_before_cp : Z;
  eval_after_cp : Z;
  drop_cp : Z;
  is_blunder : bool;
  acceptable_moves : list top_move
}.
End MoveAnalysis.

Module BlunderPuzzle.
Record t : Type := mk {
  id : string;
  game_url : string;
  fen : string;
  side_to_move : string;
  move_number : Z;
  played_move_uci : string;
  played_move_san : string;
  correct_move_uci : string;
  correct_move_san : string;
  eval_drop_cp : Z;
  acceptable_moves : list top_move
}.
End BlunderPuzzle.

(** The centipawn number [get_eval_cp] gives a white-relative score
    before the side flip. *)
Definition white_cp (pov_score : Score) : Z :=
  match pov_score with
  | Cp cp => cp
  | Mate mate_in =>
      if mate_in >? 0 then 100000 - mate_in * 100
      else -100000 - mate_in * 100
  | MateGiven => -100000 - 0 * 100
  end.

(** [get_eval_cp(info, turn)], on the ["score"] entry of [info]. *)
Definition get_eval_cp (score : option PovScore) (turn : Color) : Z :=
  match score with
  | None => 0
  | Some score =>
      let pov_score := white score in
      let cp := white_cp pov_score in
      match turn with
      | BLACK => - cp
      | WHITE => cp
      end
  end.

Section Analysis.

Context `{EngineModel}.

(** The loop of [analyze_position] over the engine's lines. *)
Fixpoint collect_results (board : Board) (analysis : list InfoDict)
  : res (list top_move) :=
  match analysis with
  | [] => Ok []
  | info :: rest =>
      match info_pv info with
      | None | Some [] => collect_results board rest
      | Some (move :: _) =>
          let eval_cp := get_eval_cp (info_score info) (board_turn board) in
          do move_san <- san board move;
          do results <- collect_results board rest;
          Ok (mk_top_move (Move_uci move) move_san eval_cp :: results)
      end
  end.

(** [analyze_position]. *)
Definition analyze_position (board : Board) (time_limit : Q) (multipv : Z)
  : M (list top_move) :=
  let* analysis := analyse board (mk_Limit (Some time_limit) None) multipv in
  lift (collect_results board analysis).

(** [chess.pgn.Game], as [analyze_game] reads it. *)
Record Game : Type := mk_Game {
  game_board : Board;
  headers : gmap string string;
  mainline_moves : list Move
}.

(** The state of the loop of [analyze_game]. *)
Record walk : Type := mk_walk {
  board : Board;
  analyses : list MoveAnalysis.t;
  blunders : list BlunderPuzzle.t
}.

Definition side_name (c : Color) : string :=
  match c with
  | WHITE => "white"
  | BLACK => "black"
  end.

(** The puzzle id: [f"{game_url}_{ply}"], or [f"puzzle_{ply}"] for an
    empty [game_url]. *)
Definition puzzle_id (game_url : string) (ply : nat) : string :=
  if String.eqb game_url EmptyString then "puzzle_" +:+ PyStr.str_of_nat ply
  else game_url +:+ "_" +:+ PyStr.str_of_nat ply.

(** One iteration of [for ply, move in enumerate(game.mainline_moves())]. *)
Definition analyze_ply (user_color : Color) (game_url : string)
  (w : walk) (ply : nat) (move : Move) : M walk :=
  if negb (Color_eqb (board_turn (board w)) user_color) then
    ret (mk_walk (push (board w) move) (analyses w) (blunders w))
  else
    let move_number := fullmove_number (board w) in
    let fen_before := board_fen (board w) in
    let side := side_name (board_turn (board w)) in
    let* top_moves := analyze_position (board w) ANALYSIS_TIME MULTIPV in
    match top_moves with
    | [] => ret (mk_walk (push (board w) move) (analyses w) (blunders w))
    | best_move :: _ =>
        let best_eval := eval_cp best_move in
        let* board_copy := lift (Board_of_fen fen_before) in
        let* played_move_san := lift (san board_copy move) in
        let board_copy := push board_copy move in
        let* post_analysis :=
          analyse1 board_copy (mk_Limit (Some ANALYSIS_TIME) None) in
        let played_eval :=
          - get_eval_cp (info_score post_analysis) (board_turn board_copy) in
        let drop_cp := best_eval - played_eval in
        let is_blunder := drop_cp >=? BLUNDER_THRESHOLD_CP in
        let acceptable :=
          List.filter
            (fun m => best_eval - eval_cp m <? BLUNDER_THRESHOLD_CP)
            top_moves in
        let analysis :=
          MoveAnalysis.mk ply move_number side fen_before (Move_uci move)
            played_move_san (move_uci best_move) (move_san best_move)
            best_eval played_eval drop_cp is_blunder acceptable in
        let analyses' := analyses w ++ [analysis] in
        let board' := push (board w) move in
        if is_blunder then
          let puzzle :=
            BlunderPuzzle.mk (puzzle_id game_url ply) game_url fen_before
              side move_number (Move_uci move) played_move_san
              (move_uci best_move) (move_san best_move) drop_cp acceptable in
          ret (mk_walk board' analyses' (blunders w ++ [puzzle]))
        else ret (mk_walk board' analyses' (blunders w))
    end.

(** The [for] loop, from ply [ply] on. *)
Fixpoint walk_moves (user_color : Color) (game_url : string)
  (w : walk) (ply : nat) (moves : list Move) : M walk :=
  match moves with
  | [] => ret w
  | move :: rest =>
      let* w' := analyze_ply user_color game_url w ply move in
      walk_moves user_color game_url w' (S ply) rest
  end.

(** [game.headers.get(key, default).lower()], the default being the empty
    string. *)
Definition player (game : Game) (key : string) : string :=
  PyStr.lower (match headers game !! key with Some v => v | None => EmptyString end).

(** [analyze_game]; what it prints is not modelled. *)
Definition analyze_game (game : Game) (username game_url : string)
  : M (list MoveAnalysis.t * list BlunderPuzzle.t) :=
  let white_player := player game "White" in
  let black_player := player game "Black" in
  let username_lower := PyStr.lower username in
  let user_color :=
    if String.eqb username_lower white_player then Some WHITE
    else if String.eqb username_lower black_player then Some BLACK
    else None in
  match user_color with
  | None => ret ([], [])
  | Some user_color =>
      let* w := walk_moves user_color game_url
                  (mk_walk (game_board game) [] []) 0%nat
                  (mainline_moves game) in
      ret (analyses w, blunders w)
  end.

End Analysis.

End Tester.

(* ===================================================================== *)
(** * A miniature rules library and a scripted engine, for concrete runs *)
(* ===================================================================== *)

Module Toy.

(** Positions are numbered by the plies played; white moves on even
    numbers.  Every four- or five-character string is a move, and every
    move but ["e2e5"] is legal. *)
#[local] Instance rules : ChessRules := {|
  Board := nat;
  Move := string;
  Board_of_fen := fun s =>
    do z <- PyStr.int s;
    if z <? 0 then Raise ValueError else Ok (Z.to_nat z);
  Move_from_uci := fun s =>
    if (String.length s =? 4)%nat || (String.length s =? 5)%nat then Ok s
    else Raise ValueError;
  Move_uci := fun m => m;
  Move_bool := fun m => negb (String.eqb m "0000");
  legal := fun _ m => negb (String.eqb m "e2e5");
  san := fun _ m => Ok m;
  push := fun b _ => S b;
  board_turn := fun b => if Nat.even b then WHITE else BLACK;
  board_fen := fun b => PyStr.str_of_nat b;
  fullmove_number := fun b => Z.of_nat (b / 2) + 1
|}.

(** The engine answers from a script, one entry per request. *)
#[local] Instance engine : EngineModel := {|
  EngineState := list (list InfoDict);
  analyse_multipv := fun st _ _ _ =>
    match st with
    | reply :: st' => (Ok reply, st')
    | [] => (Raise EngineError, [])
    end;
  analyse_single := fun st _ _ =>
    match st with
    | (info :: _) :: st' => (Ok info, st')
    | [] :: st' => (Raise EngineError, st')
    | [] => (Raise EngineError, [])
    end
|}.

(** An info line with a score relative to white and a one-move line. *)
Definition info (s : Score) (m : string) : InfoDict :=
  mk_InfoDict rules (Some (mkPovScore s WHITE)) (Some [m]).

Definition start (script : list (list InfoDict)) : Engine :=
  mk_Engine script [].

(** A request to the serverless handler that asks for depth 30. *)
Definition deep_event : Lambda.json :=
  Lambda.JObj
    (<["fen" := Lambda.JStr "8/8/8/8/8/8/8/K6k w - - 0 1"]>
       (<["depth" := Lambda.JInt 30]> ∅)).

(** A decoder that rejects every document. *)
Definition no_json (s : string) : res Lambda.json := Raise ValueError.

(** The fields of a request whose depth is the float NaN. *)
Definition nan_depth_body : gmap string Lambda.json :=
  <["fen" := Lambda.JStr "8/8/8/8/8/8/8/K6k w - - 0 1"]>
    (<["depth" := Lambda.JFloat S754_nan]> ∅).

Definition double_quote : string := String (ascii_of_nat 34) EmptyString.

(** The text of that request: a [fen] and [depth: NaN]. *)
Definition nan_request_text : string :=
  "{" +:+ double_quote +:+ "fen" +:+ double_quote +:+ ": "
  +:+ double_quote +:+ "8/8/8/8/8/8/8/K6k w - - 0 1" +:+ double_quote
  +:+ ", " +:+ double_quote +:+ "depth" +:+ double_quote +:+ ": NaN}".

(** [json.loads] on that text, which it accepts; no other text is
    decoded here. *)
Definition nan_json (s : string) : res Lambda.json :=
  if String.eqb s nan_request_text then Ok (Lambda.JObj nan_depth_body)
  else Raise ValueError.

(** The same request behind an API gateway. *)
Definition nan_proxy_event : Lambda.json :=
  Lambda.JObj (<["body" := Lambda.JStr nan_request_text]> ∅).

(** A quiet opening move: 30 centipawns before, 10 for black after. *)
Definition quiet_script : list (list InfoDict) :=
  [ [info (Cp 30) "e2e4"]; [info (Cp (-10)) "e7e5"] ].

(** A game in which white's first move loses 170 centipawns. *)
Definition blunder_game : Tester.Game :=
  Tester.mk_Game 0%nat
    (<["White" := "Alice"]> (<["Black" := "Bob"]> ∅))
    ["g2g4"; "e7e5"].

Definition blunder_script : list (list InfoDict) :=
  [ [info (Cp 30) "e2e4"; info (Cp 20) "d2d4"; info (Cp (-150)) "g2g4"];
    [info (Cp (-140)) "e7e5"] ].

(** A game in which white's first move allows a mate in two. *)
Definition mate_game : Tester.Game :=
  Tester.mk_Game 0%nat
    (<["White" := "Alice"]> (<["Black" := "Bob"]> ∅))
    ["g2g4"].

Definition mate_script : list (list InfoDict) :=
  [ [info (Cp 50) "e2e4"]; [info (Mate (-2)) "d8h4"] ].

(** The results of the runs above. *)
Definition quiet_response : App.EvaluateResponse :=
  App.mk_EvaluateResponse "0" "e2e4" "e2e4" true (Some 30) (Some (-10))
    (Some 40) (Some "e2e4") (Some "e2e4").

Definition requests_after (n : option Z) (m : option Z) : list request :=
  [Request 0%nat (mk_Limit (Some (Qmake 3 10)) None) n;
   Request 1%nat (mk_Limit (Some (Qmake 3 10)) None) m].

Definition blunder_lines : list Tester.top_move :=
  [Tester.mk_top_move "e2e4" "e2e4" 30;
   Tester.mk_top_move "d2d4" "d2d4" 20;
   Tester.mk_top_move "g2g4" "g2g4" (-150)].

Definition blunder_analysis : Tester.MoveAnalysis.t :=
  Tester.MoveAnalysis.mk 0 1 "white" "0" "g2g4" "g2g4" "e2e4" "e2e4"
    30 (-140) 170 true
    [Tester.mk_top_move "e2e4" "e2e4" 30;
     Tester.mk_top_move "d2d4" "d2d4" 20].

Definition blunder_puzzle : Tester.BlunderPuzzle.t :=
  Tester.BlunderPuzzle.mk "game7_0" "game7" "0" "white" 1 "g2g4" "g2g4"
    "e2e4" "e2e4" 170
    [Tester.mk_top_move "e2e4" "e2e4" 30;
     Tester.mk_top_move "d2d4" "d2d4" 20].

Definition walk_start : Tester.walk := Tester.mk_walk 0%nat [] [].

Definition walk_after_blunder : Tester.walk :=
  Tester.mk_walk 1%nat [blunder_analysis] [blunder_puzzle].

(** The engine once the script is used up. *)
Definition finished (n : option Z) (m : option Z) : Engine :=
  mk_Engine [] (requests_after n m).

(** The engine after the first of the two requests of [blunder_script]. *)
Definition after_first_request : Engine :=
  mk_Engine [[info (Cp (-140)) "e7e5"]]
    [Request 0%nat (mk_Limit (Some (Qmake 3 10)) None) (Some 3)].

(** The reply to the second request of [mate_script]. *)
Definition mate_second_reply : res (list InfoDict) :=
  fst (analyse_multipv
         (snd (analyse_multipv mate_script 0%nat
                 (mk_Limit (Some (Qmake 3 10)) None) 1))
         1%nat (mk_Limit (Some (Qmake 3 10)) None) 1).

Definition mate_evaluation : Local.MoveEvaluation :=
  Local.mk_MoveEvaluation "0" "e2e4" "e2e4" true (Some 50) None None
    (Some "e2e4") (Some "e2e4").

Definition mate_analysis : Tester.MoveAnalysis.t :=
  Tester.MoveAnalysis.mk 0 1 "white" "0" "g2g4" "g2g4" "e2e4" "e2e4"
    50 (-99800) 99850 true [Tester.mk_top_move "e2e4" "e2e4" 50].

Definition mate_puzzle : Tester.BlunderPuzzle.t :=
  Tester.BlunderPuzzle.mk "puzzle_0" EmptyString "0" "white" 1 "g2g4" "g2g4"
    "e2e4" "e2e4" 99850 [Tester.mk_top_move "e2e4" "e2e4" 50].

End Toy.

(* ===================================================================== *)
(** * Predicates used in the statements *)
(* ===================================================================== *)

Module Props.

Import Lambda.

(** An outcome that, when it raises, raises what the parser's [except]
    clause catches. *)
Definition caught {A : Type} (r : res A) : Prop :=
  match r with
  | Ok _ => True
  | Raise e => e = ValueError \/ e = IndexError
  end.

(** What [min(requested, bound)] passes on when it returns [used]: for
    an integer the smaller of it and the bound, the requested value
    itself when that is within the bound; for a float the bound when the
    float exceeds it, and else the float itself, a NaN included. *)
Definition capped (requested : json) (bound : Z) (used : json) : Prop :=
  (exists n,
      as_int requested = Some n
      /\ as_int used = Some (Z.min n bound)
      /\ (n <= bound -> used = requested))
  \/ (exists f,
         requested = JFloat f
         /\ used = if float_gt_int f bound then JInt bound else requested).

(** The ranks of the kept records. *)
Definition ranks (kept : list line_data) : list Z := List.map multipv kept.

(** [kept'] supersedes [kept]: every record of [kept] has a record of the
    same rank in [kept'], itself or a strictly deeper one. *)
Definition supersedes (kept kept' : list line_data) : Prop :=
  forall old, In old kept ->
    exists new, In new kept'
      /\ multipv new = multipv old
      /\ depth old <= depth new
      /\ (new <> old -> depth old < depth new).

(** What one loop iteration can do to the kept records: nothing, add a
    record of a rank not yet kept, or replace the record of a rank by a
    strictly deeper one. *)
Inductive kept_step (kept : list line_data) : list line_data -> Prop :=
  | step_same : kept_step kept kept
  | step_new (ld : line_data) :
      existing_for (multipv ld) kept = None ->
      kept_step kept (kept ++ [ld])
  | step_deeper (ld existing : line_data) (removed : list line_data) :
      existing_for (multipv ld) kept = Some existing ->
      depth existing < depth ld ->
      list_remove existing kept = Ok removed ->
      kept_step kept (removed ++ [ld]).

(** The first record of a list has the lowest rank of the list. *)
Definition head_lowest (l : list line_data) : Prop :=
  match l with
  | [] => True
  | first :: _ => forall x, In x l -> multipv first <= multipv x
  end.

(** [eval_drop_cp] as the move evaluator computes it from the two
    optional centipawn values. *)
Definition drop_of (eval_before_cp eval_after_cp : option Z) : option Z :=
  match eval_before_cp, eval_after_cp with
  | Some b, Some a => Some (b - a)
  | _, _ => None
  end.

(** The score of the first line of an engine reply, if it has one. *)
Definition first_score `{ChessRules} (reply : res (list InfoDict))
  : option PovScore :=
  match reply with
  | Ok (info :: _) => info_score info
  | _ => None
  end.

(** The reply's first line carries a mate score. *)
Definition mate_reply `{ChessRules} (reply : res (list InfoDict)) : bool :=
  match first_score reply with
  | Some sc => is_mate (white sc)
  | None => false
  end.

(** The analysis record [a] is the judgment built from the candidate
    lines [top_moves]. *)
Definition analysis_of (top_moves : list Tester.top_move)
  (a : Tester.MoveAnalysis.t) : Prop :=
  match top_moves with
  | [] => False
  | best :: _ =>
      Tester.MoveAnalysis.best_move_uci a = Tester.move_uci best
      /\ Tester.MoveAnalysis.best_move_san a = Tester.move_san best
      /\ Tester.MoveAnalysis.eval_before_cp a = Tester.eval_cp best
      /\ Tester.MoveAnalysis.drop_cp a
         = Tester.MoveAnalysis.eval_before_cp a
           - Tester.MoveAnalysis.eval_after_cp a
      /\ Tester.MoveAnalysis.is_blunder a
         = (Tester.MoveAnalysis.drop_cp a >=? 100)
      /\ Tester.MoveAnalysis.acceptable_moves a
         = List.filter
             (fun m => Tester.eval_cp best - Tester.eval_cp m <? 100)
             top_moves
  end.

(** The puzzle that [analyze_game] derives from a blunder's analysis. *)
Definition puzzle_of_analysis (game_url : string)
  (a : Tester.MoveAnalysis.t) : Tester.BlunderPuzzle.t :=
  Tester.BlunderPuzzle.mk
    (Tester.puzzle_id game_url (Tester.MoveAnalysis.ply a))
    game_url
    (Tester.MoveAnalysis.fen_before a)
    (Tester.MoveAnalysis.side a)
    (Tester.MoveAnalysis.move_number a)
    (Tester.MoveAnalysis.played_move_uci a)
    (Tester.MoveAnalysis.played_move_san a)
    (Tester.MoveAnalysis.best_move_uci a)
    (Tester.MoveAnalysis.best_move_san a)
    (Tester.MoveAnalysis.drop_cp a)
    (Tester.MoveAnalysis.acceptable_moves a).

(** The blunders list holds exactly the puzzles of the analyses flagged
    as blunders, in order. *)
Definition puzzles_of (game_url : string)
  (analyses : list Tester.MoveAnalysis.t) : list Tester.BlunderPuzzle.t :=
  List.map (puzzle_of_analysis game_url)
    (List.filter Tester.MoveAnalysis.is_blunder analyses).

(** The invariant of the loop of [analyze_game]. *)
Definition walk_inv (game_url : string)
  (analyses : list Tester.MoveAnalysis.t)
  (blunders : list Tester.BlunderPuzzle.t) : Prop :=
  List.Forall (fun a => exists top_moves, analysis_of top_moves a) analyses
  /\ blunders = puzzles_of game_url analyses.

End Props.

(* ===================================================================== *)
(** * Position analysis: [analyze_position] of [cloud-stockfish/app.py] *)
(* ===================================================================== *)

Module AppAnalyze.

Module AnalyzeRequest.
Record t : Type := mk {
  fen : string;
  depth : option Z;
  time : option Q;
  multipv : Z
}.
End AnalyzeRequest.

Module MoveInfo.
Record t : Type := mk {
  move_uci : string;
  move_san : string;
  eval_cp : option Z;
  mate_in : option Z
}.
End MoveInfo.

Module AnalyzeResponse.
Record t : Type := mk {
  fen : string;
  side_to_move : string;
  best_moves : list MoveInfo.t
}.
End AnalyzeResponse.

Section AnalyzePosition.

Context `{EngineModel}.

(** The limit of the request: [Limit(depth=request.depth)] when
    [request.depth] is true (set and not zero), and
    [Limit(time=request.time or 0.3)] otherwise. *)
Definition request_limit (request : AnalyzeRequest.t) : Limit :=
  match AnalyzeRequest.depth request with
  | Some d =>
      if d =? 0
      then mk_Limit (Some (time_or_default (AnalyzeRequest.time request))) None
      else mk_Limit None (Some d)
  | None => mk_Limit (Some (time_or_default (AnalyzeRequest.time request))) None
  end.

(** The loop [for info in analysis] that builds [best_moves]. *)
Fixpoint best_moves_of (board : Board) (analysis : list InfoDict)
  : res (list MoveInfo.t) :=
  match analysis with
  | [] => Ok []
  | info :: rest =>
      match info_pv info with
      | None | Some [] => best_moves_of board rest
      | Some (move :: _) =>
          let score := info_score info in
          let evals :=
            match score with
            | Some score => App.get_eval_cp score (board_turn board)
            | None => (None, None)
            end in
          do move_san <- san board move;
          do best_moves <- best_moves_of board rest;
          Ok (MoveInfo.mk (Move_uci move) move_san (fst evals) (snd evals)
              :: best_moves)
      end
  end.

(** [try: ENGINE.analyse(...)  except Exception: raise HTTPException(500)]. *)
Definition analyse_or_500 (board : Board) (limit : Limit) (n : Z)
  : M (list InfoDict) :=
  fun e =>
    match analyse board limit n e with
    | (Ok analysis, e') => (Ok analysis, e')
    | (Raise _, e') => (Raise (HTTPException 500), e')
    end.

(** [analyze_position] once the engine is known to be initialised. *)
Definition analyze_position_on (request : AnalyzeRequest.t)
  : M AnalyzeResponse.t :=
  let* board :=
    lift (App.value_error_is_400
            (Board_of_fen (AnalyzeRequest.fen request))) in
  let limit := request_limit request in
  let* analysis :=
    analyse_or_500 board limit (AnalyzeRequest.multipv request) in
  let* best_moves := lift (best_moves_of board analysis) in
  ret (AnalyzeResponse.mk (AnalyzeRequest.fen request)
         (match board_turn board with
          | WHITE => "white"
          | BLACK => "black"
          end)
         best_moves).

(** [analyze_position]. *)
Definition analyze_position (ENGINE : option Engine)
  (request : AnalyzeRequest.t) : res AnalyzeResponse.t * option Engine :=
  match ENGINE with
  | None => (Raise (HTTPException 503), None)
  | Some e =>
      let '(r, e') := analyze_position_on request e in (r, Some e')
  end.

End AnalyzePosition.

End AppAnalyze.

(* ===================================================================== *)
(** * Position analysis: [LocalStockfish.analyze] *)
(* ===================================================================== *)

Module LocalAnalyze.

Module MoveAnalysis.
Record t : Type := mk {
  move_uci : string;
  move_san : string;
  eval_cp : option Z;
  mate_in : option Z
}.
End MoveAnalysis.

Module PositionAnalysis.
Record t : Type := mk {
  fen : string;
  side_to_move : string;
  best_moves : list MoveAnalysis.t
}.
End PositionAnalysis.

Section Analyze.

Context `{EngineModel}.

(** The loop [for info in analysis] of [analyze]. *)
Fixpoint best_moves_of (board : Board) (analysis : list InfoDict)
  : res (list MoveAnalysis.t) :=
  match analysis with
  | [] => Ok []
  | info :: rest =>
      match info_pv info with
      | None | Some [] => best_moves_of board rest
      | Some (move :: _) =>
          let score := info_score info in
          let evals :=
            match score with
            | Some score => Local._get_eval score (board_turn board)
            | None => (None, None)
            end in
          do move_san <- san board move;
          do best_moves <- best_moves_of board rest;
          Ok (MoveAnalysis.mk (Move_uci move) move_san (fst evals) (snd evals)
              :: best_moves)
      end
  end.

(** [LocalStockfish.analyze]. *)
Definition analyze (fen : string) (time : Q) (depth : option Z)
  (multipv : Z) : M PositionAnalysis.t :=
  let* board := lift (Board_of_fen fen) in
  let limit :=
    match depth with
    | Some d => if d =? 0 then mk_Limit (Some time) None
                else mk_Limit None (Some d)
    | None => mk_Limit (Some time) None
    end in
  let* analysis := analyse board limit multipv in
  let* best_moves := lift (best_moves_of board analysis) in
  ret (PositionAnalysis.mk fen
         (match board_turn board with
          | WHITE => "white"
          | BLACK => "black"
          end)
         best_moves).

End Analyze.

End LocalAnalyze.

(* ===================================================================== *)
(** * Saved analyses: [extract_game_id] and [save_game_analysis] of
      [local_python/tests/test_engines.py] *)
(* ===================================================================== *)

Module TesterFiles.

Import Lambda.

Definition slash : ascii := ascii_of_nat 47.

(** [s.rstrip(ch)] for one character [ch]. *)
Fixpoint rstrip_char (ch : ascii) (s : string) : string :=
  match s with
  | EmptyString => EmptyString
  | String c s' =>
      match rstrip_char ch s' with
      | EmptyString =>
          if Ascii.eqb c ch then EmptyString else String c EmptyString
      | r => String c r
      end
  end.

(** [extract_game_id]; [split] never gives the empty list, so the
    default of [last] is not used. *)
Definition extract_game_id (game_url : string) : string :=
  if PyStr.contains (String slash EmptyString) game_url then
    List.last (PyStr.split_on slash (rstrip_char slash game_url)) EmptyString
  else game_url.

(** [asdict] of one candidate line (already a dict in the source). *)
Definition top_move_dict (m : Tester.top_move) : json :=
  JObj (<["move_uci" := JStr (Tester.move_uci m)]>
          (<["move_san" := JStr (Tester.move_san m)]>
             (<["eval_cp" := JInt (Tester.eval_cp m)]> ∅))).

(** [asdict(a)] for a [MoveAnalysis]. *)
Definition analysis_dict (a : Tester.MoveAnalysis.t) : json :=
  JObj
    (<["ply" := JInt (Z.of_nat (Tester.MoveAnalysis.ply a))]>
    (<["move_number" := JInt (Tester.MoveAnalysis.move_number a)]>
    (<["side" := JStr (Tester.MoveAnalysis.side a)]>
    (<["fen_before" := JStr (Tester.MoveAnalysis.fen_before a)]>
    (<["played_move_uci" := JStr (Tester.MoveAnalysis.played_move_uci a)]>
    (<["played_move_san" := JStr (Tester.MoveAnalysis.played_move_san a)]>
    (<["best_move_uci" := JStr (Tester.MoveAnalysis.best_move_uci a)]>
    (<["best_move_san" := JStr (Tester.MoveAnalysis.best_move_san a)]>
    (<["eval_before_cp" := JInt (Tester.MoveAnalysis.eval_before_cp a)]>
    (<["eval_after_cp" := JInt (Tester.MoveAnalysis.eval_after_cp a)]>
    (<["drop_cp" := JInt (Tester.MoveAnalysis.drop_cp a)]>
    (<["is_blunder" := JBool (Tester.MoveAnalysis.is_blunder a)]>
    (<["acceptable_moves" :=
         JArr (List.map top_move_dict
                 (Tester.MoveAnalysis.acceptable_moves a))]> ∅))))))))))))).

(** [asdict(b)] for a [BlunderPuzzle]. *)
Definition puzzle_dict (b : Tester.BlunderPuzzle.t) : gmap string json :=
  <["id" := JStr (Tester.BlunderPuzzle.id b)]>
  (<["game_url" := JStr (Tester.BlunderPuzzle.game_url b)]>
  (<["fen" := JStr (Tester.BlunderPuzzle.fen b)]>
  (<["side_to_move" := JStr (Tester.BlunderPuzzle.side_to_move b)]>
  (<["move_number" := JInt (Tester.BlunderPuzzle.move_number b)]>
  (<["played_move_uci" := JStr (Tester.BlunderPuzzle.played_move_uci b)]>
  (<["played_move_san" := JStr (Tester.BlunderPuzzle.played_move_san b)]>
  (<["correct_move_uci" := JStr (Tester.BlunderPuzzle.correct_move_uci b)]>
  (<["correct_move_san" := JStr (Tester.BlunderPuzzle.correct_move_san b)]>
  (<["eval_drop_cp" := JInt (Tester.BlunderPuzzle.eval_drop_cp b)]>
  (<["acceptable_moves" :=
       JArr (List.map top_move_dict
               (Tester.BlunderPuzzle.acceptable_moves b))]> ∅)))))))))).

(** [game_data.get(side, {}).get("username", "")]: an [AttributeError]
    when the entry for the side is not a dict. *)
Definition player_username (game_data : gmap string json) (side : string)
  : res json :=
  match game_data !! side with
  | None => Ok (JStr EmptyString)
  | Some (JObj player) => Ok (dict_get player "username" (JStr EmptyString))
  | Some _ => Raise AttributeError
  end.

(** [v.lower()]: only strings have the method. *)
Definition json_lower (v : json) : res string :=
  match v with
  | JStr s => Ok (PyStr.lower s)
  | _ => Raise AttributeError
  end.

(** The dict [result] that [save_game_analysis] writes to
    [analyzed_games/{username}/{game_id}.json]. *)
Definition save_game_analysis (username game_id : string)
  (game_data : gmap string json) (analyses : list Tester.MoveAnalysis.t)
  (blunders : list Tester.BlunderPuzzle.t) : res (gmap string json) :=
  do white <- player_username game_data "white";
  do black <- player_username game_data "black";
  do white_again <- player_username game_data "white";
  do white_lower <- json_lower white_again;
  let user_color :=
    if String.eqb white_lower (PyStr.lower username) then "white"
    else "black" in
  Ok (<["game_id" := JStr game_id]>
     (<["game_url" := dict_get game_data "url" (JStr EmptyString)]>
     (<["time_class" := dict_get game_data "time_class" (JStr EmptyString)]>
     (<["rated" := dict_get game_data "rated" (JBool false)]>
     (<["white" := white]>
     (<["black" := black]>
     (<["user_color" := JStr user_color]>
     (<["blunder_threshold_cp" := JInt Tester.BLUNDER_THRESHOLD_CP]>
     (<["moves_analyzed" := JInt (Z.of_nat (List.length analyses))]>
     (<["blunders_found" := JInt (Z.of_nat (List.length blunders))]>
     (<["analyses" := JArr (List.map analysis_dict analyses)]>
     (<["blunders" :=
          JArr (List.map (fun b => JObj (puzzle_dict b)) blunders)]>
        ∅)))))))))))).

End TesterFiles.

(* ===================================================================== *)
(** * The trainer: [local_python/fix_blunders_interactive.py] *)
(* ===================================================================== *)

Module Trainer.

Import Lambda.

Definition SQUARE_SIZE : Z := 64.
Definition BOARD_SIZE : Z := SQUARE_SIZE * 8.

(** [chess.square(file_index, rank_index)]. *)
Definition chess_square (file_index rank_index : Z) : Z :=
  rank_index * 8 + file_index.

(** [ChessBoard.coords_to_square], [flip] being the board's flag. *)
Definition coords_to_square (flip : bool) (x y : Z) : Z :=
  let col := x / SQUARE_SIZE in
  let row := 7 - (y / SQUARE_SIZE) in
  let col := if flip then 7 - col else col in
  let row := if flip then 7 - row else row in
  chess_square col row.

(** The corner [(x1, y1)] at which [draw_board] draws the square of
    column [col] and row [row]; the square covers [SQUARE_SIZE] pixels
    each way from it. *)
Definition drawn_at (flip : bool) (col row : Z) : Z * Z :=
  let display_row := if negb flip then 7 - row else row in
  let display_col := if negb flip then col else 7 - col in
  let x1 := display_col * SQUARE_SIZE in
  let y1 := display_row * SQUARE_SIZE in
  (x1, y1).

(** [move_uci == v] for a decoded value [v]. *)
Definition str_eq (move_uci : string) (v : json) : bool :=
  match v with
  | JStr s => String.eqb move_uci s
  | _ => false
  end.

(** The loop [for acceptable in ...] of [is_correct_move] over a list. *)
Fixpoint any_acceptable (move_uci : string) (l : list json) : res bool :=
  match l with
  | [] => Ok false
  | acceptable :: rest =>
      match acceptable with
      | JObj d =>
          if str_eq move_uci (dict_get d "move_uci" JNull) then Ok true
          else any_acceptable move_uci rest
      | _ => Raise AttributeError
      end
  end.

(** [PracticePage.is_correct_move], on the move's UCI string.  Iterating
    a string or a dict yields strings, which have no [get]; other values
    cannot be iterated. *)
Definition is_correct_move (move_uci : string) (blunder : gmap string json)
  : res bool :=
  if str_eq move_uci (dict_get blunder "correct_move_uci" JNull) then Ok true
  else
    match dict_get blunder "acceptable_moves" (JArr []) with
    | JArr l => any_acceptable move_uci l
    | JStr s =>
        match s with
        | EmptyString => Ok false
        | _ => Raise AttributeError
        end
    | JObj m =>
        match map_to_list m with
        | [] => Ok false
        | _ => Raise AttributeError
        end
    | JNull | JBool _ | JInt _ | JFloat _ => Raise TypeError
    end.

(** The loop [for blunder in ...] of [load_all_blunders] over a list:
    each blunder gets the two tags; one that is not a dict does not
    support item assignment. *)
Fixpoint tag_blunders (game_url user_color : json) (l : list json)
  : res (list json) :=
  match l with
  | [] => Ok []
  | blunder :: rest =>
      match blunder with
      | JObj b =>
          do tagged <- tag_blunders game_url user_color rest;
          Ok (JObj (<["_user_color" := user_color]>
                      (<["_game_url" := game_url]> b)) :: tagged)
      | _ => Raise TypeError
      end
  end.

(** The blunders [load_all_blunders] takes from one decoded file. *)
Definition blunders_of_file (data : json) : res (list json) :=
  match data with
  | JObj d =>
      let game_url := dict_get d "game_url" (JStr EmptyString) in
      let user_color := dict_get d "user_color" (JStr "white") in
      match dict_get d "blunders" (JArr []) with
      | JArr l => tag_blunders game_url user_color l
      | JStr s =>
          match s with
          | EmptyString => Ok []
          | _ => Raise TypeError
          end
      | JObj m =>
          match map_to_list m with
          | [] => Ok []
          | _ => Raise TypeError
          end
      | JNull | JBool _ | JInt _ | JFloat _ => Raise TypeError
      end
  | _ => Raise AttributeError
  end.

(** The loop over the files of the user's directory. *)
Fixpoint load_files (files : list json) : res (list json) :=
  match files with
  | [] => Ok []
  | data :: rest =>
      do blunders <- blunders_of_file data;
      do more <- load_files rest;
      Ok (blunders ++ more)
  end.

(** [load_all_blunders]: [user_dir] is the decoded content of the files
    [*.json] of the user's directory, in the order the directory lists
    them, or [None] when the directory does not exist. *)
Definition load_all_blunders (user_dir : option (list json))
  : res (list json) :=
  match user_dir with
  | None => Ok []
  | Some files => load_files files
  end.

(** A Python number: the counter [total_blunders] starts as the integer
    zero and becomes a float once a float is added. *)
Inductive number : Type :=
  | NInt (n : Z)
  | NFloat (f : spec_float).

(** The conversion of an integer operand to a float, rounding to the
    nearest binary64 value: an [OverflowError] when that is out of
    range. *)
Definition float_of_int (n : Z) : res spec_float :=
  match binary_normalize 53 1024 n 0 false with
  | S754_infinity _ => Raise OverflowError
  | f => Ok f
  end.

(** The binary64 sum of two floats. *)
Definition float_add (x y : spec_float) : spec_float := SFadd 53 1024 x y.

(** [total += v] on the counter: integer addition between integers
    ([bool] included), float addition once either side is a float, a
    [TypeError] for a value that is not a number. *)
Definition add_count (total : number) (v : json) : res number :=
  match total, as_int v, v with
  | NInt n, Some k, _ => Ok (NInt (n + k))
  | NInt n, None, JFloat f =>
      do x <- float_of_int n; Ok (NFloat (float_add x f))
  | NFloat t, Some k, _ =>
      do y <- float_of_int k; Ok (NFloat (float_add t y))
  | NFloat t, None, JFloat f => Ok (NFloat (float_add t f))
  | _, None, _ => Raise TypeError
  end.

(** The loop of [get_user_stats] over the files of the user's directory:
    [(games_analyzed, total_blunders)]. *)
Fixpoint count_files (files : list json) (games_analyzed : Z)
  (total_blunders : number) : res (Z * number) :=
  match files with
  | [] => Ok (games_analyzed, total_blunders)
  | data :: rest =>
      let games_analyzed := games_analyzed + 1 in
      match data with
      | JObj d =>
          do total <- add_count total_blunders
                        (dict_get d "blunders_found" (JInt 0));
          count_files rest games_analyzed total
      | _ => Raise AttributeError
      end
  end.

(** The part of [get_user_stats] that reads the analysed games:
    [(games_analyzed, total_blunders)]. *)
Definition analyzed_stats (user_dir : option (list json))
  : res (Z * number) :=
  match user_dir with
  | None => Ok (0, NInt 0)
  | Some files => count_files files 0 (NInt 0)
  end.

End Trainer.

(* ===================================================================== *)
(** * Predicates used in the further statements *)
(* ===================================================================== *)

Module MoreProps.

(** The first moves of the engine's lines that have one, in order. *)
Definition first_moves `{ChessRules} (analysis : list InfoDict) : list Move :=
  List.flat_map
    (fun info => match info_pv info with
                 | Some (move :: _) => [move]
                 | _ => []
                 end) analysis.

(** The lines of a reply that have a move. *)
Definition lines_with_move `{ChessRules} (analysis : list InfoDict)
  : list InfoDict :=
  List.filter
    (fun info => match info_pv info with
                 | Some (_ :: _) => true
                 | _ => false
                 end) analysis.

(** Exactly one of the two optional values is present. *)
Definition exactly_one (cp mate_in : option Z) : bool :=
  match cp, mate_in with
  | Some _, None | None, Some _ => true
  | _, _ => false
  end.

(** The local backend's line record, as the REST handler's. *)
Definition to_MoveInfo (m : LocalAnalyze.MoveAnalysis.t)
  : AppAnalyze.MoveInfo.t :=
  AppAnalyze.MoveInfo.mk
    (LocalAnalyze.MoveAnalysis.move_uci m)
    (LocalAnalyze.MoveAnalysis.move_san m)
    (LocalAnalyze.MoveAnalysis.eval_cp m)
    (LocalAnalyze.MoveAnalysis.mate_in m).

(** The local backend's position analysis, as the REST handler's. *)
Definition to_AnalyzeResponse (p : LocalAnalyze.PositionAnalysis.t)
  : AppAnalyze.AnalyzeResponse.t :=
  AppAnalyze.AnalyzeResponse.mk
    (LocalAnalyze.PositionAnalysis.fen p)
    (LocalAnalyze.PositionAnalysis.side_to_move p)
    (List.map to_MoveInfo (LocalAnalyze.PositionAnalysis.best_moves p)).

(** The local backend's move evaluation, as the REST handler's. *)
Definition to_EvaluateResponse (r : Local.MoveEvaluation)
  : App.EvaluateResponse :=
  App.mk_EvaluateResponse (Local.fen r) (Local.move_uci r) (Local.move_san r)
    (Local.is_legal r) (Local.eval_before_cp r) (Local.eval_after_cp r)
    (Local.eval_drop_cp r) (Local.best_move_uci r) (Local.best_move_san r).

(** [a] ranks strictly before [b]. *)
Definition ranks_before (a b : Lambda.line_data) : Prop :=
  Lambda.multipv a < Lambda.multipv b.

(** A line that sets the best move: it starts with [bestmove] and has at
    least two tokens. *)
Definition sets_bestmove (line : string) : bool :=
  PyStr.startswith line "bestmove"
  && match PyStr.split line with
     | _ :: _ :: _ => true
     | _ => false
     end.

(** A character of [s] is [ch]. *)
Fixpoint has_char (ch : ascii) (s : string) : bool :=
  match s with
  | EmptyString => false
  | String c s' => Ascii.eqb c ch || has_char ch s'
  end.

(** The string is made of the character [ch] only. *)
Fixpoint all_char (ch : ascii) (s : string) : bool :=
  match s with
  | EmptyString => true
  | String c s' => Ascii.eqb c ch && all_char ch s'
  end.

(** A puzzle as [load_all_blunders] hands it to the practice page: the
    saved dict with the two tags. *)
Definition tagged (game_url user_color : Lambda.json)
  (b : Tester.BlunderPuzzle.t) : gmap string Lambda.json :=
  <["_user_color" := user_color]>
    (<["_game_url" := game_url]> (TesterFiles.puzzle_dict b)).

(** A decoded file that [save_game_analysis] wrote. *)
Definition saved_file (data : Lambda.json) : Prop :=
  exists username game_id game_data analyses blunders doc,
    TesterFiles.save_game_analysis username game_id game_data
      analyses blunders = Ok doc
    /\ data = Lambda.JObj doc.

(** The move is the move of one of the lines. *)
Definition among (move_uci : string) (l : list Tester.top_move) : bool :=
  existsb (fun m => String.eqb move_uci (Tester.move_uci m)) l.

(** The other side. *)
Definition opposite (c : Color) : Color :=
  match c with
  | WHITE => BLACK
  | BLACK => WHITE
  end.

(** A centipawn value seen from white, seen from the side [c]. *)
Definition seen_from (c : Color) (v : Z) : Z :=
  match c with
  | WHITE => v
  | BLACK => - v
  end.

End MoreProps.

(* ===================================================================== *)
(** * Further concrete runs *)
(* ===================================================================== *)

Module Runs.

#[local] Existing Instance Toy.rules.
#[local] Existing Instance Toy.engine.

(** A reply with a centipawn line and a mate line. *)
Definition two_lines : list (list InfoDict) :=
  [ [Toy.info (Cp 30) "e2e4"; Toy.info (Mate 2) "d2d4"] ].

(** A request that sets both a depth and a time. *)
Definition depth_request : AppAnalyze.AnalyzeRequest.t :=
  AppAnalyze.AnalyzeRequest.mk "0" (Some 12) (Some (Qmake 1 2)) 2.

(** A request for a position string that does not parse. *)
Definition bad_fen_request : AppAnalyze.AnalyzeRequest.t :=
  AppAnalyze.AnalyzeRequest.mk "startpos" None None 3.

(** What the engine has been asked after [depth_request]. *)
Definition depth_requests : list request :=
  [Request 0%nat (mk_Limit None (Some 12)) (Some 2)].

Definition after_depth_request : Engine := mk_Engine [] depth_requests.

(** The entries for the two lines. *)
Definition two_entries : list AppAnalyze.MoveInfo.t :=
  [AppAnalyze.MoveInfo.mk "e2e4" "e2e4" (Some 30) None;
   AppAnalyze.MoveInfo.mk "d2d4" "d2d4" None (Some 2)].

Definition two_lines_reply : res (list InfoDict) :=
  fst (analyse_multipv (engine_state (Toy.start two_lines)) 0%nat
         (AppAnalyze.request_limit depth_request) 2).

(** The same request by time, and the local backend's result for it. *)
Definition time_request : AppAnalyze.AnalyzeRequest.t :=
  AppAnalyze.AnalyzeRequest.mk "0" None (Some (Qmake 1 2)) 2.

Definition after_time_request : Engine :=
  mk_Engine [] [Request 0%nat (mk_Limit (Some (Qmake 1 2)) None) (Some 2)].

(** A request to evaluate the quiet opening move in half a second. *)
Definition quiet_request : App.EvaluateRequest :=
  App.mk_EvaluateRequest "0" "e2e4" (Some (Qmake 1 2)).

Definition after_two_requests : Engine :=
  mk_Engine []
    [Request 0%nat (mk_Limit (Some (Qmake 1 2)) None) (Some 1);
     Request 1%nat (mk_Limit (Some (Qmake 1 2)) None) (Some 1)].

Definition local_quiet : Local.MoveEvaluation :=
  Local.mk_MoveEvaluation "0" "e2e4" "e2e4" true (Some 30) (Some (-10))
    (Some 40) (Some "e2e4") (Some "e2e4").

(** The two replies of [Toy.quiet_script]. *)
Definition quiet_reply1 : res (list InfoDict) * EngineState :=
  analyse_multipv Toy.quiet_script 0%nat
    (mk_Limit (Some (Qmake 1 2)) None) 1.

Definition quiet_reply2 : res (list InfoDict) * EngineState :=
  analyse_multipv (snd quiet_reply1) 1%nat
    (mk_Limit (Some (Qmake 1 2)) None) 1.

(** The fields of a request for depth 12 with the debug flag set. *)
Definition debug_body : gmap string Lambda.json :=
  <["fen" := Lambda.JStr "8/8/8/8/8/8/8/K6k w - - 0 1"]>
    (<["depth" := Lambda.JInt 12]>
       (<["debug" := Lambda.JBool true]> ∅)).

(** A decoder that knows one document. *)
Definition one_json (s : string) : res Lambda.json :=
  if String.eqb s "{...}" then Ok (Lambda.JObj debug_body)
  else Raise ValueError.

(** The same request behind an API gateway. *)
Definition proxy_event : Lambda.json :=
  Lambda.JObj
    (<["body" := Lambda.JStr "{...}"]>
       (<["httpMethod" := Lambda.JStr "POST"]> ∅)).

(** A request with an empty position string. *)
Definition empty_fen_event : Lambda.json :=
  Lambda.JObj
    (<["fen" := Lambda.JStr EmptyString]>
       (<["depth" := Lambda.JNull]> ∅)).

(** A game in which white's first move mates: the engine reports a mate
    in zero for black, who is to move. *)
Definition mating_script : list (list InfoDict) :=
  [ [Toy.info (Mate 1) "h5f7"];
    [mk_InfoDict Toy.rules (Some (mkPovScore (Mate 0) BLACK)) None] ].

Definition mating_game : Tester.Game :=
  Tester.mk_Game 0%nat
    (<["White" := "Alice"]> (<["Black" := "Bob"]> ∅))
    ["h5f7"].

Definition mating_lines : list Tester.top_move :=
  [Tester.mk_top_move "h5f7" "h5f7" 99900].

Definition mating_analysis : Tester.MoveAnalysis.t :=
  Tester.MoveAnalysis.mk 0 1 "white" "0" "h5f7" "h5f7" "h5f7" "h5f7"
    99900 (-100000) 199900 true mating_lines.

Definition mating_puzzle : Tester.BlunderPuzzle.t :=
  Tester.BlunderPuzzle.mk "game9_0" "game9" "0" "white" 1 "h5f7" "h5f7"
    "h5f7" "h5f7" 199900 mating_lines.

Definition walk_after_mate : Tester.walk :=
  Tester.mk_walk 1%nat [mating_analysis] [mating_puzzle].

Definition after_mating_first_request : Engine :=
  mk_Engine [[mk_InfoDict Toy.rules (Some (mkPovScore (Mate 0) BLACK)) None]]
    [Request 0%nat (mk_Limit (Some (Qmake 3 10)) None) (Some 3)].

Definition mate_zero_info : InfoDict :=
  mk_InfoDict Toy.rules (Some (mkPovScore (Mate 0) BLACK)) None.

(** The game data of a Chess.com game of Alice against Bob. *)
Definition alice_game_data : gmap string Lambda.json :=
  <["url" := Lambda.JStr "https://www.chess.com/game/live/77"]>
    (<["white" := Lambda.JObj (<["username" := Lambda.JStr "Alice"]> ∅)]>
       (<["black" := Lambda.JObj (<["username" := Lambda.JStr "Bob"]> ∅)]>
          ∅)).

(** What [save_game_analysis] writes for that game, of which white's
    first move is a blunder. *)
Definition alice_saved : res (gmap string Lambda.json) :=
  TesterFiles.save_game_analysis "alice" "77" alice_game_data
    [Toy.blunder_analysis] [Toy.blunder_puzzle].

Definition alice_doc : gmap string Lambda.json :=
  match alice_saved with
  | Ok doc => doc
  | Raise _ => ∅
  end.

Definition local_two_lines : LocalAnalyze.PositionAnalysis.t :=
  LocalAnalyze.PositionAnalysis.mk "0" "white"
    [LocalAnalyze.MoveAnalysis.mk "e2e4" "e2e4" (Some 30) None;
     LocalAnalyze.MoveAnalysis.mk "d2d4" "d2d4" None (Some 2)].

End Runs.

(* ===================================================================== *)
(** * Score normalisation: properties *)
(* ===================================================================== *)

(** The local backend's normaliser is the REST handler's. *)
Lemma Local_get_eval_eq (score : PovScore) (turn : Color) :
  Local._get_eval score turn = App.get_eval_cp score turn.
Proof. reflexivity. Qed.

(** The normaliser reads only the white-relative score. *)
Lemma App_get_eval_cp_cases (score : PovScore) (turn : Color) :
  App.get_eval_cp score turn =
  match white score with
  | Cp v => (Some (match turn with WHITE => v | BLACK => - v end), None)
  | Mate n => (None, Some n)
  | MateGiven => (None, Some 0)
  end.
Proof.
  unfold App.get_eval_cp.
  destruct (white score) as [v | n | ]; destruct turn; reflexivity.
Qed.

(** A mate for white is a large positive number, a mate against white a
    large negative one. *)
Lemma white_cp_mate_positive (n : Z) :
  0 < n -> Tester.white_cp (Mate n) = 100000 - 100 * n.
Proof.
  intros Hn. unfold Tester.white_cp.
  destruct (Z.gtb_spec n 0); lia.
Qed.

Lemma white_cp_mate_negative (n : Z) :
  n <= 0 -> Tester.white_cp (Mate n) = -100000 - 100 * n.
Proof.
  intros Hn. unfold Tester.white_cp.
  destruct (Z.gtb_spec n 0); lia.
Qed.

(** C1, as amended.  The normaliser of the REST handler and of the local
    backend populates exactly one of [cp] and [mate_in]: for a mate the
    white-relative mate count, unchanged whatever the requested side, and
    no centipawn value; for centipawns the value (negated for black) and
    no mate count.  The game-analysis tester's [get_eval_cp] returns one
    integer instead, in which a mate count [n] becomes [100000 - 100 n]
    when positive and [-100000 - 100 n] otherwise, negated for black. *)
Theorem C1_normalized_eval_one_field (score : PovScore) (turn : Color) :
  match white score with
  | Cp v =>
      App.get_eval_cp score turn
      = (Some (match turn with WHITE => v | BLACK => - v end), None)
  | Mate n => App.get_eval_cp score turn = (None, Some n)
  | MateGiven => App.get_eval_cp score turn = (None, Some 0)
  end
  /\ Local._get_eval score turn = App.get_eval_cp score turn
  /\ Tester.get_eval_cp (Some score) turn
     = (match turn with WHITE => 1 | BLACK => -1 end)
       * match white score with
         | Cp v => v
         | Mate n => if 0 <? n then 100000 - 100 * n else -100000 - 100 * n
         | MateGiven => -100000
         end.
Proof.
  split; [| split].
  - rewrite App_get_eval_cp_cases. destruct (white score); reflexivity.
  - apply Local_get_eval_eq.
  - unfold Tester.get_eval_cp, Tester.white_cp.
    destruct (white score) as [v | n | ].
    + destruct turn; lia.
    + rewrite Z.gtb_ltb. destruct (0 <? n); destruct turn; lia.
    + destruct turn; lia.
Qed.

(** C1, as stated, fails on the game-analysis tester: a mate in three for
    white is reported as the centipawn number 99700. *)
Lemma C1_mate_summarized_as_centipawns :
  is_mate (white (mkPovScore (Mate 3) WHITE)) = true
  /\ App.get_eval_cp (mkPovScore (Mate 3) WHITE) WHITE = (None, Some 3)
  /\ Tester.get_eval_cp (Some (mkPovScore (Mate 3) WHITE)) WHITE = 99700.
Proof. repeat split. Qed.

(** C5.  For a raw centipawn score, the value normalised for white and
    the value normalised for black are negations of each other, in the
    REST handler, the local backend and the tester alike. *)
Theorem C5_white_black_negation (v : Z) (pov_turn : Color) :
  let raw := mkPovScore (Cp v) pov_turn in
  exists w : Z,
    App.get_eval_cp raw WHITE = (Some w, None)
    /\ App.get_eval_cp raw BLACK = (Some (- w), None)
    /\ Local._get_eval raw WHITE = (Some w, None)
    /\ Local._get_eval raw BLACK = (Some (- w), None)
    /\ Tester.get_eval_cp (Some raw) WHITE = w
    /\ Tester.get_eval_cp (Some raw) BLACK = - w.
Proof.
  destruct pov_turn; cbn.
  - exists v. repeat split.
  - exists (- v). repeat split.
Qed.

(* ===================================================================== *)
(** * The output parser: properties *)
(* ===================================================================== *)

Module ParserFacts.

Import Lambda Props.

Lemma caught_bind {A B : Type} (m : res A) (k : A -> res B) :
  caught m -> (forall a, caught (k a)) -> caught (res_bind m k).
Proof. destruct m as [a | e]; cbn; auto. Qed.

Lemma caught_Ok {A : Type} (a : A) : caught (Ok a).
Proof. exact I. Qed.

Lemma caught_getitem {A : Type} (l : list A) (i : nat) :
  caught (py_getitem l i).
Proof. unfold py_getitem. destruct (nth_error l i); cbn; auto. Qed.

Lemma caught_index (x : string) (l : list string) : caught (PyStr.index x l).
Proof.
  induction l as [| y l IH]; cbn; [auto |].
  destruct (String.eqb y x); [exact I |].
  apply caught_bind; [exact IH | intros; exact I].
Qed.

Lemma caught_int (s : string) : caught (PyStr.int s).
Proof. unfold PyStr.int. repeat case_match; cbn; auto. Qed.

Lemma caught_list_remove (x : line_data) (l : list line_data) :
  caught (list_remove x l).
Proof.
  induction l as [| y l IH]; cbn; [auto |].
  destruct (decide (y = x)); [exact I |].
  apply caught_bind; [exact IH | intros; exact I].
Qed.

Create HintDb caught.

#[local] Hint Resolve caught_Ok caught_getitem caught_index caught_int
  caught_list_remove : caught.

Ltac caught_step :=
  first [ apply caught_bind; [solve [auto with caught] | intros ?]
        | solve [auto with caught] ].

(** The [try] body raises nothing but [ValueError] and [IndexError]. *)
Lemma caught_try_body (parts : list string) (lines : list line_data) :
  caught (try_body parts lines).
Proof.
  unfold try_body.
  destruct (negb _ || negb _ || negb _); [exact I |].
  do 8 caught_step.
  apply caught_bind.
  - destruct (PyStr.mem "multipv" parts); [| exact I].
    do 3 caught_step.
  - intros pv_num.
    destruct (existing_for pv_num lines) as [existing |]; [| exact I].
    destruct (_ >? _); [| exact I].
    caught_step. exact I.
Qed.

(** One loop iteration never raises. *)
Lemma process_line_total (st : parse_state) (line : string) :
  exists st', process_line st line = Ok st'.
Proof.
  destruct st as [lines bestmove]. unfold process_line.
  destruct (PyStr.startswith line "bestmove").
  { destruct (PyStr.split line) as [| ? [| ? ?]]; eauto. }
  destruct (negb (PyStr.startswith line "info")); [eauto |].
  destruct (negb (PyStr.contains " pv " line)); [eauto |].
  destruct (PyStr.contains "upperbound" line || PyStr.contains "lowerbound" line);
    [eauto |].
  pose proof (caught_try_body (PyStr.split line) lines) as Hc.
  destruct (try_body (PyStr.split line) lines) as [lines' | e]; [eauto |].
  cbn in Hc. destruct Hc as [-> | ->]; eauto.
Qed.

(** The loop never raises. *)
Lemma process_lines_total (lines_raw : list string) (st : parse_state) :
  exists st', process_lines st lines_raw = Ok st'.
Proof.
  revert st. induction lines_raw as [| line rest IH]; intros st; cbn.
  - eauto.
  - destruct (process_line_total st line) as [st1 ->]. cbn. apply IH.
Qed.

Lemma process_lines_app (l1 l2 : list string) (st : parse_state) :
  process_lines st (l1 ++ l2)
  = res_bind (process_lines st l1) (fun st1 => process_lines st1 l2).
Proof.
  revert st. induction l1 as [| line rest IH]; intros st; cbn.
  - reflexivity.
  - destruct (process_line st line) as [st1 | e]; cbn; [apply IH | reflexivity].
Qed.

Ltac bind_ok H :=
  repeat match type of H with
         | res_bind ?m _ = Ok _ =>
             let E := fresh "E" in
             destruct m eqn:E; cbn [res_bind] in H; [| discriminate H]
         end.

(** The effect of the [try] body on the kept records. *)
Lemma try_body_step (parts : list string) (kept kept' : list line_data) :
  try_body parts kept = Ok kept' -> kept_step kept kept'.
Proof.
  unfold try_body. intros H.
  destruct (negb _ || negb _ || negb _).
  { injection H as <-. constructor. }
  bind_ok H.
  match type of H with
  | match existing_for ?n kept with _ => _ end = _ =>
      destruct (existing_for n kept) as [existing |] eqn:Ex
  end.
  - destruct (Z.gtb_spec a3 (depth existing)) as [Hd | Hd].
    + bind_ok H. injection H as <-.
      eapply step_deeper; cbn; eauto.
    + injection H as <-. constructor.
  - injection H as <-. apply step_new. exact Ex.
Qed.

(** The effect of one loop iteration on the kept records. *)
Lemma process_line_step (st st' : parse_state) (line : string) :
  process_line st line = Ok st' -> kept_step (fst st) (fst st').
Proof.
  destruct st as [kept bestmove]. unfold process_line. intros H.
  destruct (PyStr.startswith line "bestmove").
  { destruct (PyStr.split line) as [| ? [| ? ?]]; injection H as <-;
      constructor. }
  destruct (negb (PyStr.startswith line "info")).
  { injection H as <-. constructor. }
  destruct (negb (PyStr.contains " pv " line)).
  { injection H as <-. constructor. }
  destruct (PyStr.contains "upperbound" line || PyStr.contains "lowerbound" line).
  { injection H as <-. constructor. }
  destruct (try_body (PyStr.split line) kept) as [kept' | e] eqn:E.
  - injection H as <-. cbn. apply try_body_step with (1 := E).
  - destruct e; try discriminate H; injection H as <-; constructor.
Qed.

Lemma list_remove_split (x : line_data) (l r : list line_data) :
  list_remove x l = Ok r -> exists l1 l2, l = l1 ++ x :: l2 /\ r = l1 ++ l2.
Proof.
  revert r. induction l as [| y l IH]; cbn; intros r H; [discriminate |].
  destruct (decide (y = x)) as [-> | Hne].
  - injection H as <-. exists [], l. split; reflexivity.
  - destruct (list_remove x l) as [r' |]; cbn in H; [| discriminate].
    injection H as <-.
    destruct (IH r' eq_refl) as (l1 & l2 & -> & ->).
    exists (y :: l1), l2. split; reflexivity.
Qed.

Lemma existing_for_Some (n : Z) (kept : list line_data) (ex : line_data) :
  existing_for n kept = Some ex -> In ex kept /\ multipv ex = n.
Proof.
  unfold existing_for. intros H. apply List.find_some in H.
  destruct H as [Hin Heq]. split; [exact Hin | lia].
Qed.

Lemma existing_for_None (n : Z) (kept : list line_data) :
  existing_for n kept = None -> ~ In n (ranks kept).
Proof.
  unfold existing_for, ranks. intros H Hin.
  apply List.in_map_iff in Hin. destruct Hin as (x & Hx & Hin).
  pose proof (List.find_none _ _ H x Hin) as Hf. cbn in Hf. lia.
Qed.

Lemma supersedes_refl (kept : list line_data) : supersedes kept kept.
Proof.
  intros old Hin. exists old. repeat split; [exact Hin | lia | congruence].
Qed.

Lemma supersedes_trans (k1 k2 k3 : list line_data) :
  supersedes k1 k2 -> supersedes k2 k3 -> supersedes k1 k3.
Proof.
  intros H12 H23 old Hin.
  destruct (H12 old Hin) as (mid & Hmid & Hr1 & Hd1 & Hs1).
  destruct (H23 mid Hmid) as (new & Hnew & Hr2 & Hd2 & Hs2).
  exists new. repeat split; [exact Hnew | congruence | lia |].
  intros Hne.
  destruct (decide (mid = old)) as [-> | Hmo].
  - apply Hs2. exact Hne.
  - specialize (Hs1 Hmo). lia.
Qed.

(** One step keeps, for every rank, a record at least as deep. *)
Lemma kept_step_supersedes (kept kept' : list line_data) :
  kept_step kept kept' -> supersedes kept kept'.
Proof.
  intros [| ld Hnone | ld ex removed Hex Hd Hrm].
  - apply supersedes_refl.
  - intros old Hin. exists old.
    repeat split; [apply List.in_or_app; auto | lia | congruence].
  - apply existing_for_Some in Hex. destruct Hex as [_ Hrank].
    apply list_remove_split in Hrm. destruct Hrm as (l1 & l2 & -> & ->).
    intros old Hin.
    destruct (decide (old = ex)) as [-> | Hne].
    + exists ld. repeat split.
      * apply List.in_or_app. right. left. reflexivity.
      * congruence.
      * lia.
      * intros _. exact Hd.
    + exists old. repeat split; [| lia | congruence].
      apply List.in_or_app. left.
      apply List.in_app_or in Hin. apply List.in_or_app.
      destruct Hin as [Hin | [Heq | Hin]]; [auto | congruence | auto].
Qed.

(** One step keeps at most one record per rank. *)
Lemma kept_step_NoDup (kept kept' : list line_data) :
  kept_step kept kept' -> List.NoDup (ranks kept) -> List.NoDup (ranks kept').
Proof.
  unfold ranks.
  intros [| ld Hnone | ld ex removed Hex Hd Hrm] Hnd.
  - exact Hnd.
  - apply existing_for_None in Hnone.
    rewrite List.map_app. cbn.
    apply (Permutation.Permutation_NoDup
             (l := multipv ld :: List.map multipv kept)).
    + apply Permutation.Permutation_cons_append.
    + constructor; assumption.
  - apply existing_for_Some in Hex. destruct Hex as [_ Hrank].
    apply list_remove_split in Hrm. destruct Hrm as (l1 & l2 & -> & ->).
    rewrite List.map_app in Hnd. cbn in Hnd.
    apply List.NoDup_remove in Hnd. destruct Hnd as [Hnd Hnotin].
    rewrite <- List.map_app in Hnd, Hnotin.
    rewrite List.map_app. cbn.
    apply (Permutation.Permutation_NoDup
             (l := multipv ld :: List.map multipv (l1 ++ l2))).
    + apply Permutation.Permutation_cons_append.
    + constructor; [congruence | exact Hnd].
Qed.

(** The loop, over any run of lines. *)
Lemma process_lines_invariant (lines_raw : list string) (st st' : parse_state) :
  process_lines st lines_raw = Ok st' ->
  supersedes (fst st) (fst st')
  /\ (List.NoDup (ranks (fst st)) -> List.NoDup (ranks (fst st'))).
Proof.
  revert st. induction lines_raw as [| line rest IH]; intros st H; cbn in H.
  - injection H as <-. split; [apply supersedes_refl | auto].
  - destruct (process_line st line) as [st1 |] eqn:E; cbn in H; [| discriminate].
    apply process_line_step in E.
    destruct (IH st1 H) as [Hs Hn]. split.
    + eapply supersedes_trans; [apply kept_step_supersedes; exact E | exact Hs].
    + intros Hnd. apply Hn. eapply kept_step_NoDup; eauto.
Qed.

Lemma In_insert_by_multipv (x y : line_data) (l : list line_data) :
  In y (insert_by_multipv x l) <-> y = x \/ In y l.
Proof.
  induction l as [| z l IH]; cbn.
  - intuition congruence.
  - destruct (multipv x <=? multipv z); cbn; [intuition congruence |].
    rewrite IH. intuition congruence.
Qed.

Lemma In_sort_by_multipv (y : line_data) (l : list line_data) :
  In y (sort_by_multipv l) <-> In y l.
Proof.
  induction l as [| x l IH]; cbn; [tauto |].
  rewrite In_insert_by_multipv, IH. intuition congruence.
Qed.

Lemma head_lowest_insert (x : line_data) (l : list line_data) :
  head_lowest l -> head_lowest (insert_by_multipv x l).
Proof.
  destruct l as [| z l]; cbn.
  - intros _ y [<- | []]. lia.
  - intros Hz. destruct (Z.leb_spec (multipv x) (multipv z)) as [Hle | Hgt]; cbn.
    + intros y [<- | Hy]; [lia |]. specialize (Hz y Hy). lia.
    + intros y [<- | Hy]; [lia |].
      apply In_insert_by_multipv in Hy. destruct Hy as [-> | Hy]; [lia |].
      apply Hz. right. exact Hy.
Qed.

Lemma head_lowest_sort (l : list line_data) : head_lowest (sort_by_multipv l).
Proof.
  induction l as [| x l IH]; cbn; [exact I |].
  apply head_lowest_insert. exact IH.
Qed.

Lemma sort_by_multipv_nil (l : list line_data) :
  sort_by_multipv l = [] -> l = [].
Proof.
  destruct l as [| x l]; [reflexivity |]. intros H.
  assert (Hin : In x (sort_by_multipv (x :: l)))
    by (apply In_sort_by_multipv; left; reflexivity).
  rewrite H in Hin. destruct Hin.
Qed.

(** What the parser returns when the loop ends without a best move: the
    first move of the lowest-ranked record if that record has a move, an
    [IndexError] if its line of moves is empty, and no best move when no
    record was kept. *)
Lemma parse_without_bestmove (output : string) (kept : list line_data)
  (bestmove : option string) :
  process_lines ([], None)
    (PyStr.split_on newline (PyStr.strip output)) = Ok (kept, bestmove) ->
  bestmove_truthy bestmove = false ->
  match sort_by_multipv kept with
  | first :: rest =>
      In first kept
      /\ (forall x, In x kept -> multipv first <= multipv x)
      /\ parse_stockfish_output output
         = match pv first with
           | move :: _ => Ok (mk_result (first :: rest) (Some move))
           | [] => Raise IndexError
           end
  | [] => kept = [] /\ parse_stockfish_output output = Ok (mk_result [] None)
  end.
Proof.
  intros Hrun Hbm. unfold parse_stockfish_output. rewrite Hrun. cbn.
  rewrite Hbm.
  pose proof (head_lowest_sort kept) as Hlow.
  destruct (sort_by_multipv kept) as [| first rest] eqn:Es.
  - split; [apply sort_by_multipv_nil; exact Es | reflexivity].
  - split; [| split].
    + apply In_sort_by_multipv. rewrite Es. left. reflexivity.
    + intros x Hx. apply Hlow. rewrite <- Es. apply In_sort_by_multipv. exact Hx.
    + destruct (pv first); reflexivity.
Qed.

End ParserFacts.

Import Lambda Props.

(** A complete output: the deeper rank-1 line arrives before a shallower
    one and stays; the lines come out in rank order. *)
Example parse_complete_output :
  parse_stockfish_output
    ("info depth 1 score cp 10 multipv 2 pv a2a3" +:+ String newline
     ("info depth 3 seldepth 4 multipv 1 score mate -2 nodes 5 pv e2e4 e7e5"
      +:+ String newline
      ("info depth 2 multipv 1 score cp 7 pv d2d4" +:+ String newline
       "bestmove e2e4 ponder e7e5")))
  = Ok (mk_result
          [mk_line_data 3 (ScoreMate (-2)) ["e2e4"; "e7e5"] 1;
           mk_line_data 1 (ScoreCp 10) ["a2a3"] 2]
          (Some "e2e4")).
Proof. vm_compute. reflexivity. Qed.

(** No best-move line: the first move of the rank-1 line is reported. *)
Example parse_without_bestmove_line :
  parse_stockfish_output
    ("info depth 4 multipv 2 score cp -12 pv g1f3 g8f6" +:+ String newline
     "info depth 4 multipv 1 score cp 25 pv e2e4 e7e5")
  = Ok (mk_result
          [mk_line_data 4 (ScoreCp 25) ["e2e4"; "e7e5"] 1;
           mk_line_data 4 (ScoreCp (-12)) ["g1f3"; "g8f6"] 2]
          (Some "e2e4")).
Proof. vm_compute. reflexivity. Qed.

(** Nothing recognisable: no record and no best move. *)
Example parse_nothing :
  parse_stockfish_output "Stockfish 16 by the Stockfish developers"
  = Ok (mk_result [] None).
Proof. vm_compute. reflexivity. Qed.

(** C3.  One loop iteration of the parser never raises, and it leaves the
    kept records alone, adds a record of a rank not kept so far, or
    replaces the record of a rank by one of strictly greater depth.  So
    over any sequence of lines the parser keeps at most one record per
    rank, and the record kept for a rank after more lines is the earlier
    one or a strictly deeper one. *)
Theorem C3_monotonic_depth_per_rank :
  (forall (st : parse_state) (line : string),
     exists st', process_line st line = Ok st'
                 /\ kept_step (fst st) (fst st'))
  /\ (forall l1 l2 : list string,
        exists st1 st2,
          process_lines ([], None) l1 = Ok st1
          /\ process_lines ([], None) (l1 ++ l2) = Ok st2
          /\ List.NoDup (ranks (fst st1))
          /\ List.NoDup (ranks (fst st2))
          /\ supersedes (fst st1) (fst st2)).
Proof.
  split.
  - intros st line.
    destruct (ParserFacts.process_line_total st line) as [st' E].
    exists st'. split; [exact E |].
    apply ParserFacts.process_line_step with (1 := E).
  - intros l1 l2.
    destruct (ParserFacts.process_lines_total l1 ([], None)) as [st1 E1].
    destruct (ParserFacts.process_lines_total l2 st1) as [st2 E2].
    exists st1, st2.
    assert (E12 : process_lines ([], None) (l1 ++ l2) = Ok st2)
      by (rewrite ParserFacts.process_lines_app, E1; exact E2).
    destruct (ParserFacts.process_lines_invariant _ _ _ E1) as [_ Hn1].
    destruct (ParserFacts.process_lines_invariant _ _ _ E2) as [Hs2 Hn2].
    assert (Hnd1 : List.NoDup (ranks (fst st1))) by (apply Hn1; constructor).
    repeat split; auto.
Qed.

(** C7.  A line that carries [upperbound] or [lowerbound], or whose tokens
    lack [depth], [score] or [pv], produces no record and no exception:
    the kept records are unchanged, and the whole state is unchanged
    unless the line is a [bestmove] line. *)
Theorem C7_bound_or_incomplete_line_ignored
  (st : parse_state) (line : string) :
  PyStr.contains "upperbound" line = true
  \/ PyStr.contains "lowerbound" line = true
  \/ PyStr.mem "depth" (PyStr.split line) = false
  \/ PyStr.mem "score" (PyStr.split line) = false
  \/ PyStr.mem "pv" (PyStr.split line) = false ->
  exists st',
    process_line st line = Ok st'
    /\ fst st' = fst st
    /\ (PyStr.startswith line "bestmove" = false -> st' = st).
Proof.
  intros H. destruct st as [kept bestmove]. unfold process_line.
  destruct (PyStr.startswith line "bestmove").
  { destruct (PyStr.split line) as [| ? [| ? ?]];
      eexists; (split; [reflexivity | split; [reflexivity | discriminate]]). }
  destruct (negb (PyStr.startswith line "info")); [eauto |].
  destruct (negb (PyStr.contains " pv " line)); [eauto |].
  destruct (PyStr.contains "upperbound" line) eqn:Eu; cbn; [eauto |].
  destruct (PyStr.contains "lowerbound" line) eqn:El; cbn; [eauto |].
  assert (Hskip : try_body (PyStr.split line) kept = Ok kept).
  { unfold try_body.
    destruct H as [H | [H | [H | [H | H]]]]; try discriminate;
      rewrite H; cbn; rewrite ?orb_true_r; reflexivity. }
  rewrite Hskip. eauto.
Qed.

(** A bound-qualified line, at a state that already keeps a record. *)
Lemma C7_upperbound_line_witness :
  exists st',
    process_line ([mk_line_data 9 (ScoreCp 31) ["e2e4"] 1], None)
      "info depth 10 seldepth 14 multipv 1 score cp 55 upperbound nodes 1200 pv e2e4 e7e5"
    = Ok st'
    /\ fst st' = [mk_line_data 9 (ScoreCp 31) ["e2e4"] 1]
    /\ (PyStr.startswith
          "info depth 10 seldepth 14 multipv 1 score cp 55 upperbound nodes 1200 pv e2e4 e7e5"
          "bestmove" = false ->
        st' = ([mk_line_data 9 (ScoreCp 31) ["e2e4"] 1], None)).
Proof.
  apply (C7_bound_or_incomplete_line_ignored
           ([mk_line_data 9 (ScoreCp 31) ["e2e4"] 1], None)).
  left. vm_compute. reflexivity.
Defined.

(** C9, at the input on which the code fails: a record with an empty line
    of moves is kept, no best-move line follows, and the parser raises
    [IndexError] instead of returning a result. *)
Theorem C9_fallback_raises_on_empty_pv :
  let output := "info depth 1 score cp 10 pv " +:+ String newline "x" in
  process_lines ([], None) (PyStr.split_on newline (PyStr.strip output))
  = Ok ([mk_line_data 1 (ScoreCp 10) [] 1], None)
  /\ parse_stockfish_output output = Raise IndexError.
Proof. split; vm_compute; reflexivity. Qed.

(* ===================================================================== *)
(** * The move evaluator: properties *)
(* ===================================================================== *)

Section MoveEvaluatorFacts.

Context {R : ChessRules} {E : EngineModel}.

(** C6.  For a position and a well-formed move that is not legal in it,
    the REST handler (once its engine is initialised) and the local
    backend both return a result with [is_legal = false], without raising
    and with the engine untouched: no request is issued. *)
Theorem C6_illegal_move_is_a_result
  (e : Engine) (fen move_uci : string) (time : option Q) (t : Q)
  (board : Board) (move : Move) :
  Board_of_fen fen = Ok board ->
  Move_from_uci move_uci = Ok move ->
  legal board move = false ->
  App.evaluate_move (Some e) (App.mk_EvaluateRequest fen move_uci time)
  = (Ok (App.mk_EvaluateResponse fen move_uci move_uci false
           None None None None None), Some e)
  /\ Local.evaluate fen move_uci t e
     = (Ok (Local.mk_MoveEvaluation fen move_uci move_uci false
              None None None None None), e).
Proof.
  intros Hb Hm Hl. split.
  - unfold App.evaluate_move, App.evaluate_move_on, bind, lift, ret. cbn.
    rewrite Hb, Hm. cbn. rewrite Hl. reflexivity.
  - unfold Local.evaluate, bind, lift, ret.
    rewrite Hb, Hm, Hl. reflexivity.
Qed.

(** C10.  For a position and a move string that does not parse, the local
    backend returns a result with [is_legal = false] and every evaluation
    field null, without raising and with the engine untouched, whereas
    the REST handler (once its engine is initialised) raises an HTTP 400
    error, the engine untouched as well. *)
Theorem C10_malformed_move_local_result_rest_400
  (e : Engine) (fen move_uci : string) (time : option Q) (t : Q)
  (board : Board) :
  Board_of_fen fen = Ok board ->
  Move_from_uci move_uci = Raise ValueError ->
  Local.evaluate fen move_uci t e
  = (Ok (Local.mk_MoveEvaluation fen move_uci move_uci false
           None None None None None), e)
  /\ App.evaluate_move (Some e) (App.mk_EvaluateRequest fen move_uci time)
     = (Raise (HTTPException 400), Some e).
Proof.
  intros Hb Hm. split.
  - unfold Local.evaluate, bind, lift, ret. rewrite Hb, Hm. reflexivity.
  - unfold App.evaluate_move, App.evaluate_move_on, bind, lift, ret. cbn.
    rewrite Hb, Hm. reflexivity.
Qed.

(** A mate score gives no centipawn value. *)
Lemma get_eval_cp_mate (sc : PovScore) (turn : Color) :
  is_mate (white sc) = true -> fst (App.get_eval_cp sc turn) = None.
Proof. unfold App.get_eval_cp. intros ->. reflexivity. Qed.

(** The first [try] block always completes, after exactly one request;
    it reports no centipawn value when the reply carries a mate. *)
Lemma analyse_before_spec (board : Board) (limit : Limit) (e : Engine) :
  let reply := analyse_multipv (engine_state e) board limit 1 in
  exists eb bu bs,
    App.analyse_before board limit e
    = (Ok (eb, bu, bs),
       mk_Engine (snd reply) (requests e ++ [Request board limit (Some 1)]))
    /\ (mate_reply (fst reply) = true -> eb = None).
Proof.
  unfold App.analyse_before, try_except, bind, lift, ret, analyse,
    mate_reply, first_score.
  destruct (analyse_multipv (engine_state e) board limit 1)
    as [[infos | ex] s1]; cbn.
  - destruct infos as [| info rest]; cbn.
    + eexists _, _, _. split; [reflexivity | discriminate].
    + destruct (info_pv info) as [pv |]; cbn.
      * destruct (py_getitem pv 0) as [m |]; cbn.
        -- destruct (Move_bool m); cbn.
           ++ destruct (san board m); cbn;
                (eexists _, _, _; split; [reflexivity |]);
                destruct (info_score info) as [sc |];
                try discriminate; try reflexivity.
              apply get_eval_cp_mate.
           ++ eexists _, _, _; split; [reflexivity |].
              destruct (info_score info) as [sc |]; [| reflexivity].
              apply get_eval_cp_mate.
        -- eexists _, _, _. split; reflexivity.
      * eexists _, _, _; split; [reflexivity |].
        destruct (info_score info) as [sc |]; [| reflexivity].
        apply get_eval_cp_mate.
  - eexists _, _, _. split; [reflexivity | discriminate].
Qed.

(** The second [try] block always completes, after exactly one request;
    it reports no centipawn value when the reply carries a mate. *)
Lemma analyse_after_spec (board : Board) (limit : Limit) (e : Engine) :
  let reply := analyse_multipv (engine_state e) board limit 1 in
  exists ea,
    App.analyse_after board limit e
    = (Ok ea,
       mk_Engine (snd reply) (requests e ++ [Request board limit (Some 1)]))
    /\ (mate_reply (fst reply) = true -> ea = None).
Proof.
  unfold App.analyse_after, try_except, bind, lift, ret, analyse,
    mate_reply, first_score.
  destruct (analyse_multipv (engine_state e) board limit 1)
    as [[infos | ex] s1]; cbn.
  - destruct infos as [| info rest]; cbn.
    + eexists. split; [reflexivity | discriminate].
    + eexists. split; [reflexivity |].
      destruct (info_score info) as [sc |]; [| reflexivity].
      intros Hm. rewrite (get_eval_cp_mate sc _ Hm). reflexivity.
  - eexists. split; [reflexivity | discriminate].
Qed.

Lemma drop_of_None_l (a : option Z) : drop_of None a = None.
Proof. reflexivity. Qed.

Lemma drop_of_None_r (b : option Z) : drop_of b None = None.
Proof. destruct b; reflexivity. Qed.

(** The REST evaluation of a legal move: both analyses are requested, in
    order, and a mate in either reply leaves that side's value null. *)
Lemma evaluate_move_on_legal_spec (request : App.EvaluateRequest)
  (e e' : Engine) (board : Board) (move : Move) (r : App.EvaluateResponse) :
  Board_of_fen (App.req_fen request) = Ok board ->
  Move_from_uci (App.req_move request) = Ok move ->
  legal board move = true ->
  App.evaluate_move_on request e = (Ok r, e') ->
  let limit :=
    mk_Limit (Some (time_or_default (App.req_time request))) None in
  let reply1 := analyse_multipv (engine_state e) board limit 1 in
  let reply2 := analyse_multipv (snd reply1) (push board move) limit 1 in
  App.is_legal r = true
  /\ App.eval_drop_cp r
     = drop_of (App.eval_before_cp r) (App.eval_after_cp r)
  /\ (mate_reply (fst reply1) = true -> App.eval_before_cp r = None)
  /\ (mate_reply (fst reply2) = true -> App.eval_after_cp r = None)
  /\ requests e'
     = requests e ++ [Request board limit (Some 1);
                      Request (push board move) limit (Some 1)].
Proof.
  intros Hb Hm Hl Hrun limit reply1 reply2.
  unfold App.evaluate_move_on, bind, lift, ret in Hrun.
  rewrite Hb, Hm in Hrun. cbn [App.value_error_is_400] in Hrun.
  rewrite Hl in Hrun. cbn [negb] in Hrun.
  destruct (san board move) as [move_san |]; [| discriminate].
  destruct (analyse_before_spec board limit e) as (eb & bu & bs & Eb & Hmb).
  fold limit in Hrun. rewrite Eb in Hrun.
  match type of Hrun with
  | context [App.analyse_after ?b ?l ?en] =>
      destruct (analyse_after_spec b l en) as (ea & Ea & Hma)
  end.
  rewrite Ea in Hrun. injection Hrun as <- <-.
  cbn. repeat split; try assumption.
  rewrite <- List.app_assoc. reflexivity.
Qed.

(** The local evaluation of a legal move, likewise. *)
Lemma Local_evaluate_legal_spec (fen move_uci : string) (t : Q)
  (e e' : Engine) (board : Board) (move : Move) (r : Local.MoveEvaluation) :
  Local.evaluate_legal fen move_uci t board move e = (Ok r, e') ->
  let limit := mk_Limit (Some t) None in
  let reply1 := analyse_multipv (engine_state e) board limit 1 in
  let reply2 := analyse_multipv (snd reply1) (push board move) limit 1 in
  Local.is_legal r = true
  /\ Local.eval_drop_cp r
     = drop_of (Local.eval_before_cp r) (Local.eval_after_cp r)
  /\ (mate_reply (fst reply1) = true -> Local.eval_before_cp r = None)
  /\ (mate_reply (fst reply2) = true -> Local.eval_after_cp r = None)
  /\ requests e'
     = requests e ++ [Request board limit (Some 1);
                      Request (push board move) limit (Some 1)].
Proof.
  intros Hrun limit reply1 reply2.
  unfold Local.evaluate_legal, bind, lift, ret, analyse in Hrun.
  fold limit in Hrun.
  destruct (san board move) as [move_san |]; [| discriminate].
  subst reply2 reply1.
  destruct (analyse_multipv (engine_state e) board limit 1)
    as [[before | ex] s1]; [| discriminate].
  cbn [engine_state requests fst snd] in Hrun |- *.
  match type of Hrun with
  | context [match ?x with Ok _ => _ | Raise _ => _ end] =>
      destruct x as [best_move |]; [| discriminate]
  end.
  match type of Hrun with
  | context [match ?x with Ok _ => _ | Raise _ => _ end] =>
      destruct x as [best_move_san |]; [| discriminate]
  end.
  destruct (analyse_multipv s1 (push board move) limit 1)
    as [[after | ex] s2]; [| discriminate].
  injection Hrun as <- <-.
  cbn. unfold mate_reply, first_score.
  split; [reflexivity |]. split; [reflexivity |].
  split; [| split].
  - destruct before as [| info ?]; [discriminate |].
    destruct (info_score info) as [sc |]; [| discriminate].
    apply get_eval_cp_mate.
  - destruct after as [| info ?]; [discriminate |].
    destruct (info_score info) as [sc |]; [| discriminate].
    intros Hmate. rewrite (get_eval_cp_mate sc _ Hmate). reflexivity.
  - rewrite <- List.app_assoc. reflexivity.
Qed.

Lemma value_error_is_400_Ok {A : Type} (r : res A) (a : A) :
  App.value_error_is_400 r = Ok a -> r = Ok a.
Proof. destruct r as [| []]; cbn; congruence. Qed.

(** The drop the REST handler reports is computed from the two values it
    reports. *)
Lemma App_evaluate_move_drop (ENGINE ENGINE' : option Engine)
  (request : App.EvaluateRequest) (r : App.EvaluateResponse) :
  App.evaluate_move ENGINE request = (Ok r, ENGINE') ->
  App.eval_drop_cp r = drop_of (App.eval_before_cp r) (App.eval_after_cp r).
Proof.
  unfold App.evaluate_move. destruct ENGINE as [e |]; [| discriminate].
  destruct (App.evaluate_move_on request e) as [r0 e0] eqn:Erun.
  intros Heq. injection Heq as -> _.
  pose proof Erun as Hrun.
  unfold App.evaluate_move_on, bind, lift, ret in Erun.
  destruct (App.value_error_is_400 (Board_of_fen _)) as [board |] eqn:Hb;
    [| discriminate].
  destruct (App.value_error_is_400 (Move_from_uci _)) as [move |] eqn:Hm;
    [| discriminate].
  apply value_error_is_400_Ok in Hb, Hm.
  destruct (legal board move) eqn:Hl.
  - apply (evaluate_move_on_legal_spec _ _ _ _ _ _ Hb Hm Hl Hrun).
  - cbn in Erun. injection Erun as <- _. reflexivity.
Qed.

(** The drop the local backend reports, likewise. *)
Lemma Local_evaluate_drop (fen move_uci : string) (t : Q) (e e' : Engine)
  (r : Local.MoveEvaluation) :
  Local.evaluate fen move_uci t e = (Ok r, e') ->
  Local.eval_drop_cp r
  = drop_of (Local.eval_before_cp r) (Local.eval_after_cp r).
Proof.
  unfold Local.evaluate, bind, lift. intros Hrun.
  destruct (Board_of_fen fen) as [board |]; [| discriminate].
  destruct (Move_from_uci move_uci) as [move | ex].
  - destruct (legal board move); cbn [negb] in Hrun.
    + apply (Local_evaluate_legal_spec _ _ _ _ _ _ _ _ Hrun).
    + unfold ret in Hrun. injection Hrun as <- _. reflexivity.
  - destruct ex; unfold ret in Hrun; try discriminate.
    injection Hrun as <- _. reflexivity.
Qed.

End MoveEvaluatorFacts.

(** An illegal two-square pawn jump, on the miniature rules. *)
Lemma C6_illegal_move_witness :
  App.evaluate_move (Some (Toy.start []))
    (App.mk_EvaluateRequest "0" "e2e5" None)
  = (Ok (App.mk_EvaluateResponse "0" "e2e5" "e2e5" false
           None None None None None), Some (Toy.start []))
  /\ Local.evaluate "0" "e2e5" (Qmake 3 10) (Toy.start [])
     = (Ok (Local.mk_MoveEvaluation "0" "e2e5" "e2e5" false
              None None None None None), Toy.start []).
Proof.
  apply (C6_illegal_move_is_a_result (R := Toy.rules) (E := Toy.engine)
           (Toy.start []) "0" "e2e5" None (Qmake 3 10) 0%nat "e2e5");
    vm_compute; reflexivity.
Defined.

(** A move string of the wrong length, on the miniature rules. *)
Lemma C10_malformed_move_witness :
  Local.evaluate "0" "e2" (Qmake 3 10) (Toy.start [])
  = (Ok (Local.mk_MoveEvaluation "0" "e2" "e2" false
           None None None None None), Toy.start [])
  /\ App.evaluate_move (Some (Toy.start []))
       (App.mk_EvaluateRequest "0" "e2" None)
     = (Raise (HTTPException 400), Some (Toy.start [])).
Proof.
  apply (C10_malformed_move_local_result_rest_400
           (R := Toy.rules) (E := Toy.engine)
           (Toy.start []) "0" "e2" None (Qmake 3 10) 0%nat);
    vm_compute; reflexivity.
Defined.

(* ===================================================================== *)
(** * The blunder walk: properties *)
(* ===================================================================== *)

Section WalkFacts.

Context {R : ChessRules} {E : EngineModel}.

Import Tester.

Lemma Color_eqb_eq (a b : Color) : Color_eqb a b = true <-> a = b.
Proof. destruct a, b; cbn; split; congruence. Qed.

Lemma puzzles_of_app (game_url : string) (l : list MoveAnalysis.t)
  (a : MoveAnalysis.t) :
  puzzles_of game_url (l ++ [a])
  = puzzles_of game_url l
    ++ (if MoveAnalysis.is_blunder a then [puzzle_of_analysis game_url a]
        else []).
Proof.
  unfold puzzles_of. rewrite List.filter_app, List.map_app. cbn.
  destruct (MoveAnalysis.is_blunder a); reflexivity.
Qed.

(** One iteration of the walk: the move is played on the board; a ply of
    the other side, or one for which the engine gave no line, adds
    nothing; any other ply adds one analysis built from the candidate
    lines, and its puzzle exactly when it is flagged. *)
Lemma analyze_ply_spec (user_color : Color) (game_url : string)
  (w w' : walk) (ply : nat) (move : Move) (e e' : Engine) :
  analyze_ply user_color game_url w ply move e = (Ok w', e') ->
  board w' = push (board w) move
  /\ ((analyses w' = analyses w /\ blunders w' = blunders w
       /\ (board_turn (board w) <> user_color
           \/ exists e1,
               analyze_position (board w) ANALYSIS_TIME MULTIPV e
               = (Ok [], e1)))
      \/ (board_turn (board w) = user_color
          /\ exists top_moves e1 a,
              analyze_position (board w) ANALYSIS_TIME MULTIPV e
              = (Ok top_moves, e1)
              /\ analysis_of top_moves a
              /\ MoveAnalysis.ply a = ply
              /\ analyses w' = analyses w ++ [a]
              /\ blunders w'
                 = blunders w
                   ++ (if MoveAnalysis.is_blunder a
                       then [puzzle_of_analysis game_url a] else []))).
Proof.
  unfold analyze_ply. intros Hrun.
  destruct (Color_eqb (board_turn (board w)) user_color) eqn:Ec; cbn in Hrun.
  2:{ unfold ret in Hrun. injection Hrun as <- <-. cbn. split; [reflexivity |].
      left. repeat split. left. intros Heq.
      apply Color_eqb_eq in Heq. congruence. }
  apply Color_eqb_eq in Ec.
  unfold bind at 1 in Hrun.
  destruct (analyze_position (board w) ANALYSIS_TIME MULTIPV e)
    as [[top_moves | ex] e1] eqn:Ea; [| discriminate].
  destruct top_moves as [| best rest].
  { unfold ret in Hrun. injection Hrun as <- <-. cbn. split; [reflexivity |].
    left. repeat split. right. exists e1. reflexivity. }
  unfold bind, lift in Hrun.
  destruct (Board_of_fen (board_fen (board w))) as [board_copy |];
    [| discriminate].
  destruct (san board_copy move) as [played_move_san |]; [| discriminate].
  destruct (analyse1 _ _ e1) as [[post |] e2]; [| discriminate].
  cbv zeta in Hrun. unfold BLUNDER_THRESHOLD_CP in Hrun.
  destruct (_ >=? 100) eqn:Eb in Hrun;
    unfold ret in Hrun; injection Hrun as <- <-; cbn [board analyses blunders];
    (split; [reflexivity |]); right; (split; [exact Ec |]);
    eexists _, e1, _; (split; [reflexivity |]);
    (split; [| split; [| split]]); try reflexivity;
    cbn -[List.filter Z.sub Z.geb]; rewrite ?Eb; rewrite ?List.app_nil_r;
    repeat split; reflexivity.
Qed.

(** The loop keeps the invariant. *)
Lemma walk_moves_inv (user_color : Color) (game_url : string)
  (moves : list Move) (w w' : walk) (ply : nat) (e e' : Engine) :
  walk_moves user_color game_url w ply moves e = (Ok w', e') ->
  walk_inv game_url (analyses w) (blunders w) ->
  walk_inv game_url (analyses w') (blunders w').
Proof.
  revert w ply e. induction moves as [| move rest IH]; intros w ply e Hrun Hinv.
  - cbn in Hrun. unfold ret in Hrun. injection Hrun as <- <-. exact Hinv.
  - cbn in Hrun. unfold bind in Hrun.
    destruct (analyze_ply user_color game_url w ply move e)
      as [[w1 | ex] e1] eqn:Ep; [| discriminate].
    apply (IH _ _ _ Hrun).
    apply analyze_ply_spec in Ep.
    destruct Ep as [_ [(Ha & Hb & _) | (_ & tm & e2 & a & _ & Hof & _ & Ha & Hb)]].
    + rewrite Ha, Hb. exact Hinv.
    + destruct Hinv as [Hall Hbl]. rewrite Ha, Hb. split.
      * apply List.Forall_app. split; [exact Hall |].
        constructor; [exists tm; exact Hof | constructor].
      * rewrite puzzles_of_app, Hbl. reflexivity.
Qed.

(** The invariant holds of what [analyze_game] returns. *)
Lemma analyze_game_inv (game : Game) (username game_url : string)
  (e e' : Engine) (analyses : list MoveAnalysis.t)
  (blunders : list BlunderPuzzle.t) :
  analyze_game game username game_url e = (Ok (analyses, blunders), e') ->
  walk_inv game_url analyses blunders.
Proof.
  intros Hrun. unfold analyze_game in Hrun.
  match type of Hrun with
  | (match ?c with _ => _ end) _ = _ => destruct c as [user_color |]
  end.
  - unfold bind, ret in Hrun.
    destruct (walk_moves _ _ _ _ _ e) as [[w | ex] e1] eqn:Ew;
      [| discriminate].
    injection Hrun as <- <- <-.
    apply (walk_moves_inv _ _ _ _ _ _ _ _ Ew).
    split; [constructor | reflexivity].
  - unfold ret in Hrun. injection Hrun as <- <- <-.
    split; [constructor | reflexivity].
Qed.

(** What an analysis record built from candidate lines says, read off
    the definitions. *)
Lemma analysis_of_reading (top_moves : list top_move) (a : MoveAnalysis.t) :
  analysis_of top_moves a ->
  (MoveAnalysis.is_blunder a = true <-> 100 <= MoveAnalysis.drop_cp a)
  /\ (forall m,
        In m (MoveAnalysis.acceptable_moves a)
        <-> In m top_moves /\ MoveAnalysis.eval_before_cp a - eval_cp m < 100)
  /\ (forall game_url,
        BlunderPuzzle.correct_move_uci (puzzle_of_analysis game_url a)
        = MoveAnalysis.best_move_uci a)
  /\ exists best rest,
       top_moves = best :: rest
       /\ MoveAnalysis.best_move_uci a = move_uci best.
Proof.
  destruct top_moves as [| best rest]; unfold analysis_of; [tauto |].
  intros (Hu & Hs & He & Hd & Hb & Hacc).
  split; [| split; [| split]].
  - rewrite Hb, Z.geb_leb. apply Z.leb_le.
  - intros m. rewrite Hacc, List.filter_In, He, Z.ltb_lt. reflexivity.
  - reflexivity.
  - exists best, rest. split; [reflexivity | exact Hu].
Qed.

End WalkFacts.

(** C4.  At a ply of the tracked side for which the engine gave candidate
    lines, the walk adds one analysis: its best move is the first line's
    move, [is_blunder] is [drop_cp >= 100], [acceptable_moves] is the
    candidate lines whose evaluation is less than 100 below the first
    line's, and a puzzle is added exactly when the analysis is flagged,
    with the best move as its correct move.  Over a whole game, the
    blunders are exactly the puzzles of the flagged analyses. *)
Theorem C4_blunder_classification {R : ChessRules} {E : EngineModel} :
  (forall (user_color : Color) (game_url : string) (w w' : Tester.walk)
          (ply : nat) (move : Move) (e e' e1 : Engine)
          (top_moves : list Tester.top_move),
     Tester.analyze_ply user_color game_url w ply move e = (Ok w', e') ->
     board_turn (Tester.board w) = user_color ->
     Tester.analyze_position (Tester.board w) Tester.ANALYSIS_TIME
       Tester.MULTIPV e = (Ok top_moves, e1) ->
     top_moves <> [] ->
     exists a,
       analysis_of top_moves a
       /\ (Tester.MoveAnalysis.is_blunder a = true
           <-> 100 <= Tester.MoveAnalysis.drop_cp a)
       /\ (forall m,
             In m (Tester.MoveAnalysis.acceptable_moves a)
             <-> In m top_moves
                 /\ Tester.MoveAnalysis.eval_before_cp a - Tester.eval_cp m
                    < 100)
       /\ Tester.analyses w' = Tester.analyses w ++ [a]
       /\ Tester.blunders w'
          = Tester.blunders w
            ++ (if Tester.MoveAnalysis.is_blunder a
                then [puzzle_of_analysis game_url a] else []))
  /\ (forall (game : Tester.Game) (username game_url : string)
             (e e' : Engine) (analyses : list Tester.MoveAnalysis.t)
             (blunders : list Tester.BlunderPuzzle.t),
        Tester.analyze_game game username game_url e
        = (Ok (analyses, blunders), e') ->
        walk_inv game_url analyses blunders).
Proof.
  split.
  - intros user_color game_url w w' ply move e e' e1 top_moves Hrun Ht Ha Hne.
    apply analyze_ply_spec in Hrun.
    destruct Hrun as [_ [(_ & _ & [Hc | (e2 & He2)])
                        | (_ & tm & e2 & a & Ha' & Hof & _ & Han & Hbl)]].
    + contradiction.
    + rewrite Ha in He2. injection He2 as -> _. contradiction.
    + rewrite Ha in Ha'. injection Ha' as <- _.
      exists a. pose proof (analysis_of_reading _ _ Hof) as (Hb & Hacc & _).
      split; [exact Hof | split; [exact Hb | split; [exact Hacc |]]].
      split; assumption.
  - intros game username game_url e e' analyses blunders Hrun.
    apply analyze_game_inv with (1 := Hrun).
Qed.

(** The walk over the game in which white's first move loses 170
    centipawns: one analysis, flagged, and its puzzle. *)
Lemma C4_blunder_game_witness :
  (exists a,
     analysis_of Toy.blunder_lines a
     /\ (Tester.MoveAnalysis.is_blunder a = true
         <-> 100 <= Tester.MoveAnalysis.drop_cp a)
     /\ (forall m,
           In m (Tester.MoveAnalysis.acceptable_moves a)
           <-> In m Toy.blunder_lines
               /\ Tester.MoveAnalysis.eval_before_cp a - Tester.eval_cp m
                  < 100)
     /\ [Toy.blunder_analysis] = [] ++ [a]
     /\ [Toy.blunder_puzzle]
        = [] ++ (if Tester.MoveAnalysis.is_blunder a
                 then [puzzle_of_analysis "game7" a] else []))
  /\ walk_inv "game7" [Toy.blunder_analysis] [Toy.blunder_puzzle].
Proof.
  split.
  - apply (proj1 (C4_blunder_classification (R := Toy.rules) (E := Toy.engine))
             WHITE "game7"
             Toy.walk_start Toy.walk_after_blunder
             0%nat "g2g4"
             (Toy.start Toy.blunder_script)
             (Toy.finished (Some 3) None)
             Toy.after_first_request
             Toy.blunder_lines).
    + reflexivity.
    + reflexivity.
    + reflexivity.
    + discriminate.
  - apply (proj2 (C4_blunder_classification (R := Toy.rules) (E := Toy.engine))
             Toy.blunder_game "alice" "game7"
             (Toy.start Toy.blunder_script)
             (Toy.finished (Some 3) None)).
    reflexivity.
Defined.

(** C2, as amended.  In the REST handler and in the local backend, the
    reported [eval_drop_cp] is [eval_before_cp - eval_after_cp] when both
    are present and null otherwise, and a mate score in the engine's
    reply before or after the move leaves that side's value, and so the
    drop, null.  The game-analysis tester instead always computes
    [drop_cp = eval_before_cp - eval_after_cp] on integers, and copies it
    to the puzzle; its integers stand for mate scores as well. *)
Theorem C2_eval_drop {R : ChessRules} {E : EngineModel} :
  (forall (ENGINE ENGINE' : option Engine) (request : App.EvaluateRequest)
          (r : App.EvaluateResponse),
     App.evaluate_move ENGINE request = (Ok r, ENGINE') ->
     App.eval_drop_cp r
     = drop_of (App.eval_before_cp r) (App.eval_after_cp r))
  /\ (forall (fen move_uci : string) (t : Q) (e e' : Engine)
             (r : Local.MoveEvaluation),
        Local.evaluate fen move_uci t e = (Ok r, e') ->
        Local.eval_drop_cp r
        = drop_of (Local.eval_before_cp r) (Local.eval_after_cp r))
  /\ (forall (e : Engine) (ENGINE' : option Engine)
             (request : App.EvaluateRequest) (board : Board) (move : Move)
             (r : App.EvaluateResponse),
        Board_of_fen (App.req_fen request) = Ok board ->
        Move_from_uci (App.req_move request) = Ok move ->
        legal board move = true ->
        App.evaluate_move (Some e) request = (Ok r, ENGINE') ->
        let limit :=
          mk_Limit (Some (time_or_default (App.req_time request))) None in
        let reply1 := analyse_multipv (engine_state e) board limit 1 in
        let reply2 :=
          analyse_multipv (snd reply1) (push board move) limit 1 in
        (mate_reply (fst reply1) = true ->
         App.eval_before_cp r = None /\ App.eval_drop_cp r = None)
        /\ (mate_reply (fst reply2) = true ->
            App.eval_after_cp r = None /\ App.eval_drop_cp r = None))
  /\ (forall (e e' : Engine) (fen move_uci : string) (t : Q)
             (board : Board) (move : Move) (r : Local.MoveEvaluation),
        Board_of_fen fen = Ok board ->
        Move_from_uci move_uci = Ok move ->
        legal board move = true ->
        Local.evaluate fen move_uci t e = (Ok r, e') ->
        let limit := mk_Limit (Some t) None in
        let reply1 := analyse_multipv (engine_state e) board limit 1 in
        let reply2 :=
          analyse_multipv (snd reply1) (push board move) limit 1 in
        (mate_reply (fst reply1) = true ->
         Local.eval_before_cp r = None /\ Local.eval_drop_cp r = None)
        /\ (mate_reply (fst reply2) = true ->
            Local.eval_after_cp r = None /\ Local.eval_drop_cp r = None))
  /\ (forall (game : Tester.Game) (username game_url : string)
             (e e' : Engine) (analyses : list Tester.MoveAnalysis.t)
             (blunders : list Tester.BlunderPuzzle.t),
        Tester.analyze_game game username game_url e
        = (Ok (analyses, blunders), e') ->
        List.Forall
          (fun a => Tester.MoveAnalysis.drop_cp a
                    = Tester.MoveAnalysis.eval_before_cp a
                      - Tester.MoveAnalysis.eval_after_cp a) analyses
        /\ List.map Tester.BlunderPuzzle.eval_drop_cp blunders
           = List.map Tester.MoveAnalysis.drop_cp
               (List.filter Tester.MoveAnalysis.is_blunder analyses)).
Proof.
  split; [| split; [| split; [| split]]].
  - intros ENGINE ENGINE' request r. apply App_evaluate_move_drop.
  - intros fen move_uci t e e' r. apply Local_evaluate_drop.
  - intros e ENGINE' request board move r Hb Hm Hl Hrun limit reply1 reply2.
    unfold App.evaluate_move in Hrun.
    destruct (App.evaluate_move_on request e) as [r0 e0] eqn:Erun.
    injection Hrun as -> _.
    destruct (evaluate_move_on_legal_spec _ _ _ _ _ _ Hb Hm Hl Erun)
      as (_ & Hd & H1 & H2 & _).
    split; intros Hmate.
    + specialize (H1 Hmate). rewrite Hd, H1. split; reflexivity.
    + specialize (H2 Hmate). rewrite Hd, H2.
      split; [reflexivity | apply drop_of_None_r].
  - intros e e' fen move_uci t board move r Hb Hm Hl Hrun limit reply1 reply2.
    unfold Local.evaluate, bind, lift in Hrun.
    rewrite Hb, Hm, Hl in Hrun. cbn [negb] in Hrun.
    destruct (Local_evaluate_legal_spec _ _ _ _ _ _ _ _ Hrun)
      as (_ & Hd & H1 & H2 & _).
    split; intros Hmate.
    + specialize (H1 Hmate). rewrite Hd, H1. split; reflexivity.
    + specialize (H2 Hmate). rewrite Hd, H2.
      split; [reflexivity | apply drop_of_None_r].
  - intros game username game_url e e' analyses blunders Hrun.
    apply analyze_game_inv in Hrun. destruct Hrun as [Hall ->]. split.
    + eapply List.Forall_impl; [| exact Hall].
      intros a [[| best rest] Hof]; [destruct Hof |].
      apply Hof.
    + unfold puzzles_of. rewrite List.map_map. reflexivity.
Qed.

(** C2, as stated, fails on the game-analysis tester: after a move that
    allows a mate in two, the mate enters the subtraction as the number
    -99800 and the drop is 99850, not null. *)
Lemma C2_mate_enters_the_drop :
  is_mate (white (mkPovScore (Mate (-2)) WHITE)) = true
  /\ Tester.analyze_game Toy.mate_game "alice" EmptyString
       (Toy.start Toy.mate_script)
     = (Ok ([Toy.mate_analysis], [Toy.mate_puzzle]),
        Toy.finished (Some 3) None)
  /\ Tester.MoveAnalysis.eval_after_cp Toy.mate_analysis = -99800
  /\ Tester.MoveAnalysis.drop_cp Toy.mate_analysis = 99850
  /\ Tester.BlunderPuzzle.eval_drop_cp Toy.mate_puzzle = 99850.
Proof. repeat split; reflexivity. Qed.

(** The same mate, through the local backend: the value after the move
    and the drop are null. *)
Lemma C2_eval_drop_witness :
  App.eval_drop_cp Toy.quiet_response
  = drop_of (App.eval_before_cp Toy.quiet_response)
      (App.eval_after_cp Toy.quiet_response)
  /\ (mate_reply Toy.mate_second_reply = true ->
      Local.eval_after_cp Toy.mate_evaluation = None
      /\ Local.eval_drop_cp Toy.mate_evaluation = None).
Proof.
  pose proof (C2_eval_drop (R := Toy.rules) (E := Toy.engine))
    as (Happ & _ & _ & Hlocal & _).
  split.
  - apply (Happ (Some (Toy.start Toy.quiet_script))
             (Some (Toy.finished (Some 1) (Some 1)))
             (App.mk_EvaluateRequest "0" "e2e4" None)).
    reflexivity.
  - apply (Hlocal (Toy.start Toy.mate_script)
             (Toy.finished (Some 1) (Some 1))
             "0" "e2e4" (Qmake 3 10) 0%nat "e2e4");
      reflexivity.
Defined.

(* ===================================================================== *)
(** * The serverless handler: properties *)
(* ===================================================================== *)

(** [min(v, bound)], whenever it is defined, is capped as described. *)
Lemma py_min_spec (v w : json) (bound : Z) :
  py_min v bound = Ok w -> capped v bound w.
Proof.
  unfold py_min, py_lt_int, capped.
  destruct (as_int v) as [n |] eqn:Ev; cbn [res_bind].
  - intros Heq. injection Heq as <-. left. exists n.
    split; [reflexivity |].
    destruct (Z.ltb_spec bound n); cbn [as_int].
    + split; [f_equal; lia | lia].
    + rewrite Ev. split; [f_equal; lia | reflexivity].
  - destruct v; try discriminate. cbn [res_bind].
    intros Heq. injection Heq as <-. right. eauto.
Qed.

(** A null depth is a [TypeError] in [min], answered with status 500;
    a request without a position is answered with status 400. *)
Example handler_rejects :
  handler_call Toy.no_json
    (JObj (<["fen" := JStr "8/8/8/8/8/8/8/K6k w - - 0 1"]>
             (<["depth" := JNull]> ∅))) = Respond 500
  /\ handler_call Toy.no_json (JObj (<["depth" := JInt 12]> ∅))
     = Respond 400.
Proof. split; vm_compute; reflexivity. Qed.

(** Whenever the handler reaches the analysis, the request fields were
    read from a dict, the requested depth (20 when absent) and number of
    lines (1 when absent) are numbers, and each is passed on capped: an
    integer as the minimum of it and the cap, a float above the cap as
    the cap, any other float, a NaN included, as it is. *)
Lemma handler_caps_numbers
  (json_loads : string -> res json) (event fen depth multipv debug : json) :
  handler_call json_loads event = Analyze fen depth multipv debug ->
  exists body : gmap string json,
    request_body json_loads event = Ok (JObj body)
    /\ fen = dict_get body "fen" JNull
    /\ capped (dict_get body "depth" (JInt 20)) 25 depth
    /\ capped (dict_get body "multipv" (JInt 1)) 5 multipv.
Proof.
  unfold handler_call, handler_try. intros Hcall.
  destruct (request_body json_loads event) as [b | ex] eqn:Eb; cbn in Hcall.
  2:{ destruct ex; discriminate. }
  destruct b as [| | | | | | body]; try discriminate.
  destruct (negb (truthy (dict_get body "fen" JNull))); [discriminate |].
  destruct (py_min (dict_get body "depth" (JInt 20)) 25) as [d | ex] eqn:Ed;
    cbn in Hcall.
  2:{ destruct ex; discriminate. }
  destruct (py_min (dict_get body "multipv" (JInt 1)) 5) as [m | ex] eqn:Em;
    cbn in Hcall.
  2:{ destruct ex; discriminate. }
  injection Hcall as <- <- <- <-.
  exists body. repeat split; try reflexivity; apply py_min_spec; assumption.
Qed.

(** A request for depth 30 with no [multipv]: the analysis runs at depth
    25 with one line.  A float is capped by its value: 30.5 gives 25, and
    12.5 is passed on as it is. *)
Example handler_caps_deep_request :
  handler_call Toy.no_json Toy.deep_event
  = Analyze (JStr "8/8/8/8/8/8/8/K6k w - - 0 1") (JInt 25) (JInt 1)
      (JBool false)
  /\ py_min (JFloat (S754_finite false 61 (-1))) 25 = Ok (JInt 25)
  /\ py_min (JFloat (S754_finite false 25 (-1))) 25
     = Ok (JFloat (S754_finite false 25 (-1))).
Proof. repeat split; vm_compute; reflexivity. Qed.

(** C8.  A request whose depth is the float NaN, which [json.loads]
    decodes from the text [NaN], reaches the analysis with that NaN as
    its depth, sent directly or behind an API gateway: [min(nan, 25)] is
    [nan], because [25 < nan] is false, so this depth is not capped. *)
Theorem C8_nan_depth_is_not_capped (json_loads : string -> res json) :
  handler_call json_loads (JObj Toy.nan_depth_body)
  = Analyze (JStr "8/8/8/8/8/8/8/K6k w - - 0 1") (JFloat S754_nan) (JInt 1)
      (JBool false)
  /\ handler_call Toy.nan_json Toy.nan_proxy_event
     = Analyze (JStr "8/8/8/8/8/8/8/K6k w - - 0 1") (JFloat S754_nan)
         (JInt 1) (JBool false).
Proof. split; reflexivity. Qed.

(* ===================================================================== *)
(** * Position analysis: properties *)
(* ===================================================================== *)

Section AnalyzeFacts.

Context {R : ChessRules} {E : EngineModel}.

Import MoreProps.

(** The normaliser always fills exactly one field. *)
Lemma get_eval_cp_exactly_one (sc : PovScore) (turn : Color) :
  exactly_one (fst (App.get_eval_cp sc turn)) (snd (App.get_eval_cp sc turn))
  = true.
Proof.
  rewrite App_get_eval_cp_cases. destruct (white sc); reflexivity.
Qed.

(** What the loop over the engine's lines builds. *)
Lemma best_moves_of_spec (board : Board) (analysis : list InfoDict)
  (l : list AppAnalyze.MoveInfo.t) :
  AppAnalyze.best_moves_of board analysis = Ok l ->
  List.map AppAnalyze.MoveInfo.move_uci l
  = List.map Move_uci (first_moves analysis)
  /\ List.Forall2
       (fun info mi =>
          match info_score info with
          | Some sc =>
              (AppAnalyze.MoveInfo.eval_cp mi, AppAnalyze.MoveInfo.mate_in mi)
              = App.get_eval_cp sc (board_turn board)
          | None =>
              AppAnalyze.MoveInfo.eval_cp mi = None
              /\ AppAnalyze.MoveInfo.mate_in mi = None
          end)
       (lines_with_move analysis) l.
Proof.
  revert l. induction analysis as [| info rest IH]; intros l Hl; cbn in Hl.
  - injection Hl as <-. split; [reflexivity | constructor].
  - unfold first_moves, lines_with_move in *. cbn.
    destruct (info_pv info) as [[| move pv] |] eqn:Epv; cbn; try (apply IH; exact Hl).
    destruct (san board move) as [move_san |]; cbn in Hl; [| discriminate].
    destruct (AppAnalyze.best_moves_of board rest) as [tail |];
      cbn in Hl; [| discriminate].
    injection Hl as <-. destruct (IH tail eq_refl) as [Hm Hf].
    split.
    + cbn. f_equal. exact Hm.
    + constructor; [| exact Hf]. cbn.
      destruct (info_score info) as [sc |]; cbn.
      * destruct (App.get_eval_cp sc (board_turn board)); reflexivity.
      * split; reflexivity.
Qed.

Lemma lines_with_move_length (analysis : list InfoDict) :
  (List.length (lines_with_move analysis) <= List.length analysis)%nat.
Proof. apply List.filter_length_le. Qed.

(** The request the analysis issues. *)
Lemma analyze_position_on_run (request : AppAnalyze.AnalyzeRequest.t)
  (board : Board) (e : Engine) :
  Board_of_fen (AppAnalyze.AnalyzeRequest.fen request) = Ok board ->
  let limit := AppAnalyze.request_limit request in
  let n := AppAnalyze.AnalyzeRequest.multipv request in
  let reply := analyse_multipv (engine_state e) board limit n in
  let e' := mk_Engine (snd reply) (requests e ++ [Request board limit (Some n)]) in
  AppAnalyze.analyze_position_on request e
  = match fst reply with
    | Ok analysis =>
        match AppAnalyze.best_moves_of board analysis with
        | Ok best_moves =>
            (Ok (AppAnalyze.AnalyzeResponse.mk
                   (AppAnalyze.AnalyzeRequest.fen request)
                   (match board_turn board with
                    | WHITE => "white"
                    | BLACK => "black"
                    end) best_moves), e')
        | Raise ex => (Raise ex, e')
        end
    | Raise _ => (Raise (HTTPException 500), e')
    end.
Proof.
  intros Hb limit n reply e'.
  unfold AppAnalyze.analyze_position_on, bind, lift, ret,
    AppAnalyze.analyse_or_500, analyse.
  rewrite Hb. cbn [App.value_error_is_400].
  subst e' reply limit n.
  destruct (analyse_multipv _ _ _ _) as [[analysis | ex] s1]; cbn; [| reflexivity].
  destruct (AppAnalyze.best_moves_of board analysis); reflexivity.
Qed.

Lemma time_or_default_Some (t : Q) :
  Qeq_bool t 0 = false -> time_or_default (Some t) = t.
Proof. unfold time_or_default. intros ->. reflexivity. Qed.

(** The local loop builds what the REST loop builds. *)
Lemma Local_best_moves_of (board : Board) (analysis : list InfoDict)
  (l : list LocalAnalyze.MoveAnalysis.t) :
  LocalAnalyze.best_moves_of board analysis = Ok l ->
  AppAnalyze.best_moves_of board analysis = Ok (List.map to_MoveInfo l).
Proof.
  revert l. induction analysis as [| info rest IH]; intros l Hl; cbn in Hl |- *.
  - injection Hl as <-. reflexivity.
  - destruct (info_pv info) as [[| move pv] |]; try (apply IH; exact Hl).
    destruct (san board move) as [move_san |]; cbn in Hl |- *; [| discriminate].
    destruct (LocalAnalyze.best_moves_of board rest) as [tail |];
      cbn in Hl; [| discriminate].
    injection Hl as <-. rewrite (IH tail eq_refl). reflexivity.
Qed.

End AnalyzeFacts.

Import MoreProps.

(** X1.  For a position string that parses, the REST position analysis
    issues exactly one engine request, whatever the outcome: for the
    parsed position, with the requested number of lines, and limited by
    the requested depth when one is set and not zero, or else by the
    requested time, 0.3 seconds when none is set. *)
Theorem X1_analyze_position_one_request {R : ChessRules} {E : EngineModel}
  (e : Engine) (request : AppAnalyze.AnalyzeRequest.t) (board : Board) :
  Board_of_fen (AppAnalyze.AnalyzeRequest.fen request) = Ok board ->
  exists r e',
    AppAnalyze.analyze_position (Some e) request = (r, Some e')
    /\ requests e'
       = requests e
         ++ [Request board (AppAnalyze.request_limit request)
               (Some (AppAnalyze.AnalyzeRequest.multipv request))]
    /\ AppAnalyze.request_limit request
       = match AppAnalyze.AnalyzeRequest.depth request with
         | Some d =>
             if d =? 0
             then mk_Limit
                    (Some (time_or_default
                             (AppAnalyze.AnalyzeRequest.time request))) None
             else mk_Limit None (Some d)
         | None =>
             mk_Limit
               (Some (time_or_default
                        (AppAnalyze.AnalyzeRequest.time request))) None
         end.
Proof.
  intros Hb. unfold AppAnalyze.analyze_position.
  rewrite (analyze_position_on_run request board e Hb).
  destruct (fst (analyse_multipv _ _ _ _)) as [analysis |].
  - destruct (AppAnalyze.best_moves_of board analysis);
      eexists _, _; repeat split.
  - eexists _, _; repeat split.
Qed.

(** A request with depth 12, a time and two lines: one request, by
    depth. *)
Lemma X1_depth_request_witness :
  exists r e',
    AppAnalyze.analyze_position (Some (Toy.start Runs.two_lines))
      Runs.depth_request = (r, Some e')
    /\ requests e' = Runs.depth_requests.
Proof.
  destruct (X1_analyze_position_one_request (R := Toy.rules) (E := Toy.engine)
              (Toy.start Runs.two_lines) Runs.depth_request 0%nat eq_refl)
    as (r & e' & Hrun & Hreq & _).
  exists r, e'. split; [exact Hrun | exact Hreq].
Defined.

(** X2.  When the REST position analysis returns, its [best_moves] are
    the first moves of the engine's lines that have a move, in the
    engine's order; each entry of a line with a score carries that
    score normalised for the side to move, so exactly one of [eval_cp]
    and [mate_in], and each entry of a line without a score carries
    neither. *)
Theorem X2_analyze_position_best_moves {R : ChessRules} {E : EngineModel}
  (e : Engine) (ENGINE' : option Engine)
  (request : AppAnalyze.AnalyzeRequest.t) (board : Board)
  (response : AppAnalyze.AnalyzeResponse.t) :
  Board_of_fen (AppAnalyze.AnalyzeRequest.fen request) = Ok board ->
  AppAnalyze.analyze_position (Some e) request = (Ok response, ENGINE') ->
  exists analysis,
    fst (analyse_multipv (engine_state e) board
           (AppAnalyze.request_limit request)
           (AppAnalyze.AnalyzeRequest.multipv request)) = Ok analysis
    /\ List.map AppAnalyze.MoveInfo.move_uci
         (AppAnalyze.AnalyzeResponse.best_moves response)
       = List.map Move_uci (first_moves analysis)
    /\ (List.length (AppAnalyze.AnalyzeResponse.best_moves response)
        <= List.length analysis)%nat
    /\ List.Forall2
         (fun info mi =>
            match info_score info with
            | Some sc =>
                (AppAnalyze.MoveInfo.eval_cp mi,
                 AppAnalyze.MoveInfo.mate_in mi)
                = App.get_eval_cp sc (board_turn board)
                /\ exactly_one (AppAnalyze.MoveInfo.eval_cp mi)
                     (AppAnalyze.MoveInfo.mate_in mi) = true
            | None =>
                AppAnalyze.MoveInfo.eval_cp mi = None
                /\ AppAnalyze.MoveInfo.mate_in mi = None
            end)
         (lines_with_move analysis)
         (AppAnalyze.AnalyzeResponse.best_moves response).
Proof.
  intros Hb Hrun. unfold AppAnalyze.analyze_position in Hrun.
  rewrite (analyze_position_on_run request board e Hb) in Hrun.
  destruct (fst (analyse_multipv _ _ _ _)) as [analysis |]; [| discriminate].
  destruct (AppAnalyze.best_moves_of board analysis) as [l |] eqn:El;
    [| discriminate].
  injection Hrun as <- _. cbn.
  destruct (best_moves_of_spec board analysis l El) as [Hm Hf].
  exists analysis. split; [reflexivity |]. split; [exact Hm |].
  split.
  - rewrite <- (List.Forall2_length Hf). apply lines_with_move_length.
  - eapply List.Forall2_impl; [| exact Hf].
    intros info mi Hinfo. cbv beta in Hinfo |- *.
    destruct (info_score info) as [sc |]; [| exact Hinfo].
    split; [exact Hinfo |].
    pose proof (get_eval_cp_exactly_one sc (board_turn board)) as Hone.
    rewrite <- Hinfo in Hone. exact Hone.
Qed.

(** The reply with a centipawn line and a mate line gives two entries. *)
Lemma X2_two_lines_witness :
  exists analysis,
    Runs.two_lines_reply = Ok analysis
    /\ List.map AppAnalyze.MoveInfo.move_uci Runs.two_entries
       = List.map Move_uci (first_moves analysis).
Proof.
  destruct (X2_analyze_position_best_moves (R := Toy.rules) (E := Toy.engine)
              (Toy.start Runs.two_lines)
              (Some Runs.after_depth_request)
              Runs.depth_request 0%nat
              (AppAnalyze.AnalyzeResponse.mk "0" "white" Runs.two_entries)
              eq_refl eq_refl)
    as (analysis & Hreply & Hmoves & _).
  exists analysis. split; [exact Hreply | exact Hmoves].
Defined.

(** X3.  The REST position analysis answers with status 503 while the
    engine is not initialised, with status 400 and no engine request for
    a position string that does not parse, and with status 500 when the
    engine's analysis raises, whatever it raises. *)
Theorem X3_analyze_position_errors {R : ChessRules} {E : EngineModel}
  (request : AppAnalyze.AnalyzeRequest.t) :
  AppAnalyze.analyze_position None request = (Raise (HTTPException 503), None)
  /\ (forall e,
        Board_of_fen (AppAnalyze.AnalyzeRequest.fen request)
        = Raise ValueError ->
        AppAnalyze.analyze_position (Some e) request
        = (Raise (HTTPException 400), Some e))
  /\ (forall e board ex,
        Board_of_fen (AppAnalyze.AnalyzeRequest.fen request) = Ok board ->
        fst (analyse_multipv (engine_state e) board
               (AppAnalyze.request_limit request)
               (AppAnalyze.AnalyzeRequest.multipv request)) = Raise ex ->
        fst (AppAnalyze.analyze_position (Some e) request)
        = Raise (HTTPException 500)).
Proof.
  split; [reflexivity |]. split.
  - intros e Hb.
    unfold AppAnalyze.analyze_position, AppAnalyze.analyze_position_on,
      bind, lift.
    rewrite Hb. reflexivity.
  - intros e board ex Hb Hex. unfold AppAnalyze.analyze_position.
    rewrite (analyze_position_on_run request board e Hb), Hex. reflexivity.
Qed.

(** A position string that does not parse, and an engine whose script
    has run out. *)
Lemma X3_errors_witness :
  AppAnalyze.analyze_position (Some (Toy.start Runs.two_lines))
    Runs.bad_fen_request
  = (Raise (HTTPException 400), Some (Toy.start Runs.two_lines))
  /\ fst (AppAnalyze.analyze_position (Some (Toy.start []))
            Runs.depth_request)
     = Raise (HTTPException 500).
Proof.
  destruct (X3_analyze_position_errors (R := Toy.rules) (E := Toy.engine)
              Runs.bad_fen_request) as (_ & H400 & _).
  destruct (X3_analyze_position_errors (R := Toy.rules) (E := Toy.engine)
              Runs.depth_request) as (_ & _ & H500).
  split.
  - apply H400. reflexivity.
  - apply (H500 (Toy.start []) 0%nat EngineError); reflexivity.
Defined.

(** X4.  Whenever the local backend's position analysis returns a result
    for a non-zero time, the REST handler, given the same position,
    depth, time and number of lines and the same engine, returns the
    same result and leaves the engine in the same state. *)
Theorem X4_local_analyze_agrees_with_rest {R : ChessRules} {E : EngineModel}
  (fen : string) (t : Q) (depth : option Z) (multipv : Z) (e e' : Engine)
  (p : LocalAnalyze.PositionAnalysis.t) :
  Qeq_bool t 0 = false ->
  LocalAnalyze.analyze fen t depth multipv e = (Ok p, e') ->
  AppAnalyze.analyze_position (Some e)
    (AppAnalyze.AnalyzeRequest.mk fen depth (Some t) multipv)
  = (Ok (to_AnalyzeResponse p), Some e').
Proof.
  intros Ht Hrun.
  unfold LocalAnalyze.analyze, bind, lift, ret, analyse in Hrun.
  destruct (Board_of_fen fen) as [board |] eqn:Hb; [| discriminate].
  unfold AppAnalyze.analyze_position.
  rewrite (analyze_position_on_run
             (AppAnalyze.AnalyzeRequest.mk fen depth (Some t) multipv)
             board e Hb).
  unfold AppAnalyze.request_limit. cbn [AppAnalyze.AnalyzeRequest.depth
    AppAnalyze.AnalyzeRequest.time AppAnalyze.AnalyzeRequest.multipv
    AppAnalyze.AnalyzeRequest.fen].
  rewrite (time_or_default_Some t Ht).
  match type of Hrun with
  | context [analyse_multipv _ _ ?l _] => set (limit := l) in *
  end.
  destruct (analyse_multipv (engine_state e) board limit multipv)
    as [[analysis |] s1]; [| discriminate].
  cbn [fst snd].
  destruct (LocalAnalyze.best_moves_of board analysis) as [l |] eqn:El;
    [| discriminate].
  injection Hrun as <- <-.
  rewrite (Local_best_moves_of board analysis l El). reflexivity.
Qed.

(** The two-line reply, through the local backend and through REST. *)
Lemma X4_agreement_witness :
  AppAnalyze.analyze_position (Some (Toy.start Runs.two_lines))
    (AppAnalyze.AnalyzeRequest.mk "0" None (Some (Qmake 1 2)) 2)
  = (Ok (to_AnalyzeResponse Runs.local_two_lines),
     Some Runs.after_time_request).
Proof.
  apply (X4_local_analyze_agrees_with_rest (R := Toy.rules) (E := Toy.engine)
           "0" (Qmake 1 2) None 2 (Toy.start Runs.two_lines)
           Runs.after_time_request Runs.local_two_lines);
    reflexivity.
Defined.

(* ===================================================================== *)
(** * The move evaluator: further properties *)
(* ===================================================================== *)

(** X5.  For a legal move, the REST move evaluation always returns a
    result with [is_legal = true], after exactly two engine requests, one
    line each: the position before the move, then the position after it.
    An exception of the engine is swallowed: if the first analysis
    raises, the value before, the best move and the drop are null, and if
    the second raises, the value after and the drop are null. *)
Theorem X5_rest_evaluation_survives_engine_failure
  {R : ChessRules} {E : EngineModel}
  (e : Engine) (request : App.EvaluateRequest) (board : Board) (move : Move)
  (move_san : string) :
  Board_of_fen (App.req_fen request) = Ok board ->
  Move_from_uci (App.req_move request) = Ok move ->
  legal board move = true ->
  san board move = Ok move_san ->
  let limit :=
    mk_Limit (Some (time_or_default (App.req_time request))) None in
  let reply1 := analyse_multipv (engine_state e) board limit 1 in
  let reply2 := analyse_multipv (snd reply1) (push board move) limit 1 in
  exists r e',
    App.evaluate_move (Some e) request = (Ok r, Some e')
    /\ App.is_legal r = true
    /\ App.move_san r = move_san
    /\ engine_state e' = snd reply2
    /\ requests e'
       = requests e ++ [Request board limit (Some 1);
                        Request (push board move) limit (Some 1)]
    /\ (forall ex, fst reply1 = Raise ex ->
          App.eval_before_cp r = None /\ App.best_move_uci r = None
          /\ App.best_move_san r = None /\ App.eval_drop_cp r = None)
    /\ (forall ex, fst reply2 = Raise ex ->
          App.eval_after_cp r = None /\ App.eval_drop_cp r = None).
Proof.
  intros Hb Hm Hl Hs limit reply1 reply2.
  unfold App.evaluate_move, App.evaluate_move_on, bind, lift, ret.
  rewrite Hb, Hm. cbn [App.value_error_is_400]. rewrite Hl, Hs. cbn [negb].
  fold limit.
  assert (Hbefore : exists eb bu bs,
             App.analyse_before board limit e
             = (Ok (eb, bu, bs),
                mk_Engine (snd reply1)
                  (requests e ++ [Request board limit (Some 1)]))
             /\ (forall ex, fst reply1 = Raise ex ->
                   eb = None /\ bu = None /\ bs = None)).
  { unfold App.analyse_before, try_except, bind, lift, ret, analyse.
    subst reply1.
    destruct (analyse_multipv (engine_state e) board limit 1)
      as [[infos | ex] s1]; cbn.
    - match goal with
      | |- context [match ?x with Ok _ => _ | Raise _ => _ end] =>
          destruct x; cbn
      end.
      + match goal with
        | |- context [match ?x with Ok _ => _ | Raise _ => _ end] =>
            destruct x; cbn
        end; eexists _, _, _; (split; [reflexivity | discriminate]).
      + eexists _, _, _; (split; [reflexivity | discriminate]).
    - eexists _, _, _. split; [reflexivity |]. intros; repeat split. }
  destruct Hbefore as (eb & bu & bs & -> & Hraise1).
  assert (Hafter : forall e1,
             engine_state e1 = snd reply1 ->
             exists ea,
               App.analyse_after (push board move) limit e1
               = (Ok ea,
                  mk_Engine (snd reply2)
                    (requests e1
                     ++ [Request (push board move) limit (Some 1)]))
               /\ (forall ex, fst reply2 = Raise ex -> ea = None)).
  { intros e1 He1.
    unfold App.analyse_after, try_except, bind, lift, ret, analyse.
    subst reply2. rewrite He1.
    destruct (analyse_multipv (snd reply1) (push board move) limit 1)
      as [[infos | ex] s2]; cbn.
    - eexists. split; [reflexivity | discriminate].
    - eexists. split; [reflexivity |]. intros; reflexivity. }
  destruct (Hafter (mk_Engine (snd reply1)
                      (requests e ++ [Request board limit (Some 1)]))
              eq_refl) as (ea & -> & Hraise2).
  eexists _, _. split; [reflexivity |]. cbn.
  split; [reflexivity |]. split; [reflexivity |]. split; [reflexivity |].
  split; [rewrite <- List.app_assoc; reflexivity |].
  split.
  - intros ex Hex. destruct (Hraise1 ex Hex) as (-> & -> & ->).
    repeat split.
  - intros ex Hex. rewrite (Hraise2 ex Hex).
    split; [reflexivity |]. destruct eb; reflexivity.
Qed.

(** A legal move with an engine whose script has run out: the result has
    no values. *)
Lemma X5_failing_engine_witness :
  exists r e',
    App.evaluate_move (Some (Toy.start [])) Runs.quiet_request
    = (Ok r, Some e')
    /\ App.is_legal r = true
    /\ requests e' = requests Runs.after_two_requests.
Proof.
  destruct (X5_rest_evaluation_survives_engine_failure
              (R := Toy.rules) (E := Toy.engine)
              (Toy.start []) Runs.quiet_request 0%nat "e2e4" "e2e4"
              eq_refl eq_refl eq_refl eq_refl)
    as (r & e' & Hrun & Hlegal & _ & _ & Hreq & _).
  exists r, e'. split; [exact Hrun |]. split; [exact Hlegal | exact Hreq].
Defined.

(** X6.  Whenever the local backend's move evaluation returns a result
    for a move string that parses and a non-zero time, the REST handler,
    given the same position, move and time and the same engine, returns
    the same result and leaves the engine in the same state. *)
Theorem X6_local_evaluation_agrees_with_rest
  {R : ChessRules} {E : EngineModel}
  (fen move_uci : string) (t : Q) (move : Move) (e e' : Engine)
  (r : Local.MoveEvaluation) :
  Qeq_bool t 0 = false ->
  Move_from_uci move_uci = Ok move ->
  Local.evaluate fen move_uci t e = (Ok r, e') ->
  App.evaluate_move (Some e) (App.mk_EvaluateRequest fen move_uci (Some t))
  = (Ok (to_EvaluateResponse r), Some e').
Proof.
  intros Ht Hm Hrun.
  unfold Local.evaluate, bind, lift in Hrun.
  destruct (Board_of_fen fen) as [board |] eqn:Hb; [| discriminate].
  rewrite Hm in Hrun.
  unfold App.evaluate_move, App.evaluate_move_on, bind, lift.
  cbn [App.req_fen App.req_move App.req_time].
  rewrite Hb, Hm. cbn [App.value_error_is_400].
  rewrite (time_or_default_Some t Ht).
  destruct (legal board move); cbn [negb] in Hrun |- *.
  2:{ unfold ret in Hrun |- *. injection Hrun as <- <-. reflexivity. }
  unfold Local.evaluate_legal, bind, lift, ret, analyse in Hrun.
  unfold App.analyse_before, App.analyse_after, try_except, bind, lift, ret,
    analyse.
  destruct (san board move) as [move_san |]; [| discriminate].
  destruct (analyse_multipv (engine_state e) board _ 1)
    as [[before | ex] s1]; [| discriminate].
  cbn [engine_state requests fst snd] in Hrun |- *.
  match type of Hrun with
  | context [match ?x with Ok _ => _ | Raise _ => _ end] =>
      destruct x as [best_move |]; [| discriminate]
  end.
  match type of Hrun with
  | context [match ?x with Ok _ => _ | Raise _ => _ end] =>
      destruct x as [best_move_san |]; [| discriminate]
  end.
  cbn in Hrun |- *.
  destruct (analyse_multipv s1 (push board move) _ 1)
    as [[after | ex] s2]; [| discriminate].
  injection Hrun as <- <-. reflexivity.
Qed.

(** The quiet opening move, through the local backend and through REST. *)
Lemma X6_agreement_witness :
  App.evaluate_move (Some (Toy.start Toy.quiet_script)) Runs.quiet_request
  = (Ok (to_EvaluateResponse Runs.local_quiet), Some Runs.after_two_requests).
Proof.
  apply (X6_local_evaluation_agrees_with_rest (R := Toy.rules) (E := Toy.engine)
           "0" "e2e4" (Qmake 1 2) "e2e4" (Toy.start Toy.quiet_script)
           Runs.after_two_requests Runs.local_quiet);
    reflexivity.
Defined.

(** X7.  In a move evaluation by the local backend that returns, if
    playing the move passes the turn to the other side and the engine's
    first lines before and after the move carry the centipawn scores [b]
    and [a] as white sees them, then the value before, the value after
    and the drop are [b], [a] and [b - a] for a white mover and [- b],
    [- a] and [a - b] for a black mover: the two sign changes on the
    value after cancel. *)
Theorem X7_evaluation_from_the_movers_side
  {R : ChessRules} {E : EngineModel}
  (fen move_uci : string) (t : Q) (board : Board) (move : Move)
  (e e' : Engine) (r : Local.MoveEvaluation) (sc1 sc2 : PovScore) (b a : Z) :
  Board_of_fen fen = Ok board ->
  Move_from_uci move_uci = Ok move ->
  legal board move = true ->
  board_turn (push board move) = opposite (board_turn board) ->
  Local.evaluate fen move_uci t e = (Ok r, e') ->
  let limit := mk_Limit (Some t) None in
  let reply1 := analyse_multipv (engine_state e) board limit 1 in
  let reply2 := analyse_multipv (snd reply1) (push board move) limit 1 in
  first_score (fst reply1) = Some sc1 -> white sc1 = Cp b ->
  first_score (fst reply2) = Some sc2 -> white sc2 = Cp a ->
  Local.eval_before_cp r = Some (seen_from (board_turn board) b)
  /\ Local.eval_after_cp r = Some (seen_from (board_turn board) a)
  /\ Local.eval_drop_cp r = Some (seen_from (board_turn board) (b - a)).
Proof.
  intros Hb Hm Hl Hturn Hrun limit reply1 reply2 Hs1 Hw1 Hs2 Hw2.
  unfold Local.evaluate, bind, lift in Hrun.
  rewrite Hb, Hm, Hl in Hrun. cbn [negb] in Hrun.
  unfold Local.evaluate_legal, bind, lift, ret, analyse in Hrun.
  fold limit in Hrun.
  destruct (san board move) as [move_san |]; [| discriminate].
  subst reply2 reply1.
  destruct (analyse_multipv (engine_state e) board limit 1)
    as [[before | ex] s1]; [| discriminate].
  cbn [engine_state requests fst snd] in Hrun, Hs1, Hs2.
  match type of Hrun with
  | context [match ?x with Ok _ => _ | Raise _ => _ end] =>
      destruct x as [best_move |]; [| discriminate]
  end.
  match type of Hrun with
  | context [match ?x with Ok _ => _ | Raise _ => _ end] =>
      destruct x as [best_move_san |]; [| discriminate]
  end.
  destruct (analyse_multipv s1 (push board move) limit 1)
    as [[after | ex] s2]; [| discriminate].
  injection Hrun as <- <-. cbn.
  unfold first_score in Hs1, Hs2. cbn [fst] in Hs1, Hs2.
  destruct before as [| info1 ?]; [discriminate |].
  destruct after as [| info2 ?]; [discriminate |].
  rewrite Hs1, Hs2, Hturn.
  unfold Local._get_eval. rewrite Hw1, Hw2. cbn.
  destruct (board_turn board); cbn; repeat split; f_equal; lia.
Qed.

(** The quiet opening move: 30 before and -10 after for white as the
    mover, a drop of 40. *)
Lemma X7_quiet_move_witness :
  Local.eval_before_cp Runs.local_quiet = Some (seen_from WHITE 30)
  /\ Local.eval_after_cp Runs.local_quiet = Some (seen_from WHITE (-10))
  /\ Local.eval_drop_cp Runs.local_quiet = Some (seen_from WHITE (30 - -10)).
Proof.
  apply (X7_evaluation_from_the_movers_side (R := Toy.rules) (E := Toy.engine)
           "0" "e2e4" (Qmake 1 2) 0%nat "e2e4" (Toy.start Toy.quiet_script)
           Runs.after_two_requests Runs.local_quiet
           (mkPovScore (Cp 30) WHITE) (mkPovScore (Cp (-10)) WHITE) 30 (-10));
    reflexivity.
Defined.

(* ===================================================================== *)
(** * The output parser: further properties *)
(* ===================================================================== *)

Module ParserMore.

Import ParserFacts.

Lemma sort_by_multipv_perm (l : list line_data) :
  Permutation l (sort_by_multipv l).
Proof.
  induction l as [| x l IH]; cbn; [constructor |].
  transitivity (x :: sort_by_multipv l); [constructor; exact IH |].
  generalize (sort_by_multipv l) as m. clear.
  induction m as [| y m IH]; cbn; [reflexivity |].
  destruct (multipv x <=? multipv y); [reflexivity |].
  transitivity (y :: x :: m); [constructor | constructor; exact IH].
Qed.

Lemma insert_ranks_before (x : line_data) (l : list line_data) :
  StronglySorted ranks_before l ->
  ~ In (multipv x) (ranks l) ->
  StronglySorted ranks_before (insert_by_multipv x l).
Proof.
  induction l as [| y l IH]; cbn; intros Hs Hn.
  - constructor; constructor.
  - apply StronglySorted_inv in Hs. destruct Hs as [Hs Hy].
    destruct (Z.leb_spec (multipv x) (multipv y)) as [Hle | Hgt].
    + assert (Hlt : multipv x < multipv y) by (unfold ranks in Hn; cbn in Hn; lia).
      constructor; [constructor; assumption |].
      constructor; [exact Hlt |].
      eapply List.Forall_impl; [| exact Hy].
      unfold ranks_before. intros; lia.
    + constructor.
      * apply IH; [exact Hs |]. intros Hin. apply Hn. right. exact Hin.
      * apply List.Forall_forall. intros z Hz.
        apply In_insert_by_multipv in Hz. destruct Hz as [-> | Hz].
        -- unfold ranks_before. lia.
        -- rewrite List.Forall_forall in Hy. apply Hy. exact Hz.
Qed.

Lemma ranks_sort (l : list line_data) (n : Z) :
  In n (ranks (sort_by_multipv l)) <-> In n (ranks l).
Proof.
  unfold ranks. rewrite !List.in_map_iff.
  split; intros (x & Hx & Hin); exists x; (split; [exact Hx |]);
    apply In_sort_by_multipv; exact Hin.
Qed.

(** Sorted by rank, with no rank twice. *)
Lemma sort_ranks_before (l : list line_data) :
  List.NoDup (ranks l) -> StronglySorted ranks_before (sort_by_multipv l).
Proof.
  induction l as [| x l IH]; cbn; intros Hnd; [constructor |].
  apply List.NoDup_cons_iff in Hnd. destruct Hnd as [Hn Hnd].
  apply insert_ranks_before; [apply IH; exact Hnd |].
  rewrite ranks_sort. exact Hn.
Qed.

(** The tokens of [split] are not empty. *)
Lemma split_nonempty (s : string) :
  List.Forall (fun tok => tok <> EmptyString) (PyStr.split s).
Proof.
  induction s as [| c s IH]; cbn; [constructor |].
  destruct (PyStr.is_space c); [exact IH |].
  destruct s as [| c' s']; [repeat constructor; discriminate |].
  destruct (PyStr.is_space c').
  - constructor; [discriminate | exact IH].
  - destruct (PyStr.split (String c' s')) as [| h t].
    + repeat constructor. discriminate.
    + apply List.Forall_cons_iff in IH. destruct IH as [_ IH].
      constructor; [discriminate | exact IH].
Qed.

(** A line that does not set the best move keeps it. *)
Lemma process_line_keeps_bestmove (kept kept' : list line_data)
  (bm bm' : option string) (line : string) :
  sets_bestmove line = false ->
  process_line (kept, bm) line = Ok (kept', bm') -> bm' = bm.
Proof.
  unfold sets_bestmove, process_line. intros Hno Hrun.
  destruct (PyStr.startswith line "bestmove"); cbn in Hno.
  { destruct (PyStr.split line) as [| ? [| ? ?]]; try discriminate;
      injection Hrun as _ <-; reflexivity. }
  destruct (negb (PyStr.startswith line "info")); [congruence |].
  destruct (negb (PyStr.contains " pv " line)); [congruence |].
  destruct (PyStr.contains "upperbound" line || PyStr.contains "lowerbound" line);
    [congruence |].
  destruct (try_body (PyStr.split line) kept) as [k |[]]; congruence.
Qed.

Lemma process_lines_keep_bestmove (rest : list string)
  (kept kept' : list line_data) (bm bm' : option string) :
  List.Forall (fun line => sets_bestmove line = false) rest ->
  process_lines (kept, bm) rest = Ok (kept', bm') -> bm' = bm.
Proof.
  revert kept bm. induction rest as [| line rest IH]; intros kept bm Hall Hrun.
  - cbn in Hrun. congruence.
  - apply List.Forall_cons_iff in Hall. destruct Hall as [Hline Hall].
    cbn [process_lines] in Hrun.
    destruct (process_line (kept, bm) line) as [[k1 b1] |] eqn:E1;
      cbn [res_bind] in Hrun; [| discriminate].
    apply (process_line_keeps_bestmove _ _ _ _ _ Hline) in E1. subst b1.
    apply (IH _ _ Hall Hrun).
Qed.

End ParserMore.

(** X8.  On every output the parser's loop completes.  The records it
    returns are the records it kept, in strictly increasing rank order,
    no rank twice.  The parser raises nothing but [IndexError]. *)
Theorem X8_parse_returns_kept_records_by_rank (output : string) :
  exists kept bestmove,
    process_lines ([], None)
      (PyStr.split_on newline (PyStr.strip output)) = Ok (kept, bestmove)
    /\ Permutation kept (sort_by_multipv kept)
    /\ StronglySorted ranks_before (sort_by_multipv kept)
    /\ (parse_stockfish_output output = Raise IndexError
        \/ exists b,
             parse_stockfish_output output
             = Ok (mk_result (sort_by_multipv kept) b)).
Proof.
  destruct (ParserFacts.process_lines_total
              (PyStr.split_on newline (PyStr.strip output)) ([], None))
    as [[kept bestmove] Hrun].
  exists kept, bestmove. split; [exact Hrun |].
  split; [apply ParserMore.sort_by_multipv_perm |].
  split.
  - apply ParserMore.sort_ranks_before.
    destruct (ParserFacts.process_lines_invariant _ _ _ Hrun) as [_ Hnd].
    apply Hnd. constructor.
  - unfold parse_stockfish_output. rewrite Hrun. cbn.
    destruct (bestmove_truthy bestmove); [right; eauto |].
    destruct (sort_by_multipv kept) as [| first rest]; [right; eauto |].
    destruct (pv first); cbn; [left; reflexivity | right; eauto].
Qed.

(** X9.  When the output has a line that starts with [bestmove] and has
    a second token, and no later line does, the parser returns, and the
    best move of the result is that token, whatever records were kept. *)
Theorem X9_bestmove_is_token_of_last_bestmove_line
  (output line move tok : string) (before after tokens : list string) :
  PyStr.split_on newline (PyStr.strip output) = before ++ line :: after ->
  PyStr.startswith line "bestmove" = true ->
  PyStr.split line = tok :: move :: tokens ->
  List.Forall (fun l => sets_bestmove l = false) after ->
  exists records,
    parse_stockfish_output output = Ok (mk_result records (Some move)).
Proof.
  intros Hlines Hstart Htok Hafter.
  unfold parse_stockfish_output. rewrite Hlines.
  rewrite ParserFacts.process_lines_app.
  destruct (ParserFacts.process_lines_total before ([], None))
    as [[k1 b1] ->].
  cbn [res_bind process_lines].
  assert (Hline : process_line (k1, b1) line = Ok (k1, Some move)).
  { unfold process_line. rewrite Hstart, Htok. reflexivity. }
  rewrite Hline. cbn [res_bind].
  destruct (ParserFacts.process_lines_total after (k1, Some move))
    as [[k2 b2] Hrest].
  rewrite Hrest. cbn [res_bind].
  pose proof (ParserMore.process_lines_keep_bestmove _ _ _ _ _ Hafter Hrest)
    as ->.
  assert (Hne : move <> EmptyString).
  { pose proof (ParserMore.split_nonempty line) as Hall.
    rewrite Htok in Hall.
    apply List.Forall_cons_iff in Hall. destruct Hall as [_ Hall].
    apply List.Forall_cons_iff in Hall. apply Hall. }
  destruct move as [| c m]; [congruence |]. cbn. eauto.
Qed.

(** An info line, the best-move line, and a stray line after it. *)
Lemma X9_bestmove_witness :
  exists records,
    parse_stockfish_output
      ("info depth 2 score cp 7 pv d2d4" +:+ String newline
       ("bestmove d2d4 ponder d7d5" +:+ String newline "info string done"))
    = Ok (mk_result records (Some "d2d4")).
Proof.
  apply (X9_bestmove_is_token_of_last_bestmove_line
           ("info depth 2 score cp 7 pv d2d4" +:+ String newline
            ("bestmove d2d4 ponder d7d5" +:+ String newline "info string done"))
           "bestmove d2d4 ponder d7d5" "d2d4" "bestmove"
           ["info depth 2 score cp 7 pv d2d4"] ["info string done"]
           ["ponder"; "d7d5"]).
  - vm_compute. reflexivity.
  - vm_compute. reflexivity.
  - vm_compute. reflexivity.
  - repeat constructor.
Defined.

(** X10.  When the loop ends without a best move, the parser falls back
    on the kept records: with none, the result has no best move; else
    the record put first has the lowest kept rank, and the best move is
    the first move of its line, or the parser raises [IndexError] when
    that line is empty. *)
Theorem X10_fallback_best_move (output : string) (kept : list line_data)
  (bestmove : option string) :
  process_lines ([], None)
    (PyStr.split_on newline (PyStr.strip output)) = Ok (kept, bestmove) ->
  bestmove_truthy bestmove = false ->
  match sort_by_multipv kept with
  | first :: rest =>
      In first kept
      /\ (forall x, In x kept -> multipv first <= multipv x)
      /\ parse_stockfish_output output
         = match pv first with
           | move :: _ => Ok (mk_result (first :: rest) (Some move))
           | [] => Raise IndexError
           end
  | [] => kept = [] /\ parse_stockfish_output output = Ok (mk_result [] None)
  end.
Proof. apply ParserFacts.parse_without_bestmove. Qed.

(** Two ranked lines and no best-move line. *)
Lemma X10_fallback_witness :
  match sort_by_multipv
          [mk_line_data 4 (ScoreCp (-12)) ["g1f3"; "g8f6"] 2;
           mk_line_data 4 (ScoreCp 25) ["e2e4"; "e7e5"] 1] with
  | first :: rest =>
      In first
        [mk_line_data 4 (ScoreCp (-12)) ["g1f3"; "g8f6"] 2;
         mk_line_data 4 (ScoreCp 25) ["e2e4"; "e7e5"] 1]
      /\ (forall x,
            In x [mk_line_data 4 (ScoreCp (-12)) ["g1f3"; "g8f6"] 2;
                  mk_line_data 4 (ScoreCp 25) ["e2e4"; "e7e5"] 1] ->
            multipv first <= multipv x)
      /\ parse_stockfish_output
           ("info depth 4 multipv 2 score cp -12 pv g1f3 g8f6"
            +:+ String newline
            "info depth 4 multipv 1 score cp 25 pv e2e4 e7e5")
         = match pv first with
           | move :: _ => Ok (mk_result (first :: rest) (Some move))
           | [] => Raise IndexError
           end
  | [] =>
      [mk_line_data 4 (ScoreCp (-12)) ["g1f3"; "g8f6"] 2;
       mk_line_data 4 (ScoreCp 25) ["e2e4"; "e7e5"] 1] = []
      /\ parse_stockfish_output
           ("info depth 4 multipv 2 score cp -12 pv g1f3 g8f6"
            +:+ String newline
            "info depth 4 multipv 1 score cp 25 pv e2e4 e7e5")
         = Ok (mk_result [] None)
  end.
Proof.
  apply (X10_fallback_best_move
           ("info depth 4 multipv 2 score cp -12 pv g1f3 g8f6"
            +:+ String newline
            "info depth 4 multipv 1 score cp 25 pv e2e4 e7e5")
           [mk_line_data 4 (ScoreCp (-12)) ["g1f3"; "g8f6"] 2;
            mk_line_data 4 (ScoreCp 25) ["e2e4"; "e7e5"] 1] None).
  - vm_compute. reflexivity.
  - reflexivity.
Defined.

(* ===================================================================== *)
(** * The serverless handler: further properties *)
(* ===================================================================== *)

(** X11.  A request whose fields are a dict with a true [fen] and with
    [depth] and [multipv] absent or integers always reaches the
    analysis: with that [fen], with the [debug] value as sent ([False]
    when absent), and with a depth of at most 25 and at most 5 lines,
    equal to the requested ones when those are within the caps. *)
Theorem X11_well_formed_request_reaches_analysis
  (json_loads : string -> res json) (body : gmap string json)
  (requested_depth requested_multipv : Z) :
  body !! "body" = None ->
  truthy (dict_get body "fen" JNull) = true ->
  as_int (dict_get body "depth" (JInt 20)) = Some requested_depth ->
  as_int (dict_get body "multipv" (JInt 1)) = Some requested_multipv ->
  exists depth multipv,
    handler_call json_loads (JObj body)
    = Analyze (dict_get body "fen" JNull) depth multipv
        (dict_get body "debug" (JBool false))
    /\ as_int depth = Some (Z.min requested_depth 25)
    /\ as_int multipv = Some (Z.min requested_multipv 5)
    /\ (requested_depth <= 25 -> depth = dict_get body "depth" (JInt 20))
    /\ (requested_multipv <= 5
        -> multipv = dict_get body "multipv" (JInt 1)).
Proof.
  intros Hbody Hfen Hd Hm.
  unfold handler_call, handler_try, request_body. rewrite Hbody.
  cbn [res_bind]. rewrite Hfen. cbn [negb].
  unfold py_min, py_lt_int. rewrite Hd, Hm. cbn [res_bind].
  eexists _, _. split; [reflexivity |].
  destruct (Z.ltb_spec 25 requested_depth);
    destruct (Z.ltb_spec 5 requested_multipv); cbn [as_int];
    rewrite ?Hd, ?Hm;
    repeat split; try (f_equal; lia); try reflexivity; intros; lia.
Qed.

(** A request for depth 12 with the debug flag set. *)
Lemma X11_debug_request_witness :
  exists depth multipv,
    handler_call Toy.no_json (JObj Runs.debug_body)
    = Analyze (dict_get Runs.debug_body "fen" JNull) depth multipv
        (dict_get Runs.debug_body "debug" (JBool false))
    /\ as_int depth = Some (Z.min 12 25)
    /\ as_int multipv = Some (Z.min 1 5).
Proof.
  destruct (X11_well_formed_request_reaches_analysis Toy.no_json
              Runs.debug_body 12 1)
    as (depth & multipv & Hcall & Hd & Hm & _);
    [vm_compute; reflexivity .. |].
  exists depth, multipv. split; [exact Hcall |]. split; assumption.
Defined.

(** X12.  A request behind an API gateway is handled as the direct
    request: when the event's [body] is a string that decodes to a dict
    without a [body] key of its own, the handler does with the event
    what it does with the decoded dict, whatever the event's other
    keys. *)
Theorem X12_gateway_event_as_direct_request
  (json_loads : string -> res json) (event body : gmap string json)
  (s : string) :
  event !! "body" = Some (JStr s) ->
  json_loads s = Ok (JObj body) ->
  body !! "body" = None ->
  handler_call json_loads (JObj event) = handler_call json_loads (JObj body).
Proof.
  intros He Hs Hb.
  unfold handler_call, handler_try, request_body.
  rewrite He, Hs, Hb. reflexivity.
Qed.

(** The debug request behind a gateway. *)
Lemma X12_gateway_witness :
  handler_call Runs.one_json Runs.proxy_event
  = handler_call Runs.one_json (JObj Runs.debug_body).
Proof.
  destruct Runs.proxy_event as [| | | | | | event] eqn:Eev; try discriminate.
  apply (X12_gateway_event_as_direct_request Runs.one_json event
           Runs.debug_body "{...}").
  - injection Eev as <-. vm_compute. reflexivity.
  - reflexivity.
  - vm_compute. reflexivity.
Defined.

(** X13.  The handler answers with status 400 exactly when the request
    fields are a dict whose [fen] is missing or false; the depth and the
    number of lines are not looked at before that, and no other request
    gets this status. *)
Theorem X13_status_400_exactly_for_missing_fen
  (json_loads : string -> res json) (event : json) :
  handler_call json_loads event = Respond 400
  <-> exists body,
        request_body json_loads event = Ok (JObj body)
        /\ truthy (dict_get body "fen" JNull) = false.
Proof.
  unfold handler_call, handler_try. split.
  - intros Hcall.
    destruct (request_body json_loads event) as [b | ex] eqn:Eb;
      cbn [res_bind] in Hcall.
    2:{ destruct ex; discriminate. }
    destruct b as [| | | | | | body]; try discriminate.
    exists body. split; [reflexivity |].
    destruct (truthy (dict_get body "fen" JNull)); [| reflexivity].
    cbn [negb] in Hcall.
    destruct (py_min (dict_get body "depth" (JInt 20)) 25) as [d | ex];
      cbn [res_bind] in Hcall.
    2:{ destruct ex; discriminate. }
    destruct (py_min (dict_get body "multipv" (JInt 1)) 5) as [m | ex];
      cbn [res_bind] in Hcall.
    2:{ destruct ex; discriminate. }
    discriminate.
  - intros (body & -> & Hfen). cbn [res_bind]. rewrite Hfen. reflexivity.
Qed.

(** An empty position string with a null depth: status 400, not 500. *)
Lemma X13_empty_fen_witness :
  handler_call Toy.no_json Runs.empty_fen_event = Respond 400.
Proof.
  apply (proj2 (X13_status_400_exactly_for_missing_fen Toy.no_json
                  Runs.empty_fen_event)).
  eexists. split; vm_compute; reflexivity.
Defined.

(* ===================================================================== *)
(** * The game-analysis tester: further properties *)
(* ===================================================================== *)

Module TesterMore.

(** The encoding of a score seen from the other side is the negated
    encoding, except for a mate in zero. *)
Lemma white_cp_neg (x : Score) :
  mate x <> Some 0 -> Tester.white_cp (Score_neg x) = - Tester.white_cp x.
Proof.
  destruct x as [v | n |]; cbn; intros Hm.
  - reflexivity.
  - destruct (Z.eqb_spec n 0) as [-> | Hn]; [congruence |]. cbn.
    destruct (Z.gtb_spec (- n) 0), (Z.gtb_spec n 0); lia.
  - congruence.
Qed.

Lemma mate_neg_zero (x : Score) :
  mate (Score_neg x) = Some 0 <-> mate x = Some 0.
Proof.
  destruct x as [v | n |]; cbn; [tauto | | tauto].
  destruct (Z.eqb_spec n 0) as [-> | Hn]; cbn; [tauto |].
  split; intros Heq; injection Heq as Heq; f_equal; lia.
Qed.

Lemma white_cp_mate_zero (x : Score) :
  mate x = Some 0 -> Tester.white_cp x = -100000.
Proof.
  destruct x as [v | n |]; cbn; intros Hm; [discriminate | | reflexivity].
  injection Hm as ->. reflexivity.
Qed.

(** Seen from black, a score is the negated white view. *)
Lemma pov_black (s : PovScore) :
  mate (pov s BLACK) = Some 0 <-> mate (white s) = Some 0.
Proof.
  unfold white, pov. destruct (turn s); cbn [Color_eqb].
  - apply mate_neg_zero.
  - symmetry. apply mate_neg_zero.
Qed.

Lemma white_cp_pov_black (s : PovScore) :
  mate (white s) <> Some 0 ->
  Tester.white_cp (pov s BLACK) = - Tester.white_cp (white s).
Proof.
  unfold white, pov. destruct (turn s); cbn [Color_eqb]; intros Hm.
  - apply white_cp_neg. exact Hm.
  - rewrite white_cp_neg; [lia |].
    intros H0. apply Hm. apply mate_neg_zero. exact H0.
Qed.

End TesterMore.

(** X14.  The tester's [get_eval_cp] gives the centipawn encoding of the
    score as the requested side sees it, whichever side the engine's
    score is relative to, except for a mate in zero: that is always
    -100000 for white and 100000 for black, whichever side is mated. *)
Theorem X14_tester_eval_is_the_requested_sides_view
  (score : PovScore) (turn : Color) :
  (mate (pov score turn) <> Some 0 ->
   Tester.get_eval_cp (Some score) turn = Tester.white_cp (pov score turn))
  /\ (mate (pov score turn) = Some 0 ->
      Tester.get_eval_cp (Some score) turn = seen_from turn (-100000)).
Proof.
  unfold Tester.get_eval_cp. destruct turn; cbn [seen_from].
  - split; [reflexivity |]. apply TesterMore.white_cp_mate_zero.
  - split.
    + intros Hm. rewrite TesterMore.white_cp_pov_black; [lia |].
      rewrite <- TesterMore.pov_black. exact Hm.
    + intros Hm. apply TesterMore.pov_black in Hm.
      rewrite (TesterMore.white_cp_mate_zero _ Hm). reflexivity.
Qed.

(** A mate in two against the side to move, and a mate in zero. *)
Lemma X14_views_witness :
  Tester.get_eval_cp (Some (mkPovScore (Mate (-2)) BLACK)) BLACK
  = Tester.white_cp (pov (mkPovScore (Mate (-2)) BLACK) BLACK)
  /\ Tester.get_eval_cp (Some (mkPovScore (Mate 0) BLACK)) BLACK
     = seen_from BLACK (-100000).
Proof.
  split.
  - apply (proj1 (X14_tester_eval_is_the_requested_sides_view
                    (mkPovScore (Mate (-2)) BLACK) BLACK)).
    discriminate.
  - apply (proj2 (X14_tester_eval_is_the_requested_sides_view
                    (mkPovScore (Mate 0) BLACK) BLACK)).
    reflexivity.
Defined.

(** X15.  In the tester's encoding a sooner mate for white counts more
    than a later one, a later mate against white counts more than a
    sooner one, and for fewer than 1000 moves every mate for white is
    positive and every mate against white is negative. *)
Theorem X15_mate_encoding_keeps_order (n m : Z) :
  (0 < n < m -> Tester.white_cp (Mate m) < Tester.white_cp (Mate n))
  /\ (n < m <= 0 -> Tester.white_cp (Mate m) < Tester.white_cp (Mate n))
  /\ (0 < n < 1000 -> 0 < Tester.white_cp (Mate n))
  /\ (-1000 < n <= 0 -> Tester.white_cp (Mate n) < 0).
Proof.
  unfold Tester.white_cp.
  destruct (Z.gtb_spec n 0), (Z.gtb_spec m 0); repeat split; intros; lia.
Qed.

(** Mate in two against mate in five, and being mated in one against
    being mated in four. *)
Lemma X15_order_witness :
  Tester.white_cp (Mate 5) < Tester.white_cp (Mate 2)
  /\ Tester.white_cp (Mate (-1)) < Tester.white_cp (Mate (-4)).
Proof.
  split.
  - apply (proj1 (X15_mate_encoding_keeps_order 2 5)). lia.
  - apply (proj1 (proj2 (X15_mate_encoding_keeps_order (-4) (-1)))). lia.
Defined.

Section WalkMore.

Context {R : ChessRules} {E : EngineModel}.

Import Tester.

(** What a step of the walk adds, with the fields that identify it. *)
Lemma analyze_ply_new_fields (user_color : Color) (game_url : string)
  (w w' : walk) (ply : nat) (move : Move) (e e' : Engine) :
  analyze_ply user_color game_url w ply move e = (Ok w', e') ->
  analyses w' = analyses w
  \/ exists a,
       analyses w' = analyses w ++ [a]
       /\ MoveAnalysis.ply a = ply
       /\ MoveAnalysis.side a = side_name user_color
       /\ MoveAnalysis.fen_before a = board_fen (board w)
       /\ MoveAnalysis.played_move_uci a = Move_uci move.
Proof.
  unfold analyze_ply. intros Hrun.
  destruct (Color_eqb (board_turn (board w)) user_color) eqn:Ec; cbn in Hrun.
  2:{ unfold ret in Hrun. injection Hrun as <- <-. left. reflexivity. }
  apply Color_eqb_eq in Ec.
  unfold bind at 1 in Hrun.
  destruct (analyze_position (board w) ANALYSIS_TIME MULTIPV e)
    as [[top_moves | ex] e1]; [| discriminate].
  destruct top_moves as [| best rest].
  { unfold ret in Hrun. injection Hrun as <- <-. left. reflexivity. }
  unfold bind, lift in Hrun.
  destruct (Board_of_fen (board_fen (board w))) as [board_copy |];
    [| discriminate].
  destruct (san board_copy move) as [played_move_san |]; [| discriminate].
  destruct (analyse1 _ _ e1) as [[post |] e2]; [| discriminate].
  cbv zeta in Hrun.
  destruct (_ >=? BLUNDER_THRESHOLD_CP) in Hrun;
    unfold ret in Hrun; injection Hrun as <- <-; right;
    eexists; cbn [analyses]; (split; [reflexivity |]);
    cbn; rewrite Ec; repeat split.
Qed.

(** The step at a ply of the tracked side after which the engine reports
    a mate in zero. *)
Lemma analyze_ply_mate_in_zero (user_color : Color) (game_url : string)
  (w : walk) (ply : nat) (move : Move) (e e1 : Engine)
  (best : top_move) (rest : list top_move) (board_copy : Board)
  (played_move_san : string) (post : InfoDict) (s2 : EngineState)
  (sc : PovScore) :
  board_turn (board w) = user_color ->
  analyze_position (board w) ANALYSIS_TIME MULTIPV e
  = (Ok (best :: rest), e1) ->
  Board_of_fen (board_fen (board w)) = Ok board_copy ->
  san board_copy move = Ok played_move_san ->
  board_turn (push board_copy move) = opposite user_color ->
  analyse_single (engine_state e1) (push board_copy move)
    (mk_Limit (Some ANALYSIS_TIME) None) = (Ok post, s2) ->
  info_score post = Some sc ->
  mate (white sc) = Some 0 ->
  exists w' e' a,
    analyze_ply user_color game_url w ply move e = (Ok w', e')
    /\ analyses w' = analyses w ++ [a]
    /\ MoveAnalysis.eval_before_cp a = eval_cp best
    /\ MoveAnalysis.eval_after_cp a = seen_from user_color (-100000)
    /\ MoveAnalysis.is_blunder a
       = match user_color with
         | WHITE => -99900 <=? eval_cp best
         | BLACK => 100100 <=? eval_cp best
         end.
Proof.
  intros Ht Ha Hb Hs Hturn Hpost Hsc Hmate.
  unfold analyze_ply.
  apply Color_eqb_eq in Ht. rewrite Ht. cbn [negb].
  unfold bind at 1. rewrite Ha.
  unfold bind, lift, analyse1. rewrite Hb, Hs, Hpost.
  cbv zeta.
  assert (Heval : get_eval_cp (info_score post) (board_turn (push board_copy move))
                  = seen_from (opposite user_color) (-100000)).
  { rewrite Hsc, Hturn. unfold get_eval_cp.
    rewrite (TesterMore.white_cp_mate_zero _ Hmate).
    destruct user_color; reflexivity. }
  rewrite Heval.
  assert (Hplayed : - seen_from (opposite user_color) (-100000)
                    = seen_from user_color (-100000))
    by (destruct user_color; reflexivity).
  rewrite Hplayed.
  assert (Hflag : (eval_cp best - seen_from user_color (-100000)
                   >=? BLUNDER_THRESHOLD_CP)
                  = match user_color with
                    | WHITE => -99900 <=? eval_cp best
                    | BLACK => 100100 <=? eval_cp best
                    end).
  { unfold BLUNDER_THRESHOLD_CP. rewrite Z.geb_leb.
    destruct user_color; cbn [seen_from];
      match goal with
      | |- (?a <=? ?b) = (?c <=? ?d) =>
          destruct (Z.leb_spec a b), (Z.leb_spec c d); try reflexivity; lia
      end. }
  rewrite Hflag.
  destruct (match user_color with
            | WHITE => -99900 <=? eval_cp best
            | BLACK => 100100 <=? eval_cp best
            end) eqn:Eflag;
    unfold ret; eexists _, _, _; (split; [reflexivity |]);
    cbn; repeat split.
Qed.

End WalkMore.

(** X16.  At a ply of the tracked side, when the engine reports a mate
    in zero for the position after the played move, the walk records an
    evaluation after the move of -100000 for a white mover and 100000
    for a black mover.  So a mating move by white is flagged as a
    blunder whenever the best line is worth at least -99900, and a
    mating move by black only when the best line is worth at least
    100100. *)
Theorem X16_mate_in_zero_after_the_played_move
  {R : ChessRules} {E : EngineModel}
  (user_color : Color) (game_url : string)
  (w : Tester.walk) (ply : nat) (move : Move) (e e1 : Engine)
  (best : Tester.top_move) (rest : list Tester.top_move)
  (board_copy : Board) (played_move_san : string) (post : InfoDict)
  (s2 : EngineState) (sc : PovScore) :
  board_turn (Tester.board w) = user_color ->
  Tester.analyze_position (Tester.board w) Tester.ANALYSIS_TIME
    Tester.MULTIPV e = (Ok (best :: rest), e1) ->
  Board_of_fen (board_fen (Tester.board w)) = Ok board_copy ->
  san board_copy move = Ok played_move_san ->
  board_turn (push board_copy move) = opposite user_color ->
  analyse_single (engine_state e1) (push board_copy move)
    (mk_Limit (Some Tester.ANALYSIS_TIME) None) = (Ok post, s2) ->
  info_score post = Some sc ->
  mate (white sc) = Some 0 ->
  exists w' e' a,
    Tester.analyze_ply user_color game_url w ply move e = (Ok w', e')
    /\ Tester.analyses w' = Tester.analyses w ++ [a]
    /\ Tester.MoveAnalysis.eval_before_cp a = Tester.eval_cp best
    /\ Tester.MoveAnalysis.eval_after_cp a = seen_from user_color (-100000)
    /\ Tester.MoveAnalysis.is_blunder a
       = match user_color with
         | WHITE => -99900 <=? Tester.eval_cp best
         | BLACK => 100100 <=? Tester.eval_cp best
         end.
Proof. apply analyze_ply_mate_in_zero. Qed.

(** White mates on the first move; the best line was that mate in one. *)
Lemma X16_mating_move_witness :
  exists w' e' a,
    Tester.analyze_ply WHITE "game9" Toy.walk_start 0%nat "h5f7"
      (Toy.start Runs.mating_script) = (Ok w', e')
    /\ Tester.analyses w' = Tester.analyses Toy.walk_start ++ [a]
    /\ Tester.MoveAnalysis.eval_before_cp a = 99900
    /\ Tester.MoveAnalysis.eval_after_cp a = seen_from WHITE (-100000)
    /\ Tester.MoveAnalysis.is_blunder a = (-99900 <=? 99900).
Proof.
  apply (X16_mate_in_zero_after_the_played_move
           (R := Toy.rules) (E := Toy.engine)
           WHITE "game9" Toy.walk_start 0%nat "h5f7"
           (Toy.start Runs.mating_script) Runs.after_mating_first_request
           (Tester.mk_top_move "h5f7" "h5f7" 99900) [] 0%nat "h5f7"
           Runs.mate_zero_info [] (mkPovScore (Mate 0) BLACK));
    reflexivity.
Defined.

Module Decimal.

(** The decimal digit characters. *)
Lemma digit_char (k : nat) :
  (k < 10)%nat ->
  PyStr.is_digit (ascii_of_nat (48 + k)) = true
  /\ PyStr.digit_val (ascii_of_nat (48 + k)) = Z.of_nat k.
Proof.
  intros Hk. do 10 (destruct k as [| k]; [split; reflexivity |]). lia.
Qed.

(** Reading the digits that [str] writes gives the number back. *)
Lemma int_digits_str_of_nat_aux (fuel n : nat) (acc : string) :
  (n < fuel)%nat ->
  PyStr.int_digits 0 false (PyStr.str_of_nat_aux fuel n acc)
  = PyStr.int_digits (Z.of_nat n) true acc.
Proof.
  revert n acc. induction fuel as [| fuel IH]; intros n acc Hn; [lia |].
  cbn [PyStr.str_of_nat_aux].
  assert (Hmod : (n mod 10 < 10)%nat) by (apply Nat.mod_upper_bound; lia).
  destruct (digit_char _ Hmod) as [Hd Hv].
  destruct (Nat.ltb_spec n 10) as [Hlt | Hge].
  - cbn [PyStr.int_digits]. rewrite Hd, Hv.
    rewrite Nat.mod_small by exact Hlt. f_equal.
  - rewrite IH.
    + cbn [PyStr.int_digits]. rewrite Hd, Hv. f_equal.
      pose proof (Nat.div_mod_eq n 10). lia.
    + assert (n / 10 < n)%nat by (apply Nat.div_lt; lia). lia.
Qed.

Lemma int_digits_str_of_nat (n : nat) :
  PyStr.int_digits 0 false (PyStr.str_of_nat n) = Some (Z.of_nat n).
Proof.
  unfold PyStr.str_of_nat. rewrite int_digits_str_of_nat_aux by lia.
  reflexivity.
Qed.

Lemma str_of_nat_inj (n m : nat) :
  PyStr.str_of_nat n = PyStr.str_of_nat m -> n = m.
Proof.
  intros Heq.
  pose proof (int_digits_str_of_nat n) as Hn.
  rewrite Heq, int_digits_str_of_nat in Hn.
  injection Hn as Hn. lia.
Qed.

Lemma append_inj (p a b : string) : (p +:+ a = p +:+ b)%string -> a = b.
Proof.
  induction p as [| c p IH]; cbn; intros Heq; [exact Heq |].
  injection Heq as Heq. apply IH. exact Heq.
Qed.

(** Puzzle ids of one game differ when the plies differ. *)
Lemma puzzle_id_inj (game_url : string) (n m : nat) :
  Tester.puzzle_id game_url n = Tester.puzzle_id game_url m -> n = m.
Proof.
  unfold Tester.puzzle_id.
  destruct (String.eqb game_url EmptyString); intros Heq.
  - apply append_inj in Heq. apply str_of_nat_inj. exact Heq.
  - apply append_inj in Heq. apply append_inj in Heq.
    apply str_of_nat_inj. exact Heq.
Qed.

End Decimal.

Section WalkStructure.

Context {R : ChessRules} {E : EngineModel}.

Import Tester.

Lemma StronglySorted_snoc (l : list nat) (x : nat) :
  StronglySorted lt l -> List.Forall (fun y => (y < x)%nat) l ->
  StronglySorted lt (l ++ [x]).
Proof.
  induction l as [| y l IH]; cbn; intros Hs Hall.
  - constructor; constructor.
  - apply StronglySorted_inv in Hs. destruct Hs as [Hs Hy].
    apply List.Forall_cons_iff in Hall. destruct Hall as [Hyx Hall].
    constructor; [apply IH; assumption |].
    apply List.Forall_app. split; [exact Hy | constructor; [exact Hyx | constructor]].
Qed.

(** The walk from ply [ply] on: the analyses are of the tracked side, at
    most one for each move, and their plies increase. *)
Lemma walk_moves_structure (user_color : Color) (game_url : string)
  (moves : list Move) (w w' : walk) (ply : nat) (e e' : Engine) :
  walk_moves user_color game_url w ply moves e = (Ok w', e') ->
  List.Forall (fun a => (MoveAnalysis.ply a < ply)%nat
                        /\ MoveAnalysis.side a = side_name user_color)
    (analyses w) ->
  StronglySorted lt (List.map MoveAnalysis.ply (analyses w)) ->
  List.Forall (fun a => (MoveAnalysis.ply a < ply + List.length moves)%nat
                        /\ MoveAnalysis.side a = side_name user_color)
    (analyses w')
  /\ StronglySorted lt (List.map MoveAnalysis.ply (analyses w'))
  /\ (List.length (analyses w')
      <= List.length (analyses w) + List.length moves)%nat.
Proof.
  revert w ply e. induction moves as [| move rest IH];
    intros w ply e Hrun Hall Hs.
  - cbn in Hrun. unfold ret in Hrun. injection Hrun as <- <-.
    split; [| split; [exact Hs | lia]].
    eapply List.Forall_impl; [| exact Hall]. cbn. intros a [Ha Hb].
    split; [lia | exact Hb].
  - cbn [walk_moves] in Hrun. unfold bind in Hrun.
    destruct (analyze_ply user_color game_url w ply move e)
      as [[w1 | ex] e1] eqn:Ep; [| discriminate].
    apply analyze_ply_new_fields in Ep.
    assert (Hall1 : List.Forall
                      (fun a => (MoveAnalysis.ply a < S ply)%nat
                                /\ MoveAnalysis.side a = side_name user_color)
                      (analyses w1)
                    /\ StronglySorted lt
                         (List.map MoveAnalysis.ply (analyses w1))
                    /\ (List.length (analyses w1)
                        <= S (List.length (analyses w)))%nat).
    { assert (Hold : List.Forall
                       (fun a => (MoveAnalysis.ply a < S ply)%nat
                                 /\ MoveAnalysis.side a = side_name user_color)
                       (analyses w)).
      { eapply List.Forall_impl; [| exact Hall]. cbn. intros a [Ha Hb].
        split; [lia | exact Hb]. }
      destruct Ep as [-> | (a & -> & Hp & Hside & _)].
      - split; [exact Hold | split; [exact Hs | lia]].
      - split; [| split].
        + apply List.Forall_app. split; [exact Hold |].
          constructor; [split; [lia | exact Hside] | constructor].
        + rewrite List.map_app. cbn. apply StronglySorted_snoc; [exact Hs |].
          rewrite List.Forall_map.
          eapply List.Forall_impl; [| exact Hall]. cbn. intros b [Hb _]. lia.
        + rewrite List.length_app. cbn. lia. }
    destruct Hall1 as (Hall1 & Hs1 & Hlen1).
    destruct (IH w1 (S ply) e1 Hrun Hall1 Hs1) as (Ha & Hb & Hc).
    cbn [List.length]. split; [| split].
    + eapply List.Forall_impl; [| exact Ha]. cbn. intros a [H1 H2].
      split; [lia | exact H2].
    + exact Hb.
    + lia.
Qed.

Lemma StronglySorted_lt_NoDup (l : list nat) :
  StronglySorted lt l -> List.NoDup l.
Proof.
  induction 1 as [| x l Hs IH Hx]; constructor; [| exact IH].
  intros Hin. rewrite List.Forall_forall in Hx. specialize (Hx x Hin). lia.
Qed.

Lemma NoDup_map_filter {A B : Type} (f : A -> B) (p : A -> bool)
  (l : list A) :
  List.NoDup (List.map f l) -> List.NoDup (List.map f (List.filter p l)).
Proof.
  induction l as [| x l IH]; cbn; intros Hnd; [constructor |].
  apply List.NoDup_cons_iff in Hnd. destruct Hnd as [Hx Hnd].
  destruct (p x); cbn; [| apply IH; exact Hnd].
  constructor; [| apply IH; exact Hnd].
  intros Hin. apply Hx.
  apply List.in_map_iff in Hin. destruct Hin as (y & Hy & Hin).
  apply List.in_map_iff. exists y. split; [exact Hy |].
  apply List.filter_In in Hin. apply Hin.
Qed.

(** The analyses follow the game. *)
Lemma analyze_game_structure
  (game : Tester.Game) (username game_url : string) (e e' : Engine)
  (analyses : list Tester.MoveAnalysis.t)
  (blunders : list Tester.BlunderPuzzle.t) :
  Tester.analyze_game game username game_url e
  = (Ok (analyses, blunders), e') ->
  List.Forall
    (fun a =>
       Tester.MoveAnalysis.side a
       = if String.eqb (PyStr.lower username) (Tester.player game "White")
         then "white" else "black")
    analyses
  /\ StronglySorted lt (List.map Tester.MoveAnalysis.ply analyses)
  /\ List.Forall
       (fun a => (Tester.MoveAnalysis.ply a
                  < List.length (Tester.mainline_moves game))%nat) analyses
  /\ (List.length blunders <= List.length analyses
      <= List.length (Tester.mainline_moves game))%nat.
Proof.
  intros Hrun.
  assert (Hblunders : (List.length blunders <= List.length analyses)%nat).
  { apply analyze_game_inv in Hrun. destruct Hrun as [_ ->].
    unfold puzzles_of. rewrite List.length_map. apply List.filter_length_le. }
  unfold Tester.analyze_game in Hrun.
  destruct (String.eqb (PyStr.lower username) (Tester.player game "White"))
    eqn:Ew.
  - unfold bind, ret in Hrun.
    destruct (Tester.walk_moves WHITE game_url _ 0 _ e)
      as [[w | ex] e1] eqn:Erun; [| discriminate].
    injection Hrun as <- <- <-.
    destruct (walk_moves_structure _ _ _ _ _ _ _ _ Erun) as (Ha & Hb & Hc);
      [constructor | constructor |].
    cbn in Ha, Hc. repeat split; try assumption; try lia.
    + eapply List.Forall_impl; [| exact Ha]. cbn. intros a Hx. apply Hx.
    + eapply List.Forall_impl; [| exact Ha]. cbn. intros a Hx. apply Hx.
  - destruct (String.eqb (PyStr.lower username) (Tester.player game "Black")).
    + unfold bind, ret in Hrun.
      destruct (Tester.walk_moves BLACK game_url _ 0 _ e)
        as [[w | ex] e1] eqn:Erun; [| discriminate].
      injection Hrun as <- <- <-.
      destruct (walk_moves_structure _ _ _ _ _ _ _ _ Erun) as (Ha & Hb & Hc);
        [constructor | constructor |].
      cbn in Ha, Hc. repeat split; try assumption; try lia.
      * eapply List.Forall_impl; [| exact Ha]. cbn. intros a Hx. apply Hx.
      * eapply List.Forall_impl; [| exact Ha]. cbn. intros a Hx. apply Hx.
    + unfold ret in Hrun. injection Hrun as <- <- <-.
      repeat split; try constructor; cbn; lia.
Qed.

End WalkStructure.

(** X17.  In what [analyze_game] returns, every analysis is of the
    tracked side (white when the lower-cased user name is the white
    player's, black otherwise), the plies of the analyses increase
    strictly and are plies of the game, and there are at most as many
    analyses as moves and at most as many puzzles as analyses. *)
Theorem X17_analyses_follow_the_game {R : ChessRules} {E : EngineModel}
  (game : Tester.Game) (username game_url : string) (e e' : Engine)
  (analyses : list Tester.MoveAnalysis.t)
  (blunders : list Tester.BlunderPuzzle.t) :
  Tester.analyze_game game username game_url e
  = (Ok (analyses, blunders), e') ->
  List.Forall
    (fun a =>
       Tester.MoveAnalysis.side a
       = if String.eqb (PyStr.lower username) (Tester.player game "White")
         then "white" else "black")
    analyses
  /\ StronglySorted lt (List.map Tester.MoveAnalysis.ply analyses)
  /\ List.Forall
       (fun a => (Tester.MoveAnalysis.ply a
                  < List.length (Tester.mainline_moves game))%nat) analyses
  /\ (List.length blunders <= List.length analyses
      <= List.length (Tester.mainline_moves game))%nat.
Proof. apply analyze_game_structure. Qed.

(** The game in which white's first move loses 170 centipawns. *)
Lemma X17_blunder_game_witness :
  List.Forall (fun a => Tester.MoveAnalysis.side a = "white")
    [Toy.blunder_analysis]
  /\ StronglySorted lt
       (List.map Tester.MoveAnalysis.ply [Toy.blunder_analysis]).
Proof.
  destruct (X17_analyses_follow_the_game (R := Toy.rules) (E := Toy.engine)
              Toy.blunder_game "alice" "game7"
              (Toy.start Toy.blunder_script) (Toy.finished (Some 3) None)
              [Toy.blunder_analysis] [Toy.blunder_puzzle] eq_refl)
    as (Hside & Hsorted & _).
  split; [exact Hside | exact Hsorted].
Defined.

(** X18.  The puzzles that [analyze_game] returns for a game have
    pairwise different ids. *)
Theorem X18_puzzle_ids_are_distinct {R : ChessRules} {E : EngineModel}
  (game : Tester.Game) (username game_url : string) (e e' : Engine)
  (analyses : list Tester.MoveAnalysis.t)
  (blunders : list Tester.BlunderPuzzle.t) :
  Tester.analyze_game game username game_url e
  = (Ok (analyses, blunders), e') ->
  List.NoDup (List.map Tester.BlunderPuzzle.id blunders).
Proof.
  intros Hrun.
  destruct (analyze_game_structure _ _ _ _ _ _ _ Hrun)
    as (_ & Hsorted & _).
  apply analyze_game_inv in Hrun. destruct Hrun as [_ ->].
  unfold puzzles_of. rewrite List.map_map. cbn.
  rewrite <- (List.map_map Tester.MoveAnalysis.ply (Tester.puzzle_id game_url)).
  apply Finite.Injective_map_NoDup.
  - intros n m. apply Decimal.puzzle_id_inj.
  - apply NoDup_map_filter. apply StronglySorted_lt_NoDup. exact Hsorted.
Qed.

(** The game in which white's first move loses 170 centipawns. *)
Lemma X18_blunder_game_witness :
  List.NoDup (List.map Tester.BlunderPuzzle.id [Toy.blunder_puzzle]).
Proof.
  apply (X18_puzzle_ids_are_distinct (R := Toy.rules) (E := Toy.engine)
           Toy.blunder_game "alice" "game7"
           (Toy.start Toy.blunder_script) (Toy.finished (Some 3) None)
           [Toy.blunder_analysis] [Toy.blunder_puzzle]).
  reflexivity.
Defined.

(** X19.  In every analysis that [analyze_game] returns, the acceptable
    moves start with the best line itself, so the list is never empty,
    and every acceptable move is worth more than the best line's value
    less 100. *)
Theorem X19_best_line_is_acceptable {R : ChessRules} {E : EngineModel}
  (game : Tester.Game) (username game_url : string) (e e' : Engine)
  (analyses : list Tester.MoveAnalysis.t)
  (blunders : list Tester.BlunderPuzzle.t) :
  Tester.analyze_game game username game_url e
  = (Ok (analyses, blunders), e') ->
  List.Forall
    (fun a =>
       exists first rest,
         Tester.MoveAnalysis.acceptable_moves a = first :: rest
         /\ Tester.move_uci first = Tester.MoveAnalysis.best_move_uci a
         /\ Tester.move_san first = Tester.MoveAnalysis.best_move_san a
         /\ Tester.eval_cp first = Tester.MoveAnalysis.eval_before_cp a
         /\ List.Forall
              (fun m => Tester.MoveAnalysis.eval_before_cp a - 100
                        < Tester.eval_cp m)
              (Tester.MoveAnalysis.acceptable_moves a))
    analyses.
Proof.
  intros Hrun. apply analyze_game_inv in Hrun. destruct Hrun as [Hall _].
  eapply List.Forall_impl; [| exact Hall].
  intros a [[| best rest] Hof]; [destruct Hof |].
  unfold analysis_of in Hof.
  destruct Hof as (Hu & Hs & He & _ & _ & Hacc).
  exists best, (List.filter
                  (fun m => Tester.eval_cp best - Tester.eval_cp m <? 100)
                  rest).
  assert (Hself : (Tester.eval_cp best - Tester.eval_cp best <? 100) = true)
    by (apply Z.ltb_lt; lia).
  split; [rewrite Hacc; cbn; rewrite Hself; reflexivity |].
  repeat split; try congruence.
  rewrite Hacc, He. apply List.Forall_forall. intros m Hm.
  apply List.filter_In in Hm. destruct Hm as [_ Hm].
  apply Z.ltb_lt in Hm. lia.
Qed.

(** The game in which white's first move loses 170 centipawns. *)
Lemma X19_blunder_game_witness :
  List.Forall
    (fun a =>
       exists first rest,
         Tester.MoveAnalysis.acceptable_moves a = first :: rest
         /\ Tester.move_uci first = Tester.MoveAnalysis.best_move_uci a
         /\ Tester.move_san first = Tester.MoveAnalysis.best_move_san a
         /\ Tester.eval_cp first = Tester.MoveAnalysis.eval_before_cp a
         /\ List.Forall
              (fun m => Tester.MoveAnalysis.eval_before_cp a - 100
                        < Tester.eval_cp m)
              (Tester.MoveAnalysis.acceptable_moves a))
    [Toy.blunder_analysis].
Proof.
  apply (X19_best_line_is_acceptable (R := Toy.rules) (E := Toy.engine)
           Toy.blunder_game "alice" "game7"
           (Toy.start Toy.blunder_script) (Toy.finished (Some 3) None)
           [Toy.blunder_analysis] [Toy.blunder_puzzle]).
  reflexivity.
Defined.

(* ===================================================================== *)
(** * Saved analyses and the trainer: properties *)
(* ===================================================================== *)

Module FilesFacts.

Import TesterFiles.

Lemma contains_char (ch : ascii) (s : string) :
  PyStr.contains (String ch EmptyString) s = has_char ch s.
Proof.
  induction s as [| c s IH]; cbn; [reflexivity |].
  rewrite IH. f_equal.
  destruct (Ascii.ascii_dec ch c) as [<- | Hne]; cbn.
  - rewrite Ascii.eqb_refl. destruct s; reflexivity.
  - symmetry. apply Ascii.eqb_neq. congruence.
Qed.

Lemma split_on_not_nil (sep : ascii) (s : string) :
  PyStr.split_on sep s <> [].
Proof.
  destruct s as [| c s]; cbn; [discriminate |].
  destruct (Ascii.eqb c sep); [discriminate |].
  destruct (PyStr.split_on sep s); discriminate.
Qed.

(** No piece of a split holds the separator. *)
Lemma split_on_no_sep (sep : ascii) (s : string) :
  List.Forall (fun piece => has_char sep piece = false)
    (PyStr.split_on sep s).
Proof.
  induction s as [| c s IH]; cbn; [repeat constructor |].
  destruct (Ascii.eqb c sep) eqn:Ec; [constructor; [reflexivity | exact IH] |].
  destruct (PyStr.split_on sep s) as [| h t]; [repeat constructor; cbn;
    rewrite Ec; reflexivity |].
  apply List.Forall_cons_iff in IH. destruct IH as [Hh Ht].
  constructor; [cbn; rewrite Ec, Hh; reflexivity | exact Ht].
Qed.

Lemma last_in {A : Type} (l : list A) (d : A) : l <> [] -> In (List.last l d) l.
Proof.
  induction l as [| x l IH]; [congruence |]. intros _.
  destruct l as [| y l]; [left; reflexivity |].
  right. apply IH. discriminate.
Qed.

(** A string without the separator is one piece. *)
Lemma split_on_whole (sep : ascii) (s : string) :
  has_char sep s = false -> PyStr.split_on sep s = [s].
Proof.
  induction s as [| c s IH]; cbn; [reflexivity |].
  intros Hno. apply orb_false_iff in Hno. destruct Hno as [Hc Hs].
  rewrite Hc, (IH Hs). reflexivity.
Qed.

Lemma split_on_two (sep : ascii) (p t : string) :
  exists a b rest,
    PyStr.split_on sep (p +:+ String sep t)%string = a :: b :: rest.
Proof.
  induction p as [| c p IH]; simpl.
  - rewrite Ascii.eqb_refl.
    destruct (PyStr.split_on sep t) as [| h r] eqn:Et;
      [exfalso; exact (split_on_not_nil _ _ Et) | eauto].
  - destruct IH as (a & b & rest & ->).
    destruct (Ascii.eqb c sep); eauto.
Qed.

(** The last piece of a split is what follows the last separator. *)
Lemma split_on_last (sep : ascii) (p t : string) :
  has_char sep t = false ->
  List.last (PyStr.split_on sep (p +:+ String sep t)%string) EmptyString = t.
Proof.
  intros Hno. induction p as [| c p IH]; simpl.
  - rewrite Ascii.eqb_refl, (split_on_whole _ _ Hno). reflexivity.
  - destruct (split_on_two sep p t) as (a & b & rest & Heq).
    rewrite Heq in IH |- *.
    destruct (Ascii.eqb c sep); exact IH.
Qed.

(** Stripping leaves a string that does not end in the character. *)
Lemma rstrip_char_keeps (ch : ascii) (p t : string) :
  t <> EmptyString -> has_char ch t = false ->
  rstrip_char ch (p +:+ t)%string = (p +:+ t)%string.
Proof.
  intros Hne Hno.
  assert (Ht : rstrip_char ch t = t).
  { clear Hne. induction t as [| c t IH]; [reflexivity |].
    cbn [has_char] in Hno. apply orb_false_iff in Hno.
    destruct Hno as [Hc Ht].
    cbn [rstrip_char]. rewrite (IH Ht), Hc. destruct t; reflexivity. }
  induction p as [| c p IH]; [exact Ht |].
  change (rstrip_char ch (String c (p +:+ t)) = String c (p +:+ t))%string.
  cbn [rstrip_char]. rewrite IH.
  destruct (p +:+ t)%string eqn:Ept; [| reflexivity].
  destruct p; [change (t = EmptyString) in Ept; congruence | discriminate].
Qed.

Lemma rstrip_char_all (ch : ascii) (t : string) :
  all_char ch t = true -> rstrip_char ch t = EmptyString.
Proof.
  induction t as [| c t IH]; [reflexivity |].
  cbn [all_char rstrip_char].
  intros Hall. apply andb_true_iff in Hall. destruct Hall as [Hc Ht].
  rewrite (IH Ht), Hc. reflexivity.
Qed.

(** Stripping drops a tail made of the character. *)
Lemma rstrip_char_tail (ch : ascii) (s t : string) :
  all_char ch t = true ->
  rstrip_char ch (s +:+ t)%string = rstrip_char ch s.
Proof.
  intros Hall. induction s as [| c s IH].
  - apply rstrip_char_all. exact Hall.
  - change (rstrip_char ch (String c (s +:+ t)) = rstrip_char ch (String c s))%string.
    cbn [rstrip_char]. rewrite IH. reflexivity.
Qed.

Lemma append_assoc (a b c : string) :
  ((a +:+ b) +:+ c = a +:+ (b +:+ c))%string.
Proof.
  induction a as [| x a IH]; [reflexivity |].
  change (String x ((a +:+ b) +:+ c) = String x (a +:+ (b +:+ c)))%string.
  rewrite IH. reflexivity.
Qed.

Lemma has_char_after (ch : ascii) (p t : string) :
  has_char ch (p +:+ String ch t)%string = true.
Proof.
  induction p as [| c p IH].
  - change (has_char ch (String ch t) = true). cbn [has_char].
    rewrite Ascii.eqb_refl. reflexivity.
  - change (has_char ch (String c (p +:+ String ch t)) = true)%string.
    cbn [has_char]. rewrite IH. apply orb_true_r.
Qed.

End FilesFacts.

(** X20.  The game id that [extract_game_id] gives never holds a slash,
    whatever the URL. *)
Theorem X20_game_id_has_no_slash (game_url : string) :
  PyStr.contains (String TesterFiles.slash EmptyString)
    (TesterFiles.extract_game_id game_url) = false.
Proof.
  unfold TesterFiles.extract_game_id.
  destruct (PyStr.contains (String TesterFiles.slash EmptyString) game_url)
    eqn:Ec; [| exact Ec].
  rewrite FilesFacts.contains_char.
  pose proof (FilesFacts.split_on_no_sep TesterFiles.slash
                (TesterFiles.rstrip_char TesterFiles.slash game_url)) as Hall.
  rewrite List.Forall_forall in Hall. apply Hall.
  apply FilesFacts.last_in. apply FilesFacts.split_on_not_nil.
Qed.

(** X21.  For a URL that ends in a slash, a non-empty id without a slash,
    and any number of further slashes, [extract_game_id] gives that
    id. *)
Theorem X21_game_id_is_the_last_segment (base id slashes : string) :
  id <> EmptyString ->
  has_char TesterFiles.slash id = false ->
  all_char TesterFiles.slash slashes = true ->
  TesterFiles.extract_game_id
    (base +:+ String TesterFiles.slash (id +:+ slashes))%string = id.
Proof.
  intros Hne Hno Hall. unfold TesterFiles.extract_game_id.
  rewrite FilesFacts.contains_char.
  assert (Hhas : has_char TesterFiles.slash
                   (base +:+ String TesterFiles.slash (id +:+ slashes))%string
                 = true).
  { apply FilesFacts.has_char_after. }
  rewrite Hhas.
  assert (Hsplit : (base +:+ String TesterFiles.slash (id +:+ slashes)
                    = (base +:+ String TesterFiles.slash id) +:+ slashes)%string).
  { rewrite FilesFacts.append_assoc. reflexivity. }
  rewrite Hsplit, (FilesFacts.rstrip_char_tail _ _ _ Hall).
  assert (Hkeep : (base +:+ String TesterFiles.slash id
                   = (base +:+ String TesterFiles.slash EmptyString) +:+ id)%string).
  { rewrite FilesFacts.append_assoc. reflexivity. }
  rewrite Hkeep, (FilesFacts.rstrip_char_keeps _ _ _ Hne Hno), <- Hkeep.
  apply FilesFacts.split_on_last. exact Hno.
Qed.

(** A Chess.com game URL, with a trailing slash. *)
Lemma X21_chesscom_url_witness :
  TesterFiles.extract_game_id "https://www.chess.com/game/live/147461995910/"
  = "147461995910".
Proof.
  apply (X21_game_id_is_the_last_segment "https://www.chess.com/game/live"
           "147461995910" "/").
  - discriminate.
  - vm_compute. reflexivity.
  - vm_compute. reflexivity.
Defined.

Module TrainerFacts.

Import TesterFiles Trainer.

Ltac lookup_key :=
  repeat (rewrite lookup_insert_ne by discriminate);
  rewrite ?lookup_insert_eq.

Lemma tagged_correct_move (game_url user_color : json)
  (b : Tester.BlunderPuzzle.t) :
  dict_get (tagged game_url user_color b) "correct_move_uci" JNull
  = JStr (Tester.BlunderPuzzle.correct_move_uci b).
Proof. unfold dict_get, tagged, puzzle_dict. lookup_key. reflexivity. Qed.

Lemma tagged_acceptable_moves (game_url user_color : json)
  (b : Tester.BlunderPuzzle.t) :
  dict_get (tagged game_url user_color b) "acceptable_moves" (JArr [])
  = JArr (List.map top_move_dict (Tester.BlunderPuzzle.acceptable_moves b)).
Proof. unfold dict_get, tagged, puzzle_dict. lookup_key. reflexivity. Qed.

Lemma any_acceptable_dicts (move_uci : string) (l : list Tester.top_move) :
  any_acceptable move_uci (List.map top_move_dict l)
  = Ok (among move_uci l).
Proof.
  induction l as [| m l IH]; [reflexivity |].
  cbn [List.map any_acceptable top_move_dict].
  unfold dict_get at 1. lookup_key. cbn [str_eq].
  unfold among. cbn [existsb].
  destruct (String.eqb move_uci (Tester.move_uci m)); [reflexivity |].
  exact IH.
Qed.

(** What [is_correct_move] answers on a puzzle that was saved and
    loaded. *)
Lemma is_correct_move_tagged (move_uci : string) (game_url user_color : json)
  (b : Tester.BlunderPuzzle.t) :
  is_correct_move move_uci (tagged game_url user_color b)
  = Ok (String.eqb move_uci (Tester.BlunderPuzzle.correct_move_uci b)
        || among move_uci (Tester.BlunderPuzzle.acceptable_moves b)).
Proof.
  unfold is_correct_move.
  rewrite tagged_correct_move, tagged_acceptable_moves. cbn [str_eq].
  destruct (String.eqb move_uci (Tester.BlunderPuzzle.correct_move_uci b));
    [reflexivity |].
  apply any_acceptable_dicts.
Qed.

Lemma tag_blunders_dicts (game_url user_color : json)
  (blunders : list Tester.BlunderPuzzle.t) :
  tag_blunders game_url user_color
    (List.map (fun b => JObj (puzzle_dict b)) blunders)
  = Ok (List.map (fun b => JObj (tagged game_url user_color b)) blunders).
Proof.
  induction blunders as [| b l IH]; [reflexivity |].
  cbn [List.map tag_blunders]. rewrite IH. reflexivity.
Qed.

(** What a saved file holds for the trainer. *)
Lemma saved_document (username game_id : string)
  (game_data : gmap string json) (analyses : list Tester.MoveAnalysis.t)
  (blunders : list Tester.BlunderPuzzle.t) (doc : gmap string json) :
  save_game_analysis username game_id game_data analyses blunders = Ok doc ->
  exists color,
    (color = "white" \/ color = "black")
    /\ dict_get doc "user_color" (JStr "white") = JStr color
    /\ dict_get doc "game_url" (JStr EmptyString)
       = dict_get game_data "url" (JStr EmptyString)
    /\ dict_get doc "blunders" (JArr [])
       = JArr (List.map (fun b => JObj (puzzle_dict b)) blunders)
    /\ dict_get doc "blunders_found" (JInt 0)
       = JInt (Z.of_nat (List.length blunders))
    /\ dict_get doc "moves_analyzed" (JInt 0)
       = JInt (Z.of_nat (List.length analyses)).
Proof.
  unfold save_game_analysis. intros Hsave.
  destruct (player_username game_data "white") as [white |];
    cbn [res_bind] in Hsave; [| discriminate].
  destruct (player_username game_data "black") as [black |];
    cbn [res_bind] in Hsave; [| discriminate].
  destruct (json_lower white) as [white_lower |];
    cbn [res_bind] in Hsave; [| discriminate].
  injection Hsave as <-.
  exists (if String.eqb white_lower (PyStr.lower username)
          then "white" else "black").
  split; [destruct (String.eqb _ _); auto |].
  unfold dict_get at 1 3 5 7 9.
  repeat split; lookup_key; reflexivity.
Qed.

Lemma blunders_of_saved_file (username game_id : string)
  (game_data : gmap string json) (analyses : list Tester.MoveAnalysis.t)
  (blunders : list Tester.BlunderPuzzle.t) (doc : gmap string json) :
  save_game_analysis username game_id game_data analyses blunders = Ok doc ->
  exists color,
    (color = "white" \/ color = "black")
    /\ blunders_of_file (JObj doc)
       = Ok (List.map
               (fun b => JObj (tagged
                                 (dict_get game_data "url" (JStr EmptyString))
                                 (JStr color) b)) blunders).
Proof.
  intros Hsave.
  destruct (saved_document _ _ _ _ _ _ Hsave)
    as (color & Hcolor & Hc & Hu & Hb & _).
  exists color. split; [exact Hcolor |].
  unfold blunders_of_file. rewrite Hc, Hu, Hb.
  apply tag_blunders_dicts.
Qed.

Lemma count_saved_files (files : list json) (ga tb : Z) :
  List.Forall saved_file files ->
  exists loaded,
    load_files files = Ok loaded
    /\ count_files files ga (NInt tb)
       = Ok (ga + Z.of_nat (List.length files),
             NInt (tb + Z.of_nat (List.length loaded))).
Proof.
  revert ga tb. induction files as [| data rest IH]; intros ga tb Hall.
  - exists []. split; [reflexivity |]. cbn. f_equal. f_equal; [lia | f_equal; lia].
  - apply List.Forall_cons_iff in Hall. destruct Hall as [Hdata Hall].
    destruct Hdata as (u & gid & gd & an & bl & doc & Hsave & ->).
    destruct (blunders_of_saved_file _ _ _ _ _ _ Hsave) as (color & _ & Hload).
    destruct (saved_document _ _ _ _ _ _ Hsave)
      as (_ & _ & _ & _ & _ & Hfound & _).
    destruct (IH (ga + 1) (tb + Z.of_nat (List.length bl)) Hall)
      as (more & Hmore & Hcount).
    eexists. cbn [load_files count_files].
    rewrite Hload, Hmore, Hfound. cbn [res_bind].
    split; [reflexivity |].
    unfold add_count. cbn [as_int res_bind]. rewrite Hcount.
    rewrite List.length_app, List.length_map. cbn [List.length].
    f_equal. f_equal; [lia | f_equal; lia].
Qed.

(** The best line heads the acceptable moves. *)
Lemma analysis_acceptable_head (top_moves : list Tester.top_move)
  (a : Tester.MoveAnalysis.t) :
  analysis_of top_moves a ->
  exists first rest,
    Tester.MoveAnalysis.acceptable_moves a = first :: rest
    /\ Tester.move_uci first = Tester.MoveAnalysis.best_move_uci a.
Proof.
  destruct top_moves as [| best rest]; unfold analysis_of; [tauto |].
  intros (Hu & _ & _ & _ & _ & Hacc).
  assert (Hself : (Tester.eval_cp best - Tester.eval_cp best <? 100) = true)
    by (apply Z.ltb_lt; lia).
  rewrite Hacc. cbn [List.filter]. rewrite Hself. eauto.
Qed.

End TrainerFacts.

(** X22.  On a puzzle as the trainer loads it (the saved fields plus the
    two tags), [is_correct_move] returns, and accepts a move exactly
    when it is the puzzle's correct move or the move of one of its
    acceptable lines. *)
Theorem X22_trainer_accepts_correct_and_acceptable_moves
  (move_uci : string) (game_url user_color : json)
  (b : Tester.BlunderPuzzle.t) :
  Trainer.is_correct_move move_uci (tagged game_url user_color b)
  = Ok (String.eqb move_uci (Tester.BlunderPuzzle.correct_move_uci b)
        || among move_uci (Tester.BlunderPuzzle.acceptable_moves b)).
Proof. apply TrainerFacts.is_correct_move_tagged. Qed.

(** X23.  From a file that [save_game_analysis] wrote, the trainer loads
    the game's puzzles, in order, each with its saved fields, the game's
    URL and the user's colour, white or black. *)
Theorem X23_saved_puzzles_are_loaded
  (username game_id : string) (game_data : gmap string json)
  (analyses : list Tester.MoveAnalysis.t)
  (blunders : list Tester.BlunderPuzzle.t) (doc : gmap string json) :
  TesterFiles.save_game_analysis username game_id game_data analyses blunders
  = Ok doc ->
  exists color,
    (color = "white" \/ color = "black")
    /\ Trainer.load_all_blunders (Some [JObj doc])
       = Ok (List.map
               (fun b => JObj (tagged
                                 (dict_get game_data "url" (JStr EmptyString))
                                 (JStr color) b)) blunders).
Proof.
  intros Hsave.
  destruct (TrainerFacts.blunders_of_saved_file _ _ _ _ _ _ Hsave)
    as (color & Hcolor & Hload).
  exists color. split; [exact Hcolor |].
  cbn [Trainer.load_all_blunders Trainer.load_files]. rewrite Hload.
  cbn [res_bind]. rewrite List.app_nil_r. reflexivity.
Qed.

(** The game in which white's first move loses 170 centipawns, saved for
    Alice. *)
Lemma X23_saved_game_witness :
  exists color,
    (color = "white" \/ color = "black")
    /\ Trainer.load_all_blunders (Some [JObj Runs.alice_doc])
       = Ok (List.map
               (fun b => JObj (tagged
                                 (dict_get Runs.alice_game_data "url"
                                    (JStr EmptyString))
                                 (JStr color) b)) [Toy.blunder_puzzle]).
Proof.
  apply (X23_saved_puzzles_are_loaded "alice" "77" Runs.alice_game_data
           [Toy.blunder_analysis] [Toy.blunder_puzzle] Runs.alice_doc).
  reflexivity.
Defined.

(** X24.  Over a directory of files that [save_game_analysis] wrote, the
    counts of [get_user_stats] agree with what the trainer loads: the
    number of analysed games is the number of files, and the total of
    blunders is the number of puzzles that [load_all_blunders]
    returns. *)
Theorem X24_stats_count_what_is_loaded (files : list json) :
  List.Forall saved_file files ->
  exists loaded,
    Trainer.load_all_blunders (Some files) = Ok loaded
    /\ Trainer.analyzed_stats (Some files)
       = Ok (Z.of_nat (List.length files),
             Trainer.NInt (Z.of_nat (List.length loaded))).
Proof.
  intros Hall.
  destruct (TrainerFacts.count_saved_files files 0 0 Hall)
    as (loaded & Hload & Hcount).
  exists loaded. split; [exact Hload |].
  cbn [Trainer.analyzed_stats]. rewrite Hcount. reflexivity.
Qed.

(** The directory that holds the one saved game of Alice. *)
Lemma X24_one_file_witness :
  exists loaded,
    Trainer.load_all_blunders (Some [JObj Runs.alice_doc]) = Ok loaded
    /\ Trainer.analyzed_stats (Some [JObj Runs.alice_doc])
       = Ok (Z.of_nat (List.length [JObj Runs.alice_doc]),
             Trainer.NInt (Z.of_nat (List.length loaded))).
Proof.
  apply (X24_stats_count_what_is_loaded [JObj Runs.alice_doc]).
  constructor; [| constructor].
  exists "alice", "77", Runs.alice_game_data, [Toy.blunder_analysis],
    [Toy.blunder_puzzle], Runs.alice_doc.
  split; reflexivity.
Defined.

(** X25.  For every puzzle that [analyze_game] returns, once saved and
    loaded, the trainer accepts a move exactly when it is the move of
    one of the puzzle's acceptable lines; the correct move is one of
    them, so it is accepted. *)
Theorem X25_trainer_accepts_the_acceptable_lines
  {R : ChessRules} {E : EngineModel}
  (game : Tester.Game) (username game_url : string) (e e' : Engine)
  (analyses : list Tester.MoveAnalysis.t)
  (blunders : list Tester.BlunderPuzzle.t) :
  Tester.analyze_game game username game_url e
  = (Ok (analyses, blunders), e') ->
  List.Forall
    (fun b =>
       (forall move_uci url color,
          Trainer.is_correct_move move_uci (tagged url color b)
          = Ok (among move_uci (Tester.BlunderPuzzle.acceptable_moves b)))
       /\ among (Tester.BlunderPuzzle.correct_move_uci b)
            (Tester.BlunderPuzzle.acceptable_moves b) = true)
    blunders.
Proof.
  intros Hrun. apply analyze_game_inv in Hrun. destruct Hrun as [Hall ->].
  unfold puzzles_of. rewrite List.Forall_map.
  apply List.Forall_forall. intros a Ha.
  apply List.filter_In in Ha. destruct Ha as [Ha _].
  rewrite List.Forall_forall in Hall. destruct (Hall a Ha) as [tm Hof].
  destruct (TrainerFacts.analysis_acceptable_head tm a Hof)
    as (first & rest & Hacc & Hfirst).
  cbn [puzzle_of_analysis Tester.BlunderPuzzle.acceptable_moves
       Tester.BlunderPuzzle.correct_move_uci].
  assert (Hin : forall mv,
             String.eqb mv (Tester.MoveAnalysis.best_move_uci a)
             || among mv (Tester.MoveAnalysis.acceptable_moves a)
             = among mv (Tester.MoveAnalysis.acceptable_moves a)).
  { intros mv. rewrite Hacc. unfold among. cbn [existsb]. rewrite Hfirst.
    destruct (String.eqb mv (Tester.MoveAnalysis.best_move_uci a));
      reflexivity. }
  split.
  - intros mv url color.
    rewrite TrainerFacts.is_correct_move_tagged.
    cbn [puzzle_of_analysis Tester.BlunderPuzzle.acceptable_moves
         Tester.BlunderPuzzle.correct_move_uci].
    rewrite Hin. reflexivity.
  - rewrite <- Hin, String.eqb_refl. reflexivity.
Qed.

(** The game in which white's first move loses 170 centipawns. *)
Lemma X25_blunder_game_witness :
  List.Forall
    (fun b =>
       (forall move_uci url color,
          Trainer.is_correct_move move_uci (tagged url color b)
          = Ok (among move_uci (Tester.BlunderPuzzle.acceptable_moves b)))
       /\ among (Tester.BlunderPuzzle.correct_move_uci b)
            (Tester.BlunderPuzzle.acceptable_moves b) = true)
    [Toy.blunder_puzzle].
Proof.
  apply (X25_trainer_accepts_the_acceptable_lines
           (R := Toy.rules) (E := Toy.engine)
           Toy.blunder_game "alice" "game7"
           (Toy.start Toy.blunder_script) (Toy.finished (Some 3) None)
           [Toy.blunder_analysis] [Toy.blunder_puzzle]).
  reflexivity.
Defined.

(** X26.  A click anywhere inside the square that [draw_board] draws for
    a column and a row is read by [coords_to_square] as that column and
    row, with the board flipped or not. *)
Theorem X26_click_hits_the_drawn_square (flip : bool) (col row dx dy : Z) :
  0 <= dx < Trainer.SQUARE_SIZE ->
  0 <= dy < Trainer.SQUARE_SIZE ->
  Trainer.coords_to_square flip
    (fst (Trainer.drawn_at flip col row) + dx)
    (snd (Trainer.drawn_at flip col row) + dy)
  = Trainer.chess_square col row.
Proof.
  unfold Trainer.coords_to_square, Trainer.drawn_at, Trainer.chess_square,
    Trainer.SQUARE_SIZE.
  intros Hx Hy. cbn [fst snd].
  assert (Hdiv : forall k d, 0 <= d < 64 -> (k * 64 + d) / 64 = k).
  { intros k d Hd. rewrite Z.div_add_l by lia. rewrite Z.div_small by lia.
    lia. }
  destruct flip; cbn [negb]; rewrite !Hdiv by assumption; lia.
Qed.

(** A click in the middle of the square of e4 on a flipped board. *)
Lemma X26_e4_witness :
  Trainer.coords_to_square true
    (fst (Trainer.drawn_at true 4 3) + 32)
    (snd (Trainer.drawn_at true 4 3) + 32)
  = Trainer.chess_square 4 3.
Proof.
  apply (X26_click_hits_the_drawn_square true 4 3 32 32);
    unfold Trainer.SQUARE_SIZE; lia.
Defined.

(** X27.  A click on the board gives one of the 64 squares, and the same
    click on the flipped board gives the square opposite through the
    centre. *)
Theorem X27_click_is_a_square_and_flip_mirrors (x y : Z) :
  0 <= x < Trainer.BOARD_SIZE ->
  0 <= y < Trainer.BOARD_SIZE ->
  0 <= Trainer.coords_to_square false x y < 64
  /\ Trainer.coords_to_square true x y
     = 63 - Trainer.coords_to_square false x y.
Proof.
  unfold Trainer.coords_to_square, Trainer.chess_square, Trainer.BOARD_SIZE,
    Trainer.SQUARE_SIZE.
  intros Hx Hy.
  assert (Hcol : 0 <= x / 64 < 8)
    by (split; [apply Z.div_pos; lia | apply Z.div_lt_upper_bound; lia]).
  assert (Hrow : 0 <= y / 64 < 8)
    by (split; [apply Z.div_pos; lia | apply Z.div_lt_upper_bound; lia]).
  lia.
Qed.

(** The top left corner of the board. *)
Lemma X27_corner_witness :
  0 <= Trainer.coords_to_square false 0 0 < 64
  /\ Trainer.coords_to_square true 0 0
     = 63 - Trainer.coords_to_square false 0 0.
Proof.
  apply (X27_click_is_a_square_and_flip_mirrors 0 0);
    unfold Trainer.BOARD_SIZE, Trainer.SQUARE_SIZE; lia.
Defined.
